(** * NocoDB MCP server: a shallow embedding of both front doors

    The repository ships two servers that wrap the NocoDB REST API:

    - [mcp-server-fastapi.py], a FastAPI application with a [/call]
      endpoint (module [FastApi] below);
    - [nocodb_mcp_server.py], a FastMCP server that registers one tool per
      operation (module [McpServer] below).

    Python values, exceptions and datetimes are modelled in [Py]; the
    aiohttp boundary (requests handed to a client session, replies coming
    back) in [Http].  Library functions whose code is not part of the
    repository ([datetime.fromisoformat], [str], [json.dumps],
    [response.json], the remote service itself) are the fields of the
    class [Runtime]; [Demo] gives one instance to run the handlers on. *)

From Stdlib Require Import ZArith QArith Qcanon Qround Qabs Qpower SpecFloat.
From Stdlib Require Import String Ascii List Lia Lqa.
From stdpp Require Import base option list gmap strings countable pretty.

Local Set Warnings "-register-all".
Local Open Scope string_scope.

(** ** Python values *)

Module Py.

(** What [json.loads] can produce.  A JSON number with a fraction or an
    exponent becomes a [float]; a finite double is a rational, kept here
    by its exact value. *)
Inductive value :=
| VNone
| VBool (b : bool)
| VInt (n : Z)
| VFloat (q : Qc)
| VStr (s : string)
| VList (l : list value)
| VDict (d : list (string * value)).

(** A JSON object: a [dict] with [str] keys, first binding wins. *)
Definition record := list (string * value).

Fixpoint dict_get (k : string) (d : record) : option value :=
  match d with
  | [] => None
  | (k', v) :: d' => if String.eqb k k' then Some v else dict_get k d'
  end.

(** [bool(v)] *)
Definition truthy (v : value) : bool :=
  match v with
  | VNone => false
  | VBool b => b
  | VInt n => negb (n =? 0)%Z
  | VFloat q => negb (Qeq_bool q 0)
  | VStr s => negb (String.eqb s "")
  | VList l => match l with [] => false | _ => true end
  | VDict d => match d with [] => false | _ => true end
  end.

(** [d.get(k)] used as a condition: a missing key gives [None], which is
    falsy. *)
Definition get_truthy (k : string) (r : record) : bool :=
  match dict_get k r with
  | Some v => truthy v
  | None => false
  end.

(** Keys of a Python [dict].  [True == 1 == 1.0] and they hash alike, so
    numbers are keyed by their value; lists and dicts are unhashable. *)
Inductive key := KNone | KNum (q : Qc) | KStr (s : string).

Definition hash_key (v : value) : option key :=
  match v with
  | VNone => Some KNone
  | VBool b => Some (KNum (Q2Qc (inject_Z (if b then 1 else 0))))
  | VInt n => Some (KNum (Q2Qc (inject_Z n)))
  | VFloat q => Some (KNum q)
  | VStr s => Some (KStr s)
  | VList _ | VDict _ => None
  end.

Inductive exn :=
| HTTPException (status_code : Z) (detail : string)
| KeyError (k : string)
| AttributeError
| TypeError
| ValueError
| RuntimeError
| ClientResponseError (status : Z)
| JSONDecodeError
| UnboundLocalError
| ZeroDivisionError
| ClientError (msg : string).

Inductive result (A : Type) :=
| Ok (a : A)
| Raise (e : exn).
Arguments Ok {A} a.
Arguments Raise {A} e.

Definition is_ok {A} (r : result A) : bool :=
  match r with Ok _ => true | Raise _ => false end.

(** [d[k]] *)
Definition subscript (k : string) (d : record) : result value :=
  match dict_get k d with
  | Some v => Ok v
  | None => Raise (KeyError k)
  end.

(** [s.replace('Z', '+00:00')]: every occurrence, not only a trailing one. *)
Fixpoint replace_Z (s : string) : string :=
  match s with
  | EmptyString => EmptyString
  | String c s' =>
      if Ascii.eqb c "Z" then "+00:00" ++ replace_Z s'
      else String c (replace_Z s')
  end.

(** [s.rstrip("/")] *)
Fixpoint rstrip_slash (s : string) : string :=
  match s with
  | EmptyString => EmptyString
  | String c s' =>
      match rstrip_slash s' with
      | EmptyString => if Ascii.eqb c "/" then EmptyString else String c EmptyString
      | t => String c t
      end
  end.

(** A [datetime]: the wall-clock fields as microseconds on the proleptic
    time line, and the UTC offset when the value is timezone-aware. *)
Record datetime := { wall : Z; utcoffset : option Z }.

Definition naive (t : Z) : datetime := {| wall := t; utcoffset := None |}.

(** [timedelta(hours=h)] in microseconds. *)
Definition timedelta_hours (h : Z) : Z := (h * 3600 * 1000000)%Z.
Definition timedelta_minutes (m : Z) : Z := (m * 60 * 1000000)%Z.

(** [d - delta] *)
Definition dt_sub (d : datetime) (delta : Z) : datetime :=
  {| wall := (wall d - delta)%Z; utcoffset := utcoffset d |}.

(** [a > b]: naive values compare by their fields, aware values by their
    instants, and mixing the two raises [TypeError]. *)
Definition dt_gt (a b : datetime) : result bool :=
  match utcoffset a, utcoffset b with
  | None, None => Ok (wall a >? wall b)%Z
  | Some oa, Some ob => Ok (wall a - oa >? wall b - ob)%Z
  | _, _ => Raise TypeError
  end.

End Py.
Export Py.

Global Instance result_ret : MRet result := @Ok.
Global Instance result_bind : MBind result := λ A B f m,
  match m with Ok a => f a | Raise e => Raise e end.
Global Instance result_fmap : FMap result := λ A B f m,
  match m with Ok a => Ok (f a) | Raise e => Raise e end.

Global Instance key_eq_dec : EqDecision key.
Proof. solve_decision. Defined.

Global Instance key_countable : Countable key.
Proof.
  refine (inj_countable'
            (λ k, match k with
                  | KNone => inl () | KNum q => inr (inl q) | KStr s => inr (inr s)
                  end)
            (λ x, match x with
                  | inl _ => KNone | inr (inl q) => KNum q | inr (inr s) => KStr s
                  end) _).
  by intros [].
Defined.

(** ** The aiohttp boundary *)

Module Http.

Inductive method := GET | POST | PATCH | DELETE.

(** One call of [session.get], [session.post], [session.patch] or
    [session.delete], with the keyword arguments the code passes. *)
Record request := {
  req_method : method;
  req_url : string;
  req_headers : list (string * value);
  req_params : option (list (string * value));
  req_json : option value
}.

Record response := { status : Z; body : string }.

(** What the client library gives back: a response, or an exception of
    its own (connection refused, timeout, ...). *)
Inductive reply :=
| Answered (r : response)
| Failed (e : exn).

(** An [aiohttp.ClientSession] object. *)
Record ClientSession := { closed : bool; timeout_total : Z }.

(** The session objects allocated so far (a reference is an index into
    [sessions]) and the requests handed to the client library, oldest
    first. *)
Record net := { sessions : list ClientSession; sent : list request }.

Definition empty_net : net := {| sessions := []; sent := [] |}.

(** [aiohttp.ClientSession(timeout=aiohttp.ClientTimeout(total=t))] *)
Definition new_session (t : Z) (n : net) : nat * net :=
  (length (sessions n),
   {| sessions := sessions n ++ [ {| closed := false; timeout_total := t |} ];
      sent := sent n |}).

Definition session_closed (ref : nat) (n : net) : bool :=
  match sessions n !! ref with
  | Some s => closed s
  | None => true
  end.

(** [await session.close()] *)
Definition close_session_obj (ref : nat) (n : net) : net :=
  {| sessions := alter (λ s, {| closed := true; timeout_total := timeout_total s |})
                       ref (sessions n);
     sent := sent n |}.

(** [response.raise_for_status()]: aiohttp raises when [status >= 400]. *)
Definition raise_for_status (r : response) : result unit :=
  if (400 <=? status r)%Z then Raise (ClientResponseError (status r)) else Ok ().

End Http.
Export Http.

(** ** Library functions and the remote service *)

Class Runtime := {
  (** [datetime.fromisoformat]; [None] stands for [ValueError]. *)
  fromisoformat : string → option datetime;
  (** [datetime.isoformat] *)
  isoformat : datetime → string;
  (** [str(v)] for a value that is not a [str]. *)
  repr : value → string;
  (** [json.dumps] *)
  json_dumps : value → string;
  (** [await response.json()]; [None] stands for a body that does not
      decode. *)
  response_json : response → option value;
  (** [str(e)] *)
  exn_str : exn → string;
  (** The client library together with the remote service. *)
  remote : request → reply
}.

(** [f"{v}"] *)
Definition format_value `{Runtime} (v : value) : string :=
  match v with
  | VStr s => s
  | _ => repr v
  end.

(** ** Binary64 arithmetic

    [count / total], [* 100] and [round(x, 1)] are computed on Python
    floats.  Every operation returns the double nearest to the exact
    result, ties to even; doubles are kept by their exact rational value.
    Only finite results are modelled, which is all the percentages need. *)

Module Float64.

Local Open Scope Q_scope.

(** Nearest integer, ties to even. *)
Definition round_half_even (q : Q) : Z :=
  let f := Qfloor q in
  match Qcompare (q - inject_Z f) (1 # 2) with
  | Lt => f
  | Gt => (f + 1)%Z
  | Eq => if Z.even f then f else (f + 1)%Z
  end.

(** [floor (log2 q)] for [q > 0]. *)
Definition ilog2 (q : Q) : Z :=
  let e := (Z.log2 (Qnum q) - Z.log2 (Zpos (Qden q)))%Z in
  if Qle_bool (2 ^ e) q then e else (e - 1)%Z.

(** The exponent of the unit in the last place: 53 significant bits, and
    no finer than [2 ^ -1074]. *)
Definition ulp_exponent (q : Q) : Z := Z.max (ilog2 (Qabs q) - 52) (-1074).

(** Round to nearest double. *)
Definition rn (q : Q) : Q :=
  if Qeq_bool q 0 then 0
  else
    let e := ulp_exponent q in
    inject_Z (round_half_even (q / 2 ^ e)) * 2 ^ e.

(** [a / b] on ints: the correctly rounded quotient, and a raise when the
    divisor is zero. *)
Definition true_div (a b : Z) : result Q :=
  if (b =? 0)%Z then Raise ZeroDivisionError
  else Ok (rn (inject_Z a / inject_Z b)).

(** [x * y] on floats. *)
Definition mul (x y : Q) : Q := rn (x * y).

(** [round(x, 1)]: [x] is rounded to one decimal by its exact value, ties
    to even, and the decimal is converted back to a double. *)
Definition tenths (x : Q) : Z := round_half_even (x * 10).
Definition round1 (x : Q) : Q := rn (inject_Z (tenths x) / 10).

End Float64.

(** [round((count / total) * 100, 1) if total > 0 else 0] *)
Definition percentage (count total : nat) : result value :=
  if (0 <? total)%nat then
    ratio ← Float64.true_div (Z.of_nat count) (Z.of_nat total);
    Ok (VFloat (Q2Qc (Float64.round1 (Float64.mul ratio (inject_Z 100)))))
  else Ok (VInt 0).

(** [len([r for r in records if r.get(field)])] *)
Definition count_with (field : string) (records : list record) : nat :=
  length (List.filter (get_truthy field) records).

(** [datetime.fromisoformat(v.replace('Z', '+00:00'))] for the value [v] of
    a timestamp field: only a [str] has [replace]. *)
Definition parse_timestamp `{Runtime} (v : value) : result datetime :=
  match v with
  | VStr s =>
      match fromisoformat (replace_Z s) with
      | Some t => Ok t
      | None => Raise ValueError
      end
  | _ => Raise AttributeError
  end.

(** The [analytics] dict built by both servers. *)
Record analytics := {
  total_reactions : nat;
  with_images : nat;
  cinematic_count : nat;
  anime_count : nat;
  with_sref_codes : nat;
  shot_types : gmap key nat;
  recent_24h : nat
}.

Record summary := {
  message : string;
  cinematic_percentage : value;
  anime_percentage : value;
  sref_coverage : value
}.

(** The shot type loop, the same statement in both files:
    [if record.get("shot_type"): shot_types[k] = shot_types.get(k, 0) + 1] *)
Definition shot_type_step (acc : gmap key nat) (r : record) : result (gmap key nat) :=
  match dict_get "shot_type" r with
  | Some v =>
      if truthy v then
        match hash_key v with
        | Some k => Ok (<[k := (default 0%nat (acc !! k) + 1)%nat]> acc)
        | None => Raise TypeError
        end
      else Ok acc
  | None => Ok acc
  end.

Fixpoint for_each {A B} (step : A → B → result A) (acc : A) (l : list B) : result A :=
  match l with
  | [] => Ok acc
  | x :: l' =>
      match step acc x with
      | Ok acc' => for_each step acc' l'
      | Raise e => Raise e
      end
  end.

(** [[x for x in l if cond(x)]] where the condition may raise. *)
Fixpoint comprehension {A} (cond : A → result bool) (l : list A) : result (list A) :=
  match l with
  | [] => Ok []
  | x :: l' =>
      match cond x with
      | Ok b =>
          match comprehension cond l' with
          | Ok rest => Ok (if b then x :: rest else rest)
          | Raise e => Raise e
          end
      | Raise e => Raise e
      end
  end.

(** [try: body except (ValueError, AttributeError): handler] and the like. *)
Definition try_except {A} (body : result A) (catches : exn → bool) (handler : result A)
  : result A :=
  match body with
  | Ok a => Ok a
  | Raise e => if catches e then handler else Raise e
  end.

(** [records = data.get("list", [])] followed by [len(records)] and the
    first comprehension, which calls [r.get] on every element: [data] must
    be a dict, [records] must be sized, and each element must be a dict. *)
Definition records_of (data : value) : result (list record) :=
  match data with
  | VDict d =>
      match default (VList []) (dict_get "list" d) with
      | VList l => mapM (λ x, match x with VDict r => Ok r | _ => Raise AttributeError end) l
      | VStr s => if String.eqb s "" then Ok [] else Raise AttributeError
      | VDict [] => Ok []
      | VDict (_ :: _) => Raise AttributeError
      | _ => Raise TypeError
      end
  | _ => Raise AttributeError
  end.

(** ** Handlers: state and exceptions

    A handler runs against a state (its server context and the network
    record) and either returns or raises; a raise keeps the state changes
    made before it. *)

Definition M (S A : Type) : Type := S → result A * S.

Global Instance M_ret {S} : MRet (M S) := λ A a s, (Ok a, s).
Global Instance M_bind {S} : MBind (M S) := λ A B f m s,
  match m s with
  | (Ok a, s') => f a s'
  | (Raise e, s') => (Raise e, s')
  end.

Definition lift {S A} (r : result A) : M S A := λ s, (r, s).
Definition raise {S A} (e : exn) : M S A := λ s, (Raise e, s).

(** [try: body except Exception as e: handler(e)] *)
Definition try_catch {S A} (body : M S A) (handler : exn → M S A) : M S A := λ s,
  match body s with
  | (Ok a, s') => (Ok a, s')
  | (Raise e, s') => handler e s'
  end.

(** A running server: its context object and the network record. *)
Record server (C : Type) := { context : C; network : net }.
Arguments context {C} _.
Arguments network {C} _.

(** [async with session.<method>(url, ...) as response]: the call is handed
    to the client library, which refuses a closed session. *)
Definition send `{Runtime} {C} (ref : nat) (req : request) : M (server C) response := λ st,
  if session_closed ref (network st) then (Raise RuntimeError, st)
  else
    let st' := {| context := context st;
                  network := {| sessions := sessions (network st);
                                sent := sent (network st) ++ [req] |} |} in
    match remote req with
    | Answered r => (Ok r, st')
    | Failed e => (Raise e, st')
    end.

(** [await response.json()] *)
Definition json `{Runtime} (r : response) : result value :=
  match response_json r with
  | Some v => Ok v
  | None => Raise JSONDecodeError
  end.

Definition mk_request (m : method) (url : string) (headers : list (string * value))
    (params : option (list (string * value))) (data : option value) : request :=
  {| req_method := m; req_url := url; req_headers := headers;
     req_params := params; req_json := data |}.

(** ** [mcp-server-fastapi.py] *)

Module FastApi.

Record MCPState := {
  nocodb_url : string;
  api_token : option string;
  session : option nat
}.

(** [MCPState.__init__], from the two environment variables. *)
Definition init (env_url env_token : option string) : MCPState :=
  {| nocodb_url := default "https://nocodb.v1su4.com" env_url;
     api_token := env_token;
     session := None |}.

(** The global [mcp_state] with the network record. *)
Abbreviation state := (server MCPState).
Abbreviation mcp_state := (@context MCPState) (only parsing).

Definition set_session (ref : nat) (n : net) (st : state) : state :=
  {| context := {| nocodb_url := nocodb_url (mcp_state st);
                   api_token := api_token (mcp_state st);
                   session := Some ref |};
     network := n |}.

(** [MCPState.get_session] *)
Definition get_session : M state nat := λ st,
  let create :=
    let '(ref, n) := new_session 30 (network st) in
    (Ok ref, set_session ref n st) in
  match session (mcp_state st) with
  | None => create
  | Some ref => if session_closed ref (network st) then create else (Ok ref, st)
  end.

(** [MCPState.close] *)
Definition close : M state unit := λ st,
  match session (mcp_state st) with
  | Some ref =>
      if negb (session_closed ref (network st)) then
        (Ok (), {| context := mcp_state st;
                   network := close_session_obj ref (network st) |})
      else (Ok (), st)
  | None => (Ok (), st)
  end.

Section Tools.
Context `{Runtime}.

(** The condition of the recent-activity comprehension, line 418:
    [r.get("timestamp") and
     datetime.fromisoformat(r["timestamp"].replace('Z', '+00:00')) > cutoff] *)
Definition is_recent (cutoff : datetime) (r : record) : result bool :=
  match dict_get "timestamp" r with
  | Some v =>
      if truthy v then t ← parse_timestamp v; dt_gt t cutoff
      else Ok false
  | None => Ok false
  end.

(** Recent activity, lines 414-419; [now] is the wall-clock reading of
    [datetime.now()], which is naive. *)
Definition recent_activity (now : Z) (records : list record) : result nat :=
  let cutoff := dt_sub (naive now) (timedelta_hours 24) in
  length <$> comprehension (is_recent cutoff) records.

(** The analytics block of [execute_nocodb_tool], lines 398-419. *)
Definition compute_analytics (now : Z) (records : list record) : result analytics :=
  shots ← for_each shot_type_step ∅ records;
  recent ← recent_activity now records;
  Ok {| total_reactions := length records;
        with_images := count_with "image_url" records;
        cinematic_count := count_with "cinematic" records;
        anime_count := count_with "anime" records;
        with_sref_codes := count_with "sref_code" records;
        shot_types := shots;
        recent_24h := recent |}.

(** The [summary] dict, lines 424-429. *)
Definition summarize (a : analytics) : result summary :=
  cinematic ← percentage (cinematic_count a) (total_reactions a);
  anime ← percentage (anime_count a) (total_reactions a);
  sref ← percentage (with_sref_codes a) (total_reactions a);
  Ok {| message := "📊 " ++ pretty (total_reactions a) ++ " total reactions, "
                   ++ pretty (with_images a) ++ " with images, "
                   ++ pretty (recent_24h a) ++ " in last 24h";
        cinematic_percentage := cinematic;
        anime_percentage := anime;
        sref_coverage := sref |}.

(** Both dicts of the report. *)
Definition analyse (now : Z) (records : list record) : result (analytics * summary) :=
  a ← compute_analytics now records;
  s ← summarize a;
  Ok (a, s).

(** What a tool hands back: a JSON value, or the analytics report
    [{"success": True, "analytics": ..., "summary": ...}]. *)
Inductive payload :=
| PJson (v : value)
| PAnalytics (a : analytics) (s : summary).

Definition column (name title uidt : string) (extra : record) : value :=
  VDict ([("column_name", VStr name); ("title", VStr title); ("uidt", VStr uidt)]
           ++ extra).

Definition table_schema : value :=
  VDict
    [("table_name", VStr "discord_heart_reactions");
     ("title", VStr "Discord Heart Reactions");
     ("columns", VList
        [column "message_content" "Message Content" "Text" [("required", VBool true)];
         column "sref_code" "SREF Code" "SingleLineText" [];
         column "image_url" "Image URL" "URL" [];
         column "cinematic" "Cinematic" "Checkbox" [("default", VBool false)];
         column "anime" "Anime" "Checkbox" [("default", VBool false)];
         column "colors" "Colors" "Text" [];
         column "shot_type" "Shot Type" "SingleLineText" [];
         column "mood" "Mood" "SingleLineText" [];
         column "style" "Style" "SingleLineText" [];
         column "subject" "Subject" "Text" [];
         column "discord_message_id" "Discord Message ID" "SingleLineText"
           [("required", VBool true); ("unique", VBool true)];
         column "discord_channel_id" "Discord Channel ID" "SingleLineText"
           [("required", VBool true)];
         column "timestamp" "Timestamp" "DateTime" [("required", VBool true)]])].

(** [response.raise_for_status(); return await response.json()] *)
Definition checked_json (r : response) : M state payload :=
  lift (raise_for_status r);; v ← lift (json r); mret (PJson v).

(** The names tested by the [if]/[elif] chain. *)
Definition tool_names : list string :=
  ["nocodb_test_connection"; "nocodb_list_projects"; "nocodb_list_tables";
   "nocodb_get_records"; "nocodb_create_record"; "nocodb_search_records";
   "nocodb_update_record"; "nocodb_delete_record";
   "nocodb_create_discord_reactions_table"; "nocodb_get_analytics"].

(** [args.get("url", mcp_state.nocodb_url).rstrip("/")]: only a [str] has
    [rstrip]. *)
Definition base_url_of (args : record) : M state string := λ st,
  (match default (VStr (nocodb_url (mcp_state st))) (dict_get "url" args) with
   | VStr u => Ok (rstrip_slash u)
   | _ => Raise AttributeError
   end, st).

(** [execute_nocodb_tool]; [now] is what [datetime.now()] reads. *)
Definition execute_nocodb_tool (now : Z) (tool_name : string) (args : record)
    (api_token : value) : M state payload :=
  session ← get_session;
  let headers := [("Content-Type", VStr "application/json"); ("xc-auth", api_token)] in
  base_url ← base_url_of args;
  if String.eqb tool_name "nocodb_test_connection" then
    response ← send session
      (mk_request GET (base_url ++ "/api/v1/db/meta/projects") headers None None);
    if negb (status response =? 200)%Z then
      raise (HTTPException (status response) "Connection failed")
    else v ← lift (json response); mret (PJson v)
  else if String.eqb tool_name "nocodb_list_projects" then
    response ← send session
      (mk_request GET (base_url ++ "/api/v1/db/meta/projects") headers None None);
    checked_json response
  else if String.eqb tool_name "nocodb_list_tables" then
    project_id ← lift (subscript "project_id" args);
    response ← send session
      (mk_request GET (base_url ++ "/api/v1/db/meta/projects/"
                         ++ format_value project_id ++ "/tables") headers None None);
    checked_json response
  else if String.eqb tool_name "nocodb_get_records" then
    project_id ← lift (subscript "project_id" args);
    table_id ← lift (subscript "table_id" args);
    let params := [("limit", default (VInt 10) (dict_get "limit" args));
                   ("offset", default (VInt 0) (dict_get "offset" args))] in
    response ← send session
      (mk_request GET (base_url ++ "/api/v1/db/data/noco/" ++ format_value project_id
                         ++ "/" ++ format_value table_id) headers (Some params) None);
    checked_json response
  else if String.eqb tool_name "nocodb_create_record" then
    project_id ← lift (subscript "project_id" args);
    table_id ← lift (subscript "table_id" args);
    record_data ← lift (subscript "record_data" args);
    response ← send session
      (mk_request POST (base_url ++ "/api/v1/db/data/noco/" ++ format_value project_id
                          ++ "/" ++ format_value table_id) headers None (Some record_data));
    checked_json response
  else if String.eqb tool_name "nocodb_search_records" then
    project_id ← lift (subscript "project_id" args);
    table_id ← lift (subscript "table_id" args);
    let filters := default (VDict []) (dict_get "filters" args) in
    let params := [("where", VStr (json_dumps filters))] in
    response ← send session
      (mk_request GET (base_url ++ "/api/v1/db/data/noco/" ++ format_value project_id
                         ++ "/" ++ format_value table_id) headers (Some params) None);
    checked_json response
  else if String.eqb tool_name "nocodb_update_record" then
    project_id ← lift (subscript "project_id" args);
    table_id ← lift (subscript "table_id" args);
    record_id ← lift (subscript "record_id" args);
    record_data ← lift (subscript "record_data" args);
    response ← send session
      (mk_request PATCH (base_url ++ "/api/v1/db/data/noco/" ++ format_value project_id
                           ++ "/" ++ format_value table_id ++ "/"
                           ++ format_value record_id) headers None (Some record_data));
    checked_json response
  else if String.eqb tool_name "nocodb_delete_record" then
    project_id ← lift (subscript "project_id" args);
    table_id ← lift (subscript "table_id" args);
    record_id ← lift (subscript "record_id" args);
    response ← send session
      (mk_request DELETE (base_url ++ "/api/v1/db/data/noco/" ++ format_value project_id
                            ++ "/" ++ format_value table_id ++ "/"
                            ++ format_value record_id) headers None None);
    lift (raise_for_status response);;
    mret (PJson (VDict [("message", VStr "Record deleted successfully")]))
  else if String.eqb tool_name "nocodb_create_discord_reactions_table" then
    project_id ← lift (subscript "project_id" args);
    response ← send session
      (mk_request POST (base_url ++ "/api/v1/db/meta/projects/"
                          ++ format_value project_id ++ "/tables")
                  headers None (Some table_schema));
    checked_json response
  else if String.eqb tool_name "nocodb_get_analytics" then
    project_id ← lift (subscript "project_id" args);
    table_id ← lift (subscript "table_id" args);
    response ← send session
      (mk_request GET (base_url ++ "/api/v1/db/data/noco/" ++ format_value project_id
                         ++ "/" ++ format_value table_id ++ "?limit=1000")
                  headers None None);
    lift (raise_for_status response);;
    data ← lift (json response);
    records ← lift (records_of data);
    report ← lift (analyse now records);
    mret (PAnalytics report.1 report.2)
  else
    raise (HTTPException 400 ("Unknown tool: " ++ tool_name)).

(** The pydantic models of the [/call] endpoint. *)
Record ToolCall := { name : string; arguments : record }.

Record MCPResponse := {
  success : bool;
  result_ : option payload;
  error : option string
}.

(** [tool_call.arguments.get("api_token", mcp_state.api_token)] *)
Definition credential (args : record) (st : state) : value :=
  default (from_option VStr VNone (api_token (mcp_state st))) (dict_get "api_token" args).

(** [execute_tool], the [/call] endpoint. *)
Definition execute_tool (now : Z) (tool_call : ToolCall) : M state MCPResponse :=
  try_catch
    (api_token ← (λ st, (Ok (credential (arguments tool_call) st), st));
     (if negb (truthy api_token) then
        raise (HTTPException 400 "API token required")
      else mret ());;
     r ← execute_nocodb_tool now (name tool_call) (arguments tool_call) api_token;
     mret {| success := true; result_ := Some r; error := None |})
    (λ e, mret {| success := false; result_ := None; error := Some (exn_str e) |}).

(** What the ASGI application answers on [POST /call]: a returned model
    goes out with status 200; an exception leaving the endpoint goes
    through the two registered exception handlers. *)
Inductive content :=
| Model (m : MCPResponse)
| ErrorJson (err : string).

Record http_answer := { status_code : Z; content_ : content }.

Definition post_call (now : Z) (tool_call : ToolCall) (st : state)
  : http_answer * state :=
  match execute_tool now tool_call st with
  | (Ok m, st') => ({| status_code := 200; content_ := Model m |}, st')
  | (Raise (HTTPException sc detail), st') =>
      ({| status_code := sc; content_ := ErrorJson detail |}, st')
  | (Raise _, st') =>
      ({| status_code := 500; content_ := ErrorJson "Internal server error" |}, st')
  end.


(** One entry of the [properties] dict of an input schema. *)
Definition property (type description : string) : value :=
  VDict [("type", VStr type); ("description", VStr description)].

Definition property_with_default (type description : string) (dflt : value) : value :=
  VDict [("type", VStr type); ("description", VStr description); ("default", dflt)].

(** One entry of the [tools] list. *)
Definition tool (name description : string) (properties : record) (required : list string)
  : value :=
  VDict [("name", VStr name);
         ("description", VStr description);
         ("inputSchema",
          VDict [("type", VStr "object");
                 ("properties", VDict properties);
                 ("required", VList (map VStr required))])].

Definition token_property : string * value :=
  ("api_token", property "string" "NocoDB API token").
Definition project_property : string * value :=
  ("project_id", property "string" "Project ID").
Definition table_property : string * value :=
  ("table_id", property "string" "Table ID").

(** [list_tools], the [/tools] endpoint. *)
Definition list_tools : value :=
  VDict
    [("name", VStr "nocodb-mcp-tools");
     ("description", VStr "NocoDB Model Context Protocol tools for Cursor IDE integration");
     ("version", VStr "1.0.0");
     ("tools", VList
        [tool "nocodb_test_connection" "Test connection to NocoDB instance"
           [("url", property "string" "NocoDB instance URL"); token_property]
           ["api_token"];
         tool "nocodb_list_projects" "List all projects in NocoDB"
           [token_property]
           ["api_token"];
         tool "nocodb_list_tables" "List tables in a project"
           [project_property; token_property]
           ["project_id"; "api_token"];
         tool "nocodb_get_records" "Get records from table"
           [project_property; table_property;
            ("limit", property_with_default "integer" "Max records" (VInt 10));
            ("offset", property_with_default "integer" "Offset" (VInt 0));
            token_property]
           ["project_id"; "table_id"; "api_token"];
         tool "nocodb_create_record" "Create new record"
           [project_property; table_property;
            ("record_data", property "object" "Record data"); token_property]
           ["project_id"; "table_id"; "record_data"; "api_token"];
         tool "nocodb_search_records" "Search records with filters"
           [project_property; table_property;
            ("filters", property "object" "Search filters"); token_property]
           ["project_id"; "table_id"; "filters"; "api_token"];
         tool "nocodb_update_record" "Update existing record"
           [project_property; table_property;
            ("record_id", property "string" "Record ID");
            ("record_data", property "object" "Updated data"); token_property]
           ["project_id"; "table_id"; "record_id"; "record_data"; "api_token"];
         tool "nocodb_delete_record" "Delete record"
           [project_property; table_property;
            ("record_id", property "string" "Record ID"); token_property]
           ["project_id"; "table_id"; "record_id"; "api_token"];
         tool "nocodb_create_discord_reactions_table" "Create Discord reactions table"
           [project_property; token_property]
           ["project_id"; "api_token"];
         tool "nocodb_get_analytics" "Get Discord reactions analytics"
           [project_property; table_property; token_property]
           ["project_id"; "table_id"; "api_token"]])].

(** [health_check], the [/health] endpoint; [python_version] stands for
    the interpreter's [major.minor]. *)
Definition health_check (now : Z) (python_version : string) (st : state) : value :=
  VDict
    [("status", VStr "healthy");
     ("timestamp", VStr (isoformat (naive now)));
     ("version", VStr "1.0.0");
     ("nocodb_connected", VBool (truthy (from_option VStr VNone (api_token (mcp_state st)))));
     ("server_info",
      VDict [("framework", VStr "FastAPI");
             ("python_version", VStr python_version);
             ("nocodb_url", VStr (nocodb_url (mcp_state st)))])].

(** [shutdown_event] *)
Definition shutdown_event : M state unit := close.
End Tools.
End FastApi.

(** ** [nocodb_mcp_server.py] *)

Module McpServer.

Record NocoDBContext := {
  nocodb_url : string;
  api_token : string;
  session : option nat;
  startup_time : Qc
}.

Abbreviation state := (server NocoDBContext).

(** [lifespan] up to its [yield]: the context is built from the two
    environment variables.  With a missing or empty token the [ValueError]
    is re-raised by the [except] clause, and the [finally] clause then
    reads the local [context] that was never bound, so the exception that
    leaves is [UnboundLocalError]. *)
Definition lifespan (env_url env_token : option string) (time : Qc)
  : result NocoDBContext :=
  let nocodb_url := default "https://nocodb.v1su4.com" env_url in
  match env_token with
  | Some token =>
      if negb (String.eqb token "") then
        Ok {| nocodb_url := rstrip_slash nocodb_url;
              api_token := token;
              session := None;
              startup_time := time |}
      else Raise UnboundLocalError
  | None => Raise UnboundLocalError
  end.

Definition set_session (ref : nat) (n : net) (st : state) : state :=
  {| context := {| nocodb_url := nocodb_url (context st);
                   api_token := api_token (context st);
                   session := Some ref;
                   startup_time := startup_time (context st) |};
     network := n |}.

(** [NocoDBContext.get_session] *)
Definition get_session : M state nat := λ st,
  let create :=
    let '(ref, n) := new_session 30 (network st) in
    (Ok ref, set_session ref n st) in
  match session (context st) with
  | None => create
  | Some ref => if session_closed ref (network st) then create else (Ok ref, st)
  end.

(** [NocoDBContext.close_session] *)
Definition close_session : M state unit := λ st,
  match session (context st) with
  | Some ref =>
      if negb (session_closed ref (network st)) then
        (Ok (), {| context := context st;
                   network := close_session_obj ref (network st) |})
      else (Ok (), st)
  | None => (Ok (), st)
  end.

Section Tools.
Context `{Runtime}.

(** A tool returns [json.dumps] of an object; the object is kept as it is
    before serialisation. *)
Inductive output :=
| Json (v : value)
| Report (project_id table_id : string) (a : analytics) (s : summary)
         (timestamp : string).

Definition failure (what : string) (e : exn) : value :=
  VDict [("success", VBool false); ("error", VStr (what ++ ": " ++ exn_str e))].

(** [getattr(ctx.request_context, "lifespan_context")] *)
Definition lifespan_context : M state NocoDBContext := λ st, (Ok (context st), st).

(** [nocodb_get_records]; [None] for [limit] or [offset] is an argument the
    caller left out.  [stamp] is what the closing [datetime.now()] reads. *)
Definition nocodb_get_records (stamp : Z) (project_id table_id : string)
    (limit offset : option Z) : M state output :=
  let limit := default 10%Z limit in
  let offset := default 0%Z offset in
  try_catch
    (ctx ← lifespan_context;
     session ← get_session;
     let headers := [("xc-token", VStr (api_token ctx))] in
     let params := [("limit", VInt limit); ("offset", VInt offset)] in
     response ← send session
       (mk_request GET (nocodb_url ctx ++ "/api/v1/db/data/noco/" ++ project_id
                          ++ "/" ++ table_id) headers (Some params) None);
     lift (raise_for_status response);;
     data ← lift (json response);
     mret (Json (VDict [("success", VBool true);
                        ("project_id", VStr project_id);
                        ("table_id", VStr table_id);
                        ("records", data);
                        ("timestamp", VStr (isoformat (naive stamp)))])))
    (λ e, mret (Json (failure "Failed to get records" e))).

(** [nocodb_delete_record] *)
Definition nocodb_delete_record (stamp : Z) (project_id table_id record_id : string)
  : M state output :=
  try_catch
    (ctx ← lifespan_context;
     session ← get_session;
     let headers := [("xc-token", VStr (api_token ctx))] in
     response ← send session
       (mk_request DELETE (nocodb_url ctx ++ "/api/v1/db/data/noco/" ++ project_id
                             ++ "/" ++ table_id ++ "/" ++ record_id) headers None None);
     lift (raise_for_status response);;
     mret (Json (VDict [("success", VBool true);
                        ("project_id", VStr project_id);
                        ("table_id", VStr table_id);
                        ("record_id", VStr record_id);
                        ("message", VStr "Record deleted successfully");
                        ("timestamp", VStr (isoformat (naive stamp)))])))
    (λ e, mret (Json (failure "Failed to delete record" e))).

(** One turn of the recent-activity loop, lines 659-666. *)
Definition recent_step (cutoff : datetime) (count : nat) (r : record) : result nat :=
  if get_truthy "timestamp" r then
    try_except
      (v ← subscript "timestamp" r;
       record_time ← parse_timestamp v;
       later ← dt_gt record_time cutoff;
       Ok (if later : bool then (count + 1)%nat else count))
      (λ e, match e with ValueError | AttributeError => true | _ => false end)
      (Ok count)
  else Ok count.

(** Recent activity, lines 656-666; [now] is the wall-clock reading of
    [datetime.now()], which is naive. *)
Definition recent_activity (now : Z) (records : list record) : result nat :=
  let cutoff := dt_sub (naive now) (timedelta_hours 24) in
  for_each (recent_step cutoff) 0%nat records.

(** The analytics block of [nocodb_get_analytics], lines 640-666. *)
Definition compute_analytics (now : Z) (records : list record) : result analytics :=
  shots ← for_each shot_type_step ∅ records;
  recent ← recent_activity now records;
  Ok {| total_reactions := length records;
        with_images := count_with "image_url" records;
        cinematic_count := count_with "cinematic" records;
        anime_count := count_with "anime" records;
        with_sref_codes := count_with "sref_code" records;
        shot_types := shots;
        recent_24h := recent |}.

(** The [summary] dict, lines 673-678. *)
Definition summarize (a : analytics) : result summary :=
  cinematic ← percentage (cinematic_count a) (total_reactions a);
  anime ← percentage (anime_count a) (total_reactions a);
  sref ← percentage (with_sref_codes a) (total_reactions a);
  Ok {| message := pretty (total_reactions a) ++ " total reactions, "
                   ++ pretty (with_images a) ++ " with images, "
                   ++ pretty (recent_24h a) ++ " in last 24h";
        cinematic_percentage := cinematic;
        anime_percentage := anime;
        sref_coverage := sref |}.

(** Both dicts of the report. *)
Definition analyse (now : Z) (records : list record) : result (analytics * summary) :=
  a ← compute_analytics now records;
  s ← summarize a;
  Ok (a, s).

(** [nocodb_get_analytics]; [now] and [stamp] are the two readings of
    [datetime.now()]. *)
Definition nocodb_get_analytics (now stamp : Z) (project_id table_id : string)
  : M state output :=
  try_catch
    (ctx ← lifespan_context;
     session ← get_session;
     let headers := [("xc-token", VStr (api_token ctx))] in
     response ← send session
       (mk_request GET (nocodb_url ctx ++ "/api/v1/db/data/noco/" ++ project_id
                          ++ "/" ++ table_id ++ "?limit=1000") headers None None);
     lift (raise_for_status response);;
     data ← lift (json response);
     records ← lift (records_of data);
     report ← lift (analyse now records);
     mret (Report project_id table_id report.1 report.2 (isoformat (naive stamp))))
    (λ e, mret (Json (failure "Failed to get analytics" e))).


(** [len(v)] *)
Definition py_len (v : value) : result Z :=
  match v with
  | VList l => Ok (Z.of_nat (length l))
  | VDict d => Ok (Z.of_nat (length d))
  | VStr s => Ok (Z.of_nat (String.length s))
  | _ => Raise TypeError
  end.

(** [v.get(k, default)]: only a dict has [get]. *)
Definition value_get (k : string) (dflt : value) (v : value) : result value :=
  match v with
  | VDict d => Ok (default dflt (dict_get k d))
  | _ => Raise AttributeError
  end.

(** [health_check]; [started] tells whether the request context carries a
    lifespan context, [clock] is what [time.time()] reads. *)
Definition health_check (started : bool) (stamp : Z) (clock : Qc) : M state output :=
  try_catch
    (if negb started then
       mret (Json (VDict [("success", VBool true);
                          ("status", VStr "starting");
                          ("message", VStr "NocoDB MCP server is initializing...");
                          ("timestamp", VStr (isoformat (naive stamp)))]))
     else
       ctx ← lifespan_context;
       session ← get_session;
       let headers := [("xc-token", VStr (api_token ctx))] in
       nocodb_status ←
         try_catch
           (response ← send session
              (mk_request GET (nocodb_url ctx ++ "/api/v1/db/meta/projects")
                 headers None None);
            mret (if (status response =? 200)%Z then "healthy" else "unhealthy"))
           (λ e, mret ("error: " ++ exn_str e));
       mret (Json (VDict [("success", VBool true);
                          ("status", VStr "healthy");
                          ("nocodb_status", VStr nocodb_status);
                          ("uptime_seconds",
                           VFloat (Q2Qc (Float64.rn (clock - startup_time ctx)%Qc)));
                          ("nocodb_url", VStr (nocodb_url ctx));
                          ("timestamp", VStr (isoformat (naive stamp)))])))
    (λ e, mret (Json (VDict [("success", VBool false);
                             ("error", VStr ("Health check failed: " ++ exn_str e));
                             ("timestamp", VStr (isoformat (naive stamp)))]))).

(** [nocodb_test_connection] *)
Definition nocodb_test_connection (stamp : Z) : M state output :=
  try_catch
    (ctx ← lifespan_context;
     session ← get_session;
     let headers := [("xc-token", VStr (api_token ctx))] in
     response ← send session
       (mk_request GET (nocodb_url ctx ++ "/api/v1/db/meta/projects") headers None None);
     if negb (status response =? 200)%Z then
       mret (Json (VDict [("success", VBool false);
                          ("error", VStr ("Connection failed with status "
                                            ++ pretty (status response) ++ ": "
                                            ++ body response))]))
     else
       projects ← lift (json response);
       projects_list ← lift (value_get "list" (VList []) projects);
       projects_count ← lift (py_len projects_list);
       mret (Json (VDict [("success", VBool true);
                          ("message", VStr "Connection successful");
                          ("projects_count", VInt projects_count);
                          ("projects", projects);
                          ("timestamp", VStr (isoformat (naive stamp)))])))
    (λ e, mret (Json (failure "Connection test failed" e))).

(** [nocodb_list_projects] *)
Definition nocodb_list_projects (stamp : Z) : M state output :=
  try_catch
    (ctx ← lifespan_context;
     session ← get_session;
     let headers := [("xc-token", VStr (api_token ctx))] in
     response ← send session
       (mk_request GET (nocodb_url ctx ++ "/api/v1/db/meta/projects") headers None None);
     lift (raise_for_status response);;
     data ← lift (json response);
     mret (Json (VDict [("success", VBool true);
                        ("projects", data);
                        ("timestamp", VStr (isoformat (naive stamp)))])))
    (λ e, mret (Json (failure "Failed to list projects" e))).

(** [nocodb_list_tables] *)
Definition nocodb_list_tables (stamp : Z) (project_id : string) : M state output :=
  try_catch
    (ctx ← lifespan_context;
     session ← get_session;
     let headers := [("xc-token", VStr (api_token ctx))] in
     response ← send session
       (mk_request GET (nocodb_url ctx ++ "/api/v1/db/meta/projects/" ++ project_id
                          ++ "/tables") headers None None);
     lift (raise_for_status response);;
     data ← lift (json response);
     mret (Json (VDict [("success", VBool true);
                        ("project_id", VStr project_id);
                        ("tables", data);
                        ("timestamp", VStr (isoformat (naive stamp)))])))
    (λ e, mret (Json (failure "Failed to list tables" e))).

(** [nocodb_create_record] *)
Definition nocodb_create_record (stamp : Z) (project_id table_id : string)
    (record_data : record) : M state output :=
  try_catch
    (ctx ← lifespan_context;
     session ← get_session;
     let headers := [("xc-token", VStr (api_token ctx));
                     ("Content-Type", VStr "application/json")] in
     response ← send session
       (mk_request POST (nocodb_url ctx ++ "/api/v1/db/data/noco/" ++ project_id
                           ++ "/" ++ table_id) headers None (Some (VDict record_data)));
     lift (raise_for_status response);;
     data ← lift (json response);
     mret (Json (VDict [("success", VBool true);
                        ("project_id", VStr project_id);
                        ("table_id", VStr table_id);
                        ("record", data);
                        ("timestamp", VStr (isoformat (naive stamp)))])))
    (λ e, mret (Json (failure "Failed to create record" e))).

(** [nocodb_update_record] *)
Definition nocodb_update_record (stamp : Z) (project_id table_id record_id : string)
    (record_data : record) : M state output :=
  try_catch
    (ctx ← lifespan_context;
     session ← get_session;
     let headers := [("xc-token", VStr (api_token ctx));
                     ("Content-Type", VStr "application/json")] in
     response ← send session
       (mk_request PATCH (nocodb_url ctx ++ "/api/v1/db/data/noco/" ++ project_id
                            ++ "/" ++ table_id ++ "/" ++ record_id)
                   headers None (Some (VDict record_data)));
     lift (raise_for_status response);;
     data ← lift (json response);
     mret (Json (VDict [("success", VBool true);
                        ("project_id", VStr project_id);
                        ("table_id", VStr table_id);
                        ("record_id", VStr record_id);
                        ("record", data);
                        ("timestamp", VStr (isoformat (naive stamp)))])))
    (λ e, mret (Json (failure "Failed to update record" e))).

(** [nocodb_search_records] *)
Definition nocodb_search_records (stamp : Z) (project_id table_id : string)
    (filters : record) : M state output :=
  try_catch
    (ctx ← lifespan_context;
     session ← get_session;
     let headers := [("xc-token", VStr (api_token ctx))] in
     let params := [("where", VStr (json_dumps (VDict filters)))] in
     response ← send session
       (mk_request GET (nocodb_url ctx ++ "/api/v1/db/data/noco/" ++ project_id
                          ++ "/" ++ table_id) headers (Some params) None);
     lift (raise_for_status response);;
     data ← lift (json response);
     mret (Json (VDict [("success", VBool true);
                        ("project_id", VStr project_id);
                        ("table_id", VStr table_id);
                        ("filters", VDict filters);
                        ("records", data);
                        ("timestamp", VStr (isoformat (naive stamp)))])))
    (λ e, mret (Json (failure "Failed to search records" e))).

Definition column (name title uidt : string) (extra : record) : value :=
  VDict ([("column_name", VStr name); ("title", VStr title); ("uidt", VStr uidt)]
           ++ extra).

(** The [table_schema] dict of [nocodb_create_discord_reactions_table]. *)
Definition table_schema : value :=
  VDict
    [("table_name", VStr "discord_heart_reactions");
     ("title", VStr "Discord Heart Reactions");
     ("columns", VList
        [column "message_content" "Message Content" "Text" [("required", VBool true)];
         column "sref_code" "SREF Code" "SingleLineText" [];
         column "image_url" "Image URL" "URL" [];
         column "cinematic" "Cinematic" "Checkbox" [("default", VBool false)];
         column "anime" "Anime" "Checkbox" [("default", VBool false)];
         column "colors" "Colors" "Text" [];
         column "shot_type" "Shot Type" "SingleLineText" [];
         column "mood" "Mood" "SingleLineText" [];
         column "style" "Style" "SingleLineText" [];
         column "subject" "Subject" "Text" [];
         column "discord_message_id" "Discord Message ID" "SingleLineText"
           [("required", VBool true); ("unique", VBool true)];
         column "discord_channel_id" "Discord Channel ID" "SingleLineText"
           [("required", VBool true)];
         column "timestamp" "Timestamp" "DateTime" [("required", VBool true)]])].

(** [nocodb_create_discord_reactions_table] *)
Definition nocodb_create_discord_reactions_table (stamp : Z) (project_id : string)
  : M state output :=
  try_catch
    (ctx ← lifespan_context;
     session ← get_session;
     let headers := [("xc-token", VStr (api_token ctx));
                     ("Content-Type", VStr "application/json")] in
     response ← send session
       (mk_request POST (nocodb_url ctx ++ "/api/v1/db/meta/projects/" ++ project_id
                           ++ "/tables") headers None (Some table_schema));
     lift (raise_for_status response);;
     data ← lift (json response);
     mret (Json (VDict [("success", VBool true);
                        ("project_id", VStr project_id);
                        ("table", data);
                        ("message",
                         VStr "Discord Heart Reactions table created successfully");
                        ("timestamp", VStr (isoformat (naive stamp)))])))
    (λ e, mret (Json (failure "Failed to create Discord reactions table" e))).

(** What [lifespan] does after its [yield]:
    [if hasattr(context, 'session'): await context.close_session()]; the
    dataclass always has the attribute. *)
Definition lifespan_exit : M state unit := close_session.
End Tools.
End McpServer.

(** ** A runtime to run the handlers on

    Stand-ins for the library functions, enough for the examples: ISO
    timestamps of the shape [YYYY-MM-DD], [YYYY-MM-DD?HH:MM:SS] and
    [YYYY-MM-DD?HH:MM:SS+HH:MM], and a remote service with a fixed table of
    answers. *)

Module Demo.

Local Open Scope Z_scope.

Definition digit (c : ascii) : option Z :=
  let n := Z.of_nat (nat_of_ascii c) in
  if (48 <=? n) && (n <=? 57) then Some (n - 48) else None.

Fixpoint number (acc : Z) (cs : list ascii) : option Z :=
  match cs with
  | [] => Some acc
  | c :: cs' =>
      match digit c with
      | Some d => number (10 * acc + d) cs'
      | None => None
      end
  end.

Definition is_char (c : ascii) (cs : list ascii) : bool :=
  match cs with
  | [c'] => Ascii.eqb c c'
  | _ => false
  end.

Definition is_leap (y : Z) : bool :=
  (y mod 4 =? 0) && (negb (y mod 100 =? 0) || (y mod 400 =? 0)).

Definition days_in_month (y m : Z) : Z :=
  if m =? 2 then (if is_leap y then 29 else 28)
  else if (m =? 4) || (m =? 6) || (m =? 9) || (m =? 11) then 30
  else 31.

(** Days from 1970-01-01 to the given civil date. *)
Definition days_from_civil (y m d : Z) : Z :=
  let y' := if m <=? 2 then y - 1 else y in
  let era := y' / 400 in
  let yoe := y' - era * 400 in
  let doy := (153 * (if 2 <? m then m - 3 else m + 9) + 2) / 5 + d - 1 in
  let doe := yoe * 365 + yoe / 4 - yoe / 100 + doy in
  era * 146097 + doe - 719468.

Definition parse_date (cs : list ascii) : option Z :=
  if is_char "-" (take 1 (drop 4 cs)) && is_char "-" (take 1 (drop 7 cs)) then
    y ← number 0 (take 4 cs);
    m ← number 0 (take 2 (drop 5 cs));
    d ← number 0 (take 2 (drop 8 cs));
    if (1 <=? y) && (1 <=? m) && (m <=? 12) && (1 <=? d) && (d <=? days_in_month y m)
    then Some (days_from_civil y m d * 86400)
    else None
  else None.

(** [HH:MM:SS] in seconds. *)
Definition parse_time (cs : list ascii) : option Z :=
  if is_char ":" (take 1 (drop 2 cs)) && is_char ":" (take 1 (drop 5 cs)) then
    h ← number 0 (take 2 cs);
    m ← number 0 (take 2 (drop 3 cs));
    s ← number 0 (take 2 (drop 6 cs));
    if (h <? 24) && (m <? 60) && (s <? 60) then Some (h * 3600 + m * 60 + s) else None
  else None.

(** [+HH:MM] or [-HH:MM] in seconds. *)
Definition parse_offset (cs : list ascii) : option Z :=
  let sign := if is_char "+" (take 1 cs) then Some 1
              else if is_char "-" (take 1 cs) then Some (-1) else None in
  if is_char ":" (take 1 (drop 3 cs)) then
    sg ← sign;
    h ← number 0 (take 2 (drop 1 cs));
    m ← number 0 (take 2 (drop 4 cs));
    if (h <? 24) && (m <? 60) then Some (sg * (h * 3600 + m * 60)) else None
  else None.

Definition fromisoformat (s : string) : option datetime :=
  let cs := list_ascii_of_string s in
  let n := length cs in
  date ← parse_date (take 10 cs);
  if (n =? 10)%nat then Some (naive (date * 1000000))
  else if (n =? 19)%nat then
    time ← parse_time (take 8 (drop 11 cs));
    Some (naive ((date + time) * 1000000))
  else if (n =? 25)%nat then
    time ← parse_time (take 8 (drop 11 cs));
    off ← parse_offset (drop 19 cs);
    Some {| wall := (date + time) * 1000000; utcoffset := Some (off * 1000000) |}
  else None.

Definition pad2 (n : Z) : string :=
  if n <? 10 then "0" ++ pretty n else pretty n.

Definition pad4 (n : Z) : string :=
  (if n <? 10 then "000" else if n <? 100 then "00" else if n <? 1000 then "0" else "")
    ++ pretty n.

Definition pad6 (n : Z) : string :=
  (if n <? 10 then "00000" else if n <? 100 then "0000" else if n <? 1000 then "000"
   else if n <? 10000 then "00" else if n <? 100000 then "0" else "")
    ++ pretty n.

(** The civil date of a day count, as [YYYY-MM-DD]. *)
Definition civil_from_days (days : Z) : string :=
  let z := days + 719468 in
  let era := z / 146097 in
  let doe := z - era * 146097 in
  let yoe := (doe - doe / 1460 + doe / 36524 - doe / 146096) / 365 in
  let doy := doe - (365 * yoe + yoe / 4 - yoe / 100) in
  let mp := (5 * doy + 2) / 153 in
  let d := doy - (153 * mp + 2) / 5 + 1 in
  let m := if mp <? 10 then mp + 3 else mp - 9 in
  let y := yoe + era * 400 + (if m <=? 2 then 1 else 0) in
  pad4 y ++ "-" ++ pad2 m ++ "-" ++ pad2 d.

Definition isoformat (d : datetime) : string :=
  let secs := wall d / 1000000 in
  let micros := wall d mod 1000000 in
  let tod := secs mod 86400 in
  civil_from_days (secs / 86400) ++ "T" ++ pad2 (tod / 3600) ++ ":"
    ++ pad2 (tod mod 3600 / 60) ++ ":" ++ pad2 (tod mod 60)
    ++ (if micros =? 0 then "" else "." ++ pad6 micros)
    ++ match utcoffset d with
       | None => ""
       | Some off =>
           let o := Z.abs off / 1000000 in
           (if off <? 0 then "-" else "+") ++ pad2 (o / 3600) ++ ":" ++ pad2 (o mod 3600 / 60)
       end.

(** [str] of the scalars. *)
Definition repr (v : value) : string :=
  match v with
  | VNone => "None"
  | VBool true => "True"
  | VBool false => "False"
  | VInt n => pretty n
  | VFloat q => pretty (Qfloor q) ++ ".?"
  | VStr s => s
  | VList _ => "[...]"
  | VDict _ => "{...}"
  end.

Definition quote : string := String (ascii_of_nat 34) EmptyString.

(** [json.dumps] of scalars and of empty containers. *)
Definition json_dumps (v : value) : string :=
  match v with
  | VNone => "null"
  | VBool true => "true"
  | VBool false => "false"
  | VInt n => pretty n
  | VFloat q => pretty (Qfloor q) ++ ".?"
  | VStr s => quote ++ s ++ quote
  | VList [] => "[]"
  | VList _ => "[...]"
  | VDict [] => "{}"
  | VDict _ => "{...}"
  end.

Definition exn_str (e : exn) : string :=
  match e with
  | HTTPException sc d => pretty sc ++ ": " ++ d
  | KeyError k => "'" ++ k ++ "'"
  | ClientResponseError sc => pretty sc
  | ClientError msg => msg
  | ValueError => "Invalid isoformat string"
  | TypeError => "unsupported operand"
  | AttributeError => "object has no attribute"
  | RuntimeError => "Session is closed"
  | JSONDecodeError => "Expecting value"
  | UnboundLocalError => "cannot access local variable"
  | ZeroDivisionError => "division by zero"
  end.

(** Three reaction rows: a recent one, one exactly 24 hours before
    [noon], and one with a broken timestamp. *)
Definition noon : Z := 1714564800000000.   (* 2024-05-01T12:00:00 *)

Definition row1 : record :=
  [("image_url", VStr "https://cdn.example/1.png"); ("cinematic", VBool true);
   ("shot_type", VStr "close-up"); ("timestamp", VStr "2024-05-01T09:30:00")].
Definition row2 : record :=
  [("anime", VBool true); ("sref_code", VStr "1234");
   ("shot_type", VStr "close-up"); ("timestamp", VStr "2024-04-30T12:00:00")].
Definition row3 : record :=
  [("cinematic", VBool false); ("shot_type", VStr "wide");
   ("timestamp", VStr "not-a-date")].
Definition row4 : record :=
  [("shot_type", VStr "wide"); ("timestamp", VStr "2024-04-30T12:01:00")].

(** The bodies the demo service sends and what they decode to. *)
Definition known_bodies : list (string * value) :=
  [("{}", VDict []);
   ("<two rows>", VDict [("list", VList [VDict row1; VDict row2])]);
   ("<three rows>", VDict [("list", VList [VDict row1; VDict row2; VDict row3])])].

Definition response_json (r : response) : option value := dict_get (body r) known_bodies.

(** The demo service: deletions are answered with an empty 200, the bad
    table with three rows, every other read with two rows or [{}]. *)
Definition remote (req : request) : reply :=
  match req_method req with
  | DELETE => Answered {| status := 200; body := "" |}
  | GET =>
      if String.eqb (req_url req) "https://db.example/api/v1/db/data/noco/p1/bad?limit=1000"
      then Answered {| status := 200; body := "<three rows>" |}
      else if String.eqb (req_url req) "https://db.example/api/v1/db/data/noco/p1/t1?limit=1000"
      then Answered {| status := 200; body := "<two rows>" |}
      else Answered {| status := 200; body := "{}" |}
  | _ => Answered {| status := 200; body := "{}" |}
  end.

Definition runtime : Runtime :=
  Build_Runtime fromisoformat isoformat repr json_dumps response_json exn_str remote.

Definition fresh (token : option string) : FastApi.state :=
  {| context := FastApi.init (Some "https://db.example/") token; network := empty_net |}.

Definition started : McpServer.state :=
  {| context := {| McpServer.nocodb_url := "https://db.example";
                   McpServer.api_token := "tok";
                   McpServer.session := None;
                   McpServer.startup_time := 0%Qc |};
     network := empty_net |}.

End Demo.

(** ** Vocabulary of the statements *)

(** The session a context holds, when it holds one that is open. *)
Definition live_session (held : option nat) (n : net) : option nat :=
  match held with
  | Some ref => if session_closed ref n then None else Some ref
  | None => None
  end.

(** What acquiring and releasing must do in a server state [st]; [held]
    reads the session field of a context and [same_config] compares the
    other fields. *)
Definition session_contract {C} (held : C → option nat) (same_config : C → C → Prop)
    (acquire : M (server C) nat) (release : M (server C) unit) (st : server C) : Prop :=
  (∃ ref st',
      acquire st = (Ok ref, st')
      ∧ live_session (held (context st')) (network st') = Some ref
      ∧ same_config (context st) (context st')
      ∧ sent (network st') = sent (network st)
      ∧ match live_session (held (context st)) (network st) with
        | Some ref0 => ref = ref0 ∧ st' = st
        | None =>
            ref = length (sessions (network st))
            ∧ sessions (network st')
              = (sessions (network st)
                 ++ [ {| closed := false; timeout_total := 30 |} ])%list
        end)
  ∧ (∃ st',
      release st = (Ok (), st')
      ∧ live_session (held (context st')) (network st') = None
      ∧ context st' = context st
      ∧ sent (network st') = sent (network st)
      ∧ match live_session (held (context st)) (network st) with
        | Some ref =>
            ∃ s, sessions (network st) !! ref = Some s
                 ∧ sessions (network st')
                   = <[ref := {| closed := true; timeout_total := timeout_total s |}]>
                       (sessions (network st))
        | None => st' = st
        end
      ∧ release st' = (Ok (), st')).

(** The [url] argument, when given, is a string (only a string can be
    stripped of its trailing slashes). *)
Definition url_is_str (args : record) : bool :=
  match dict_get "url" args with
  | Some (VStr _) | None => true
  | Some _ => false
  end.

(** The elements a comprehension keeps: those on which the condition
    returns true. *)
Definition passes {A} (cond : A → result bool) (x : A) : bool :=
  match cond x with
  | Ok b => b
  | Raise _ => false
  end.

(** What one turn of the shot type loop does with a record: nothing, a
    raise on an unhashable value, or one more for a key. *)
Inductive shot_class := Skip | Unhashable | Counted (k : key).

Definition classify_shot (r : record) : shot_class :=
  match dict_get "shot_type" r with
  | Some v =>
      if truthy v then
        match hash_key v with
        | Some k => Counted k
        | None => Unhashable
        end
      else Skip
  | None => Skip
  end.

(** Whether the recent-activity loop of the MCP server counts a record. *)
Definition counts_as_recent `{Runtime} (cutoff : datetime) (r : record) : result bool :=
  match dict_get "timestamp" r with
  | Some (VStr s) =>
      if String.eqb s "" then Ok false
      else
        match fromisoformat (replace_Z s) with
        | Some t => dt_gt t cutoff
        | None => Ok false
        end
  | _ => Ok false
  end.

(** The sum of the counts of a shot type mapping. *)
Definition shot_total (m : gmap key nat) : nat :=
  map_fold (λ _ n total, (n + total)%nat) 0%nat m.

(** The bounds every analytics dict must respect. *)
Definition within_bounds (a : analytics) : Prop :=
  (with_images a ≤ total_reactions a)%nat
  ∧ (cinematic_count a ≤ total_reactions a)%nat
  ∧ (anime_count a ≤ total_reactions a)%nat
  ∧ (with_sref_codes a ≤ total_reactions a)%nat
  ∧ (recent_24h a ≤ total_reactions a)%nat
  ∧ (∀ k n, shot_types a !! k = Some n → (1 ≤ n)%nat)
  ∧ (shot_total (shot_types a) ≤ total_reactions a)%nat.

(** [p] is a percentage of [count] in [total] rounded to one decimal: the
    double nearest to [k / 10] for an integer [k] with
    [|k / 10 - 100 * count / total| <= 1 / 20]. *)
Definition one_decimal_percentage (p : value) (count total : nat) : Prop :=
  ∃ k : Z,
    p = VFloat (Q2Qc (Float64.rn (inject_Z k / 10)))
    ∧ (Z.abs (2 * k * Z.of_nat total - 2000 * Z.of_nat count) <= Z.of_nat total)%Z.

(** The binary64 operations of the standard library's [SpecFloat], to
    compare [Float64] with. *)
Definition SF2Q (f : spec_float) : Q :=
  match f with
  | S754_finite s m e => inject_Z (if s then Z.neg m else Z.pos m) * 2 ^ e
  | _ => 0
  end.

Definition SF_of_int (n : Z) : spec_float := binary_normalize 53 1024 n 0 false.

Definition agrees_with_SpecFloat (count total : Z) : bool :=
  match Float64.true_div count total with
  | Ok ratio =>
      Qeq_bool (ratio) (SF2Q (SFdiv 53 1024 (SF_of_int count) (SF_of_int total)))
      && Qeq_bool (Float64.mul ratio (inject_Z 100))
           (SF2Q (SFmul 53 1024 (SFdiv 53 1024 (SF_of_int count) (SF_of_int total))
                    (SF_of_int 100)))
  | Raise _ => false
  end.

(** The pairs [(count, total)] with [count <= total] and [1 <= total <= n]. *)
Definition count_total_pairs (n : nat) : list (Z * Z) :=
  flat_map (λ t, map (λ c, (Z.of_nat c, Z.of_nat t)) (seq 0 (S t))) (seq 1 n).

(** ** Vocabulary of the dispatcher of the plain HTTP surface *)

(** What is done with the response of a tool. *)
Inductive finisher :=
| Relay       (* raise for status, return the decoded body *)
| Only200     (* anything but 200 is a failure, return the decoded body *)
| Confirm     (* raise for status, return the confirmation *)
| Aggregate.  (* raise for status, decode, aggregate *)

(** The request of a tool, without the base URL and the headers, and what
    follows the response. *)
Record plan := {
  plan_method : method;
  plan_path : string;
  plan_params : option (list (string * value));
  plan_json : option value;
  plan_finisher : finisher
}.

(** The keys a branch of the dispatcher reads with [args[...]], in the
    order it reads them. *)
Definition subscripted (tool_name : string) : list string :=
  if String.eqb tool_name "nocodb_list_tables" then ["project_id"]
  else if String.eqb tool_name "nocodb_get_records" then ["project_id"; "table_id"]
  else if String.eqb tool_name "nocodb_create_record"
  then ["project_id"; "table_id"; "record_data"]
  else if String.eqb tool_name "nocodb_search_records" then ["project_id"; "table_id"]
  else if String.eqb tool_name "nocodb_update_record"
  then ["project_id"; "table_id"; "record_id"; "record_data"]
  else if String.eqb tool_name "nocodb_delete_record"
  then ["project_id"; "table_id"; "record_id"]
  else if String.eqb tool_name "nocodb_create_discord_reactions_table" then ["project_id"]
  else if String.eqb tool_name "nocodb_get_analytics" then ["project_id"; "table_id"]
  else [].

(** The first of the keys that [args] lacks. *)
Definition first_missing (keys : list string) (args : record) : option string :=
  List.find (λ k, match dict_get k args with Some _ => false | None => true end) keys.

(** [args[k]] when the key is known to be there. *)
Definition arg (k : string) (args : record) : value := default VNone (dict_get k args).

Definition meta_projects : string := "/api/v1/db/meta/projects".

Definition tables_path `{Runtime} (args : record) : string :=
  "/api/v1/db/meta/projects/" ++ format_value (arg "project_id" args) ++ "/tables".

Definition data_path `{Runtime} (args : record) : string :=
  "/api/v1/db/data/noco/" ++ format_value (arg "project_id" args)
    ++ "/" ++ format_value (arg "table_id" args).

Definition row_path `{Runtime} (args : record) : string :=
  "/api/v1/db/data/noco/" ++ format_value (arg "project_id" args)
    ++ "/" ++ format_value (arg "table_id" args)
    ++ "/" ++ format_value (arg "record_id" args).

Definition analytics_path `{Runtime} (args : record) : string :=
  "/api/v1/db/data/noco/" ++ format_value (arg "project_id" args)
    ++ "/" ++ format_value (arg "table_id" args) ++ "?limit=1000".

(** The table of the ten tools, for arguments that hold every subscripted
    key. *)
Definition plan_of `{Runtime} (tool_name : string) (args : record) : option plan :=
  if String.eqb tool_name "nocodb_test_connection" then
    Some {| plan_method := GET; plan_path := meta_projects; plan_params := None;
            plan_json := None; plan_finisher := Only200 |}
  else if String.eqb tool_name "nocodb_list_projects" then
    Some {| plan_method := GET; plan_path := meta_projects; plan_params := None;
            plan_json := None; plan_finisher := Relay |}
  else if String.eqb tool_name "nocodb_list_tables" then
    Some {| plan_method := GET; plan_path := tables_path args; plan_params := None;
            plan_json := None; plan_finisher := Relay |}
  else if String.eqb tool_name "nocodb_get_records" then
    Some {| plan_method := GET; plan_path := data_path args;
            plan_params := Some [("limit", default (VInt 10) (dict_get "limit" args));
                                 ("offset", default (VInt 0) (dict_get "offset" args))];
            plan_json := None; plan_finisher := Relay |}
  else if String.eqb tool_name "nocodb_create_record" then
    Some {| plan_method := POST; plan_path := data_path args; plan_params := None;
            plan_json := Some (arg "record_data" args); plan_finisher := Relay |}
  else if String.eqb tool_name "nocodb_search_records" then
    Some {| plan_method := GET; plan_path := data_path args;
            plan_params :=
              Some [("where",
                     VStr (json_dumps (default (VDict []) (dict_get "filters" args))))];
            plan_json := None; plan_finisher := Relay |}
  else if String.eqb tool_name "nocodb_update_record" then
    Some {| plan_method := PATCH; plan_path := row_path args; plan_params := None;
            plan_json := Some (arg "record_data" args); plan_finisher := Relay |}
  else if String.eqb tool_name "nocodb_delete_record" then
    Some {| plan_method := DELETE; plan_path := row_path args; plan_params := None;
            plan_json := None; plan_finisher := Confirm |}
  else if String.eqb tool_name "nocodb_create_discord_reactions_table" then
    Some {| plan_method := POST; plan_path := tables_path args; plan_params := None;
            plan_json := Some FastApi.table_schema; plan_finisher := Relay |}
  else if String.eqb tool_name "nocodb_get_analytics" then
    Some {| plan_method := GET; plan_path := analytics_path args;
            plan_params := None; plan_json := None; plan_finisher := Aggregate |}
  else None.

(** What a tool makes of the response it gets. *)
Definition finish `{Runtime} (now : Z) (f : finisher) (r : response)
  : result FastApi.payload :=
  match f with
  | Relay =>
      raise_for_status r;; v ← json r; Ok (FastApi.PJson v)
  | Only200 =>
      if negb (status r =? 200)%Z then Raise (HTTPException (status r) "Connection failed")
      else v ← json r; Ok (FastApi.PJson v)
  | Confirm =>
      raise_for_status r;;
      Ok (FastApi.PJson (VDict [("message", VStr "Record deleted successfully")]))
  | Aggregate =>
      raise_for_status r;;
      data ← json r;
      records ← records_of data;
      report ← FastApi.analyse now records;
      Ok (FastApi.PAnalytics report.1 report.2)
  end.

(** The dispatcher, written over the table. *)
Definition dispatch_by_table `{Runtime} (now : Z) (tool_name : string) (args : record)
    (api_token : value) : M FastApi.state FastApi.payload :=
  session ← FastApi.get_session;
  base_url ← FastApi.base_url_of args;
  match plan_of tool_name args with
  | None => raise (HTTPException 400 ("Unknown tool: " ++ tool_name))
  | Some p =>
      match first_missing (subscripted tool_name) args with
      | Some k => raise (KeyError k)
      | None =>
          response ← send session
            (mk_request (plan_method p) (base_url ++ plan_path p)
               [("Content-Type", VStr "application/json"); ("xc-auth", api_token)]
               (plan_params p) (plan_json p));
          lift (finish now (plan_finisher p) response)
      end
  end.

(** The model the [/call] endpoint returns for the outcome of a tool. *)
Definition model_of `{Runtime} (r : result FastApi.payload) : FastApi.MCPResponse :=
  match r with
  | Ok p => {| FastApi.success := true; FastApi.result_ := Some p; FastApi.error := None |}
  | Raise e =>
      {| FastApi.success := false; FastApi.result_ := None;
         FastApi.error := Some (exn_str e) |}
  end.

Definition answer_200 (m : FastApi.MCPResponse) : FastApi.http_answer :=
  {| FastApi.status_code := 200; FastApi.content_ := FastApi.Model m |}.

(** The headers of every request of the plain HTTP surface. *)
Definition fastapi_headers (api_token : value) : list (string * value) :=
  [("Content-Type", VStr "application/json"); ("xc-auth", api_token)].

(** [l'] is [l] with at most one element added at the end. *)
Definition grows_by_at_most_one {A} (l l' : list A) : Prop :=
  l' = l ∨ ∃ x, l' = (l ++ [x])%list.

(** A server state with one more request handed to the client. *)
Definition with_sent {C} (req : request) (st : server C) : server C :=
  {| context := context st;
     network := {| sessions := sessions (network st);
                   sent := (sent (network st) ++ [req])%list |} |}.

(** The request a plan makes against a base URL. *)
Definition request_of (base_url : string) (api_token : value) (p : plan) : request :=
  mk_request (plan_method p) (base_url ++ plan_path p) (fastapi_headers api_token)
    (plan_params p) (plan_json p).

(** What comes of a request. *)
Definition outcome_of `{Runtime} (now : Z) (p : plan) (req : request)
  : result FastApi.payload :=
  match remote req with
  | Answered r => finish now (plan_finisher p) r
  | Failed e => Raise e
  end.

(** What the dispatcher does once it holds an open session, in a state
    [st]. *)
Definition after_session `{Runtime} (now : Z) (tool_name : string) (args : record)
    (api_token : value) (st : FastApi.state) : result FastApi.payload * FastApi.state :=
  match (FastApi.base_url_of args st).1 with
  | Raise e => (Raise e, st)
  | Ok base_url =>
      match plan_of tool_name args with
      | None => (Raise (HTTPException 400 ("Unknown tool: " ++ tool_name)), st)
      | Some p =>
          match first_missing (subscripted tool_name) args with
          | Some k => (Raise (KeyError k), st)
          | None =>
              let req := request_of base_url api_token p in
              (outcome_of now p req, with_sent req st)
          end
      end
  end.

(** ** A service that fails

    The demo runtime with another remote side: one host cannot be
    reached, one table is gone, the project list is answered with 203 and
    writes with 201 or 204. *)
Module Faulty.

Definition remote (req : request) : reply :=
  if String.prefix "https://down.example" (req_url req)
  then Failed (ClientError "Cannot connect to host down.example:443")
  else
    match req_method req with
    | DELETE => Answered {| status := 204; body := "" |}
    | POST => Answered {| status := 201; body := "{}" |}
    | PATCH => Answered {| status := 200; body := "{}" |}
    | GET =>
        if String.eqb (req_url req) "https://db.example/api/v1/db/meta/projects"
        then Answered {| status := 203; body := "{}" |}
        else if String.eqb (req_url req) "https://db.example/api/v1/db/data/noco/p1/gone"
        then Answered {| status := 404; body := "<html>" |}
        else Answered {| status := 200; body := "{}" |}
    end.

Definition runtime : Runtime :=
  Build_Runtime Demo.fromisoformat Demo.isoformat Demo.repr Demo.json_dumps
    Demo.response_json Demo.exn_str remote.

End Faulty.

(** A reaction row stamped one minute inside the last 24 hours before
    [Demo.noon], in UTC. *)
Definition utc_row : record :=
  [("shot_type", VStr "wide"); ("timestamp", VStr "2024-04-30T12:01:00Z")].

(** ** The shot type dict with its key objects

    [shot_type_step] keeps the counts of the dict by key; a Python dict
    also keeps, for each key, the object it was first inserted under, and
    the order of insertion.  Here is the same loop on the items
    themselves. *)

(** The items of a dict from shot types to counts, in insertion order. *)
Definition pydict := list (value * nat).

(** Whether an item is stored under the key [k]. *)
Definition same_key (k : key) (item : value * nat) : bool :=
  bool_decide (hash_key item.1 = Some k).

Definition pydict_lookup (k : key) (d : pydict) : option nat :=
  snd <$> List.find (same_key k) d.

(** [d.get(v, 0)] for a value [v] that hashes to [k]. *)
Definition pydict_get (k : key) (d : pydict) : nat := default 0%nat (pydict_lookup k d).

(** [d[v] = n] for a value [v] that hashes to [k]: an item with an equal
    key keeps its key object and its place, otherwise the item is added at
    the end. *)
Fixpoint pydict_set (v : value) (k : key) (n : nat) (d : pydict) : pydict :=
  match d with
  | [] => [(v, n)]
  | item :: d' =>
      if same_key k item then (item.1, n) :: d' else item :: pydict_set v k n d'
  end.

(** [if record.get("shot_type"):
       shot_types[v] = shot_types.get(v, 0) + 1] *)
Definition shot_dict_step (acc : pydict) (r : record) : result pydict :=
  match dict_get "shot_type" r with
  | Some v =>
      if truthy v then
        match hash_key v with
        | Some k => Ok (pydict_set v k (pydict_get k acc + 1) acc)
        | None => Raise TypeError
        end
      else Ok acc
  | None => Ok acc
  end.

(** The [shot_types] dict of a batch. *)
Definition shot_dict (records : list record) : result pydict :=
  for_each shot_dict_step [] records.




(** ** Vocabulary of the catalog *)

(** [v[k]] read leniently: [None] when [v] is no dict or lacks the key. *)
Definition field (k : string) (v : value) : value :=
  match v with
  | VDict d => default VNone (dict_get k d)
  | _ => VNone
  end.

Definition strings_of (v : value) : list string :=
  match v with
  | VList l => omap (λ x, match x with VStr s => Some s | _ => None end) l
  | _ => []
  end.

(** The name of an entry of the catalog and the arguments its schema
    requires. *)
Definition catalog_entry (t : value) : string * list string :=
  (match field "name" t with VStr s => s | _ => "" end,
   strings_of (field "required" (field "inputSchema" t))).

(** The entries of what [/tools] returns. *)
Definition catalog : list (string * list string) :=
  match field "tools" FastApi.list_tools with
  | VList l => map catalog_entry l
  | _ => []
  end.

(** ** Vocabulary of the life of the plain HTTP surface *)

(** What reaches the application, in order. *)
Inductive event :=
| Call (now : Z) (call : FastApi.ToolCall)
| Shutdown.

Definition handle `{Runtime} (st : FastApi.state) (e : event) : FastApi.state :=
  match e with
  | Call now call => (FastApi.post_call now call st).2
  | Shutdown => (FastApi.shutdown_event st).2
  end.

Definition run `{Runtime} (events : list event) (st : FastApi.state) : FastApi.state :=
  fold_left handle events st.

(** The state the module starts with. *)
Definition boot (env_url env_token : option string) : FastApi.state :=
  {| context := FastApi.init env_url env_token; network := empty_net |}.

Definition calls (events : list event) : nat :=
  length (List.filter (λ e, match e with Call _ _ => true | Shutdown => false end) events).

Definition shutdowns (events : list event) : nat :=
  length (List.filter (λ e, match e with Call _ _ => false | Shutdown => true end) events).

(** The state with another configured URL. *)
Definition with_url (u : string) (st : FastApi.state) : FastApi.state :=
  {| context := {| FastApi.nocodb_url := u;
                   FastApi.api_token := FastApi.api_token (context st);
                   FastApi.session := FastApi.session (context st) |};
     network := network st |}.

(** No session is open but the one the context holds. *)
Definition only_held_open (held : option nat) (n : net) : Prop :=
  ∀ ref, session_closed ref n = false → held = Some ref.

(** ** Vocabulary of the MCP tools *)

(** A call of one of the eleven tools with its arguments; an argument of
    [GetRecords] that is [None] is left to its default. *)
Inductive mcp_call :=
| HealthCheck (started : bool) (clock : Qc)
| TestConnection
| ListProjects
| ListTables (project_id : string)
| GetRecords (project_id table_id : string) (limit offset : option Z)
| CreateRecord (project_id table_id : string) (record_data : record)
| UpdateRecord (project_id table_id record_id : string) (record_data : record)
| DeleteRecord (project_id table_id record_id : string)
| SearchRecords (project_id table_id : string) (filters : record)
| CreateTable (project_id : string)
| GetAnalytics (project_id table_id : string).

Definition call_tool `{Runtime} (now stamp : Z) (c : mcp_call)
  : M McpServer.state McpServer.output :=
  match c with
  | HealthCheck started clock => McpServer.health_check started stamp clock
  | TestConnection => McpServer.nocodb_test_connection stamp
  | ListProjects => McpServer.nocodb_list_projects stamp
  | ListTables p => McpServer.nocodb_list_tables stamp p
  | GetRecords p t limit offset => McpServer.nocodb_get_records stamp p t limit offset
  | CreateRecord p t d => McpServer.nocodb_create_record stamp p t d
  | UpdateRecord p t r d => McpServer.nocodb_update_record stamp p t r d
  | DeleteRecord p t r => McpServer.nocodb_delete_record stamp p t r
  | SearchRecords p t f => McpServer.nocodb_search_records stamp p t f
  | CreateTable p => McpServer.nocodb_create_discord_reactions_table stamp p
  | GetAnalytics p t => McpServer.nocodb_get_analytics now stamp p t
  end.

(** Whether a call reaches the remote service: all do but a health check
    before the lifespan context exists. *)
Definition reaches_remote (c : mcp_call) : bool :=
  match c with
  | HealthCheck started _ => started
  | _ => true
  end.

(** The [success] flag and the [error] text of what a tool returns. *)
Definition flag_of (out : McpServer.output) : option bool :=
  match out with
  | McpServer.Json v => match field "success" v with VBool b => Some b | _ => None end
  | McpServer.Report _ _ _ _ _ => Some true
  end.

Definition error_of (out : McpServer.output) : option string :=
  match out with
  | McpServer.Json v => match field "error" v with VStr s => Some s | _ => None end
  | McpServer.Report _ _ _ _ _ => None
  end.

(** The shape of what a tool returns: a flag, and an error text exactly
    when the flag is false. *)
Definition well_flagged (out : McpServer.output) : Prop :=
  (flag_of out = Some true ∧ error_of out = None)
  ∨ (flag_of out = Some false ∧ is_Some (error_of out)).

(** An argument that may be left out. *)
Definition optional (k : string) (v : option value) : record :=
  match v with
  | Some x => [(k, x)]
  | None => []
  end.

(** The same call on the plain HTTP surface: the name of the tool and the
    argument dict. *)
Definition same_call (c : mcp_call) : option (string * record) :=
  match c with
  | HealthCheck _ _ => None
  | TestConnection => Some ("nocodb_test_connection", [])
  | ListProjects => Some ("nocodb_list_projects", [])
  | ListTables p => Some ("nocodb_list_tables", [("project_id", VStr p)])
  | GetRecords p t limit offset =>
      Some ("nocodb_get_records",
            ([("project_id", VStr p); ("table_id", VStr t)]
               ++ optional "limit" (VInt <$> limit)
               ++ optional "offset" (VInt <$> offset))%list)
  | CreateRecord p t d =>
      Some ("nocodb_create_record",
            [("project_id", VStr p); ("table_id", VStr t); ("record_data", VDict d)])
  | UpdateRecord p t r d =>
      Some ("nocodb_update_record",
            [("project_id", VStr p); ("table_id", VStr t); ("record_id", VStr r);
             ("record_data", VDict d)])
  | DeleteRecord p t r =>
      Some ("nocodb_delete_record",
            [("project_id", VStr p); ("table_id", VStr t); ("record_id", VStr r)])
  | SearchRecords p t f =>
      Some ("nocodb_search_records",
            [("project_id", VStr p); ("table_id", VStr t); ("filters", VDict f)])
  | CreateTable p =>
      Some ("nocodb_create_discord_reactions_table", [("project_id", VStr p)])
  | GetAnalytics p t =>
      Some ("nocodb_get_analytics", [("project_id", VStr p); ("table_id", VStr t)])
  end.

(** Two requests that differ in their headers at most. *)
Definition same_but_headers (a b : request) : Prop :=
  req_method a = req_method b ∧ req_url a = req_url b
  ∧ req_params a = req_params b ∧ req_json a = req_json b.

(** ** Vocabulary of the analytics *)

(** Whether the shot type loop counts a record under [k]. *)
Definition shot_is (k : key) (r : record) : bool :=
  match classify_shot r with
  | Counted k' => bool_decide (k' = k)
  | _ => false
  end.

(** Whether the timestamp of a record is a string that is not empty and
    parses to an aware instant, as one with [Z] or an offset does. *)
Definition aware_timestamp `{Runtime} (r : record) : bool :=
  match dict_get "timestamp" r with
  | Some (VStr s) =>
      if String.eqb s "" then false
      else
        match fromisoformat (replace_Z s) with
        | Some t => match utcoffset t with Some _ => true | None => false end
        | None => false
        end
  | _ => false
  end.

(** Whether a record can be aggregated by the MCP server: its shot type
    can be a key, and its timestamp is not an aware instant (any other
    timestamp is compared or skipped). *)
Definition aggregable `{Runtime} (r : record) : bool :=
  match classify_shot r with
  | Unhashable => false
  | _ => negb (aware_timestamp r)
  end.

(** The headers of the MCP tools: the tools that send a body add the
    content type. *)
Definition mcp_headers (with_body : bool) (token : string) : list (string * value) :=
  if with_body
  then [("xc-token", VStr token); ("Content-Type", VStr "application/json")]
  else [("xc-token", VStr token)].

(** The request of each tool of the MCP server, for a context. *)
Definition mcp_request `{Runtime} (ctx : McpServer.NocoDBContext) (c : mcp_call)
  : option request :=
  let url := McpServer.nocodb_url ctx in
  let token := McpServer.api_token ctx in
  match c with
  | HealthCheck started _ =>
      if started
      then Some (mk_request GET (url ++ "/api/v1/db/meta/projects")
                   (mcp_headers false token) None None)
      else None
  | TestConnection | ListProjects =>
      Some (mk_request GET (url ++ "/api/v1/db/meta/projects")
              (mcp_headers false token) None None)
  | ListTables p =>
      Some (mk_request GET (url ++ "/api/v1/db/meta/projects/" ++ p ++ "/tables")
              (mcp_headers false token) None None)
  | GetRecords p t limit offset =>
      Some (mk_request GET (url ++ "/api/v1/db/data/noco/" ++ p ++ "/" ++ t)
              (mcp_headers false token)
              (Some [("limit", VInt (default 10%Z limit));
                     ("offset", VInt (default 0%Z offset))]) None)
  | CreateRecord p t d =>
      Some (mk_request POST (url ++ "/api/v1/db/data/noco/" ++ p ++ "/" ++ t)
              (mcp_headers true token) None (Some (VDict d)))
  | UpdateRecord p t r d =>
      Some (mk_request PATCH (url ++ "/api/v1/db/data/noco/" ++ p ++ "/" ++ t ++ "/" ++ r)
              (mcp_headers true token) None (Some (VDict d)))
  | DeleteRecord p t r =>
      Some (mk_request DELETE (url ++ "/api/v1/db/data/noco/" ++ p ++ "/" ++ t ++ "/" ++ r)
              (mcp_headers false token) None None)
  | SearchRecords p t f =>
      Some (mk_request GET (url ++ "/api/v1/db/data/noco/" ++ p ++ "/" ++ t)
              (mcp_headers false token)
              (Some [("where", VStr (json_dumps (VDict f)))]) None)
  | CreateTable p =>
      Some (mk_request POST (url ++ "/api/v1/db/meta/projects/" ++ p ++ "/tables")
              (mcp_headers true token) None (Some McpServer.table_schema))
  | GetAnalytics p t =>
      Some (mk_request GET (url ++ "/api/v1/db/data/noco/" ++ p ++ "/" ++ t
                              ++ "?limit=1000")
              (mcp_headers false token) None None)
  end.

(** What the MCP server has been asked so far: the tools called on a
    context, in order. *)
Definition serve `{Runtime} (st : McpServer.state) (c : Z * Z * mcp_call)
  : McpServer.state :=
  (call_tool c.1.1 c.1.2 c.2 st).2.

Definition serve_all `{Runtime} (cs : list (Z * Z * mcp_call)) (st : McpServer.state)
  : McpServer.state :=
  fold_left serve cs st.

(** The state [lifespan] yields. *)
Definition yielded (ctx : McpServer.NocoDBContext) : McpServer.state :=
  {| context := ctx; network := empty_net |}.

(** How the error text of each tool begins; the health check has a text
    of its own. *)
Definition failure_prefix (c : mcp_call) : option string :=
  match c with
  | HealthCheck _ _ => None
  | TestConnection => Some "Connection test failed"
  | ListProjects => Some "Failed to list projects"
  | ListTables _ => Some "Failed to list tables"
  | GetRecords _ _ _ _ => Some "Failed to get records"
  | CreateRecord _ _ _ => Some "Failed to create record"
  | UpdateRecord _ _ _ _ => Some "Failed to update record"
  | DeleteRecord _ _ _ => Some "Failed to delete record"
  | SearchRecords _ _ _ => Some "Failed to search records"
  | CreateTable _ => Some "Failed to create Discord reactions table"
  | GetAnalytics _ _ => Some "Failed to get analytics"
  end.

(** ** Session manager *)

Local Open Scope list_scope.


Lemma session_closed_new (ss : list ClientSession) (snt : list request) (t : Z) :
  session_closed (length ss)
    {| sessions := (ss ++ [ {| closed := false; timeout_total := t |} ]);
       sent := snt |} = false.
Proof.
  unfold session_closed; simpl.
  rewrite lookup_app_r by lia.
  replace (length ss - length ss)%nat with 0%nat by lia. reflexivity.
Qed.

Lemma session_closed_after_close (ref : nat) (n : net) :
  session_closed ref (close_session_obj ref n) = true.
Proof.
  unfold session_closed, close_session_obj; simpl.
  rewrite list_lookup_alter_eq.
  destruct (sessions n !! ref); reflexivity.
Qed.

Lemma close_session_obj_insert (ref : nat) (n : net) (s : ClientSession) :
  sessions n !! ref = Some s →
  sessions (close_session_obj ref n)
  = <[ref := {| closed := true; timeout_total := timeout_total s |}]> (sessions n).
Proof.
  intros Hs. unfold close_session_obj; simpl.
  apply list_eq; intros i.
  destruct (decide (i = ref)) as [->|Hne].
  - rewrite list_lookup_alter_eq, Hs; simpl.
    rewrite list_lookup_insert_eq; [reflexivity|].
    eapply lookup_lt_Some; eassumption.
  - rewrite list_lookup_alter_ne by congruence.
    rewrite list_lookup_insert_ne by congruence. reflexivity.
Qed.

Ltac session_step :=
  first [eexists _, _ | eexists]; (split; [reflexivity|]); simpl;
  repeat match goal with
         | H : session_closed _ _ = _ |- _ => rewrite !H
         end;
  rewrite ?session_closed_new, ?session_closed_after_close; simpl;
  repeat match goal with
         | |- _ ∧ _ => split
         end; try reflexivity.

(** C8: in both servers, acquiring a session returns the one the context
    holds when it is open, and otherwise allocates a session with a total
    timeout of 30, stores it and returns it; releasing closes an open
    session, leaves everything else alone, and releasing again changes
    nothing. *)
Theorem session_manager_contract :
  (∀ st : FastApi.state,
      session_contract FastApi.session
        (λ c c', FastApi.nocodb_url c = FastApi.nocodb_url c'
                 ∧ FastApi.api_token c = FastApi.api_token c')
        FastApi.get_session FastApi.close st)
  ∧ (∀ st : McpServer.state,
      session_contract McpServer.session
        (λ c c', McpServer.nocodb_url c = McpServer.nocodb_url c'
                 ∧ McpServer.api_token c = McpServer.api_token c'
                 ∧ McpServer.startup_time c = McpServer.startup_time c')
        McpServer.get_session McpServer.close_session st).
Proof.
  split; intros st.
  - destruct st as [[url tok held] [ss snt]].
    unfold session_contract, FastApi.get_session, FastApi.close, live_session; simpl.
    destruct held as [ref|]; simpl.
    + destruct (session_closed ref {| sessions := ss; sent := snt |}) eqn:Hc; simpl.
      * split; session_step.
      * split; session_step.
        unfold session_closed in Hc; simpl in Hc.
        destruct (ss !! ref) as [s|] eqn:Hs; [|discriminate].
        exists s. split; [reflexivity|].
        apply (close_session_obj_insert ref {| sessions := ss; sent := snt |} s Hs).
    + split; session_step.
  - destruct st as [[url tok held t0] [ss snt]].
    unfold session_contract, McpServer.get_session, McpServer.close_session, live_session;
      simpl.
    destruct held as [ref|]; simpl.
    + destruct (session_closed ref {| sessions := ss; sent := snt |}) eqn:Hc; simpl.
      * split; session_step.
      * split; session_step.
        unfold session_closed in Hc; simpl in Hc.
        destruct (ss !! ref) as [s|] eqn:Hs; [|discriminate].
        exists s. split; [reflexivity|].
        apply (close_session_obj_insert ref {| sessions := ss; sent := snt |} s Hs).
    + split; session_step.
Qed.

(** ** The dispatcher of the plain HTTP surface *)


Lemma fastapi_get_session_ok (st : FastApi.state) :
  ∃ ref st',
    FastApi.get_session st = (Ok ref, st')
    ∧ session_closed ref (network st') = false
    ∧ sent (network st') = sent (network st)
    ∧ FastApi.nocodb_url (context st') = FastApi.nocodb_url (context st)
    ∧ FastApi.api_token (context st') = FastApi.api_token (context st).
Proof.
  destruct st as [[url tok held] [ss snt]]. unfold FastApi.get_session; simpl.
  destruct held as [ref|]; simpl.
  - destruct (session_closed ref {| sessions := ss; sent := snt |}) eqn:Hc.
    + eexists _, _. split; [reflexivity|]. simpl. rewrite session_closed_new. auto.
    + eexists _, _. split; [reflexivity|]. simpl. auto.
  - eexists _, _. split; [reflexivity|]. simpl. rewrite session_closed_new. auto.
Qed.

Lemma mcp_get_session_ok (st : McpServer.state) :
  ∃ ref st',
    McpServer.get_session st = (Ok ref, st')
    ∧ session_closed ref (network st') = false
    ∧ sent (network st') = sent (network st)
    ∧ McpServer.nocodb_url (context st') = McpServer.nocodb_url (context st)
    ∧ McpServer.api_token (context st') = McpServer.api_token (context st).
Proof.
  destruct st as [[url tok held t0] [ss snt]]. unfold McpServer.get_session; simpl.
  destruct held as [ref|]; simpl.
  - destruct (session_closed ref {| sessions := ss; sent := snt |}) eqn:Hc.
    + eexists _, _. split; [reflexivity|]. simpl. rewrite session_closed_new. auto.
    + eexists _, _. split; [reflexivity|]. simpl. auto.
  - eexists _, _. split; [reflexivity|]. simpl. rewrite session_closed_new. auto.
Qed.

Lemma base_url_of_str (args : record) (st : FastApi.state) :
  url_is_str args = true →
  ∃ u, FastApi.base_url_of args st = (Ok u, st).
Proof.
  unfold url_is_str, FastApi.base_url_of. intros Hu.
  destruct (dict_get "url" args) as [[]|]; simpl; try discriminate; eauto.
Qed.

Lemma base_url_of_state (args : record) (st : FastApi.state) :
  snd (FastApi.base_url_of args st) = st.
Proof. reflexivity. Qed.

Lemma not_a_tool_eqb (name : string) :
  ¬ In name FastApi.tool_names →
  Forall (λ t, String.eqb name t = false) FastApi.tool_names.
Proof.
  intros Hn. apply Forall_forall. intros t Ht.
  apply String.eqb_neq. intros ->. apply Hn.
  apply list_elem_of_In. exact Ht.
Qed.

Section Dispatcher.
Context `{Runtime}.

Lemma execute_unknown_tool (now : Z) (tool_name : string) (args : record) (token : value)
    (st : FastApi.state) :
  ¬ In tool_name FastApi.tool_names →
  ∃ e st',
    FastApi.execute_nocodb_tool now tool_name args token st = (Raise e, st')
    ∧ sent (network st') = sent (network st)
    ∧ (url_is_str args = true → e = HTTPException 400 ("Unknown tool: " +:+ tool_name)).
Proof.
  intros Hn. apply not_a_tool_eqb in Hn. unfold FastApi.tool_names in Hn.
  repeat match goal with
         | H : Forall _ (_ :: _) |- _ => apply Forall_cons in H; destruct H as [? H]
         end.
  unfold FastApi.execute_nocodb_tool.
  destruct (fastapi_get_session_ok st) as (ref & st1 & Hg & _ & Hsent & _).
  unfold mbind, M_bind. rewrite Hg.
  unfold FastApi.base_url_of.
  destruct (default (VStr (FastApi.nocodb_url (context st1))) (dict_get "url" args)) eqn:Hu;
    try (eexists _, _; split; [reflexivity|]; split; [exact Hsent|];
         unfold url_is_str; intros Hs; exfalso;
         destruct (dict_get "url" args) as [[]|]; simpl in *; congruence).
  repeat match goal with
         | Heq : String.eqb tool_name _ = false |- _ => rewrite Heq; clear Heq
         end.
  eexists _, _. split; [reflexivity|]. auto.
Qed.

(** C2: a call on the plain HTTP surface whose name is none of the ten
    tools sends nothing, and the [HTTPException] with status 400 raised for
    it is caught by the endpoint's own [except Exception]: the caller gets
    status 200 with [success = False], the 400 only inside the message. *)
Theorem unknown_tool_answered_200 (now : Z) (tool_name : string) (args : record)
    (st : FastApi.state) :
  ¬ In tool_name FastApi.tool_names →
  ∃ m st',
    FastApi.post_call now {| FastApi.name := tool_name; FastApi.arguments := args |} st
    = ({| FastApi.status_code := 200; FastApi.content_ := FastApi.Model m |}, st')
    ∧ FastApi.success m = false
    ∧ FastApi.result_ m = None
    ∧ sent (network st') = sent (network st)
    ∧ (truthy (FastApi.credential args st) = true →
       url_is_str args = true →
       FastApi.error m
       = Some (exn_str (HTTPException 400 ("Unknown tool: " +:+ tool_name)))).
Proof.
  intros Hn.
  unfold FastApi.post_call, FastApi.execute_tool, try_catch, mbind, M_bind; simpl.
  destruct (truthy (FastApi.credential args st)) eqn:Hc; simpl.
  - destruct (execute_unknown_tool now tool_name args (FastApi.credential args st) st Hn)
      as (e & st1 & He & Hsent & Hurl).
    rewrite He. unfold mret, M_ret.
    eexists _, _. split; [reflexivity|]. simpl.
    repeat split; try assumption.
    intros _ Hu. rewrite (Hurl Hu). reflexivity.
  - unfold raise, mret, M_ret.
    eexists _, _. split; [reflexivity|]. simpl.
    repeat split. intros; discriminate.
Qed.

(** C3: with no credential in the arguments and none in the process
    default, the call stops before a session is made or a request sent;
    here too the [HTTPException] with status 400 is caught by the
    endpoint, and the caller gets status 200 with [success = False]. *)
Theorem missing_credential_answered_200 (now : Z) (tool_call : FastApi.ToolCall)
    (st : FastApi.state) :
  dict_get "api_token" (FastApi.arguments tool_call) = None →
  FastApi.api_token (context st) = None ∨ FastApi.api_token (context st) = Some "" →
  FastApi.post_call now tool_call st
  = ({| FastApi.status_code := 200;
        FastApi.content_ :=
          FastApi.Model
            {| FastApi.success := false;
               FastApi.result_ := None;
               FastApi.error := Some (exn_str (HTTPException 400 "API token required")) |} |},
     st).
Proof.
  intros Hargs Hdefault.
  unfold FastApi.post_call, FastApi.execute_tool, try_catch, mbind, M_bind; simpl.
  unfold FastApi.credential. rewrite Hargs.
  destruct Hdefault as [-> | ->]; reflexivity.
Qed.

End Dispatcher.

Lemma unknown_tool_answered_200_witness :
  ¬ In "unknown_op" FastApi.tool_names
  ∧ ∃ m st',
      @FastApi.post_call Demo.runtime Demo.noon
        {| FastApi.name := "unknown_op"; FastApi.arguments := [("api_token", VStr "tok")] |}
        (Demo.fresh None)
      = ({| FastApi.status_code := 200; FastApi.content_ := FastApi.Model m |}, st')
      ∧ FastApi.success m = false
      ∧ FastApi.result_ m = None
      ∧ sent (network st') = sent (network (Demo.fresh None))
      ∧ (truthy (FastApi.credential [("api_token", VStr "tok")] (Demo.fresh None)) = true →
         url_is_str [("api_token", VStr "tok")] = true →
         FastApi.error m
         = Some (@exn_str Demo.runtime (HTTPException 400 ("Unknown tool: " +:+ "unknown_op")))).
Proof.
  assert (Hn : ¬ In "unknown_op" FastApi.tool_names).
  { simpl. intros Hin. repeat (destruct Hin as [Hin|Hin]; [discriminate|]). exact Hin. }
  split; [exact Hn|].
  exact (@unknown_tool_answered_200 Demo.runtime Demo.noon "unknown_op"
           [("api_token", VStr "tok")] (Demo.fresh None) Hn).
Defined.

Lemma missing_credential_answered_200_witness :
  @FastApi.post_call Demo.runtime Demo.noon
    {| FastApi.name := "nocodb_list_projects"; FastApi.arguments := [] |} (Demo.fresh None)
  = ({| FastApi.status_code := 200;
        FastApi.content_ :=
          FastApi.Model
            {| FastApi.success := false;
               FastApi.result_ := None;
               FastApi.error := Some "400: API token required" |} |},
     Demo.fresh None).
Proof.
  apply (@missing_credential_answered_200 Demo.runtime Demo.noon
           {| FastApi.name := "nocodb_list_projects"; FastApi.arguments := [] |}
           (Demo.fresh None)).
  - reflexivity.
  - left. reflexivity.
Defined.

Section Requests.
Context `{Runtime}.

Lemma send_open {C} (ref : nat) (req : request) (st : server C) :
  session_closed ref (network st) = false →
  ∃ r,
    send ref req st
    = (r, {| context := context st;
             network := {| sessions := sessions (network st);
                           sent := (sent (network st) ++ [req])%list |} |})
    ∧ r = match remote req with Answered a => Ok a | Failed e => Raise e end.
Proof.
  intros Hopen. unfold send. rewrite Hopen.
  destruct (remote req); eexists; split; reflexivity.
Qed.

Lemma subscript_some (k : string) (d : record) (v : value) :
  dict_get k d = Some v → subscript k d = Ok v.
Proof. unfold subscript. intros ->. reflexivity. Qed.

Lemma checked_json_state (a : response) (st : FastApi.state) :
  ∃ r, FastApi.checked_json a st = (r, st).
Proof.
  unfold FastApi.checked_json, mbind, M_bind, lift, mret, M_ret.
  destruct (raise_for_status a); [destruct (json a)|]; eexists; reflexivity.
Qed.

Lemma base_url_of_same (args : record) (st st' : FastApi.state) (u : string) :
  FastApi.nocodb_url (context st') = FastApi.nocodb_url (context st) →
  FastApi.base_url_of args st = (Ok u, st) →
  FastApi.base_url_of args st' = (Ok u, st').
Proof.
  unfold FastApi.base_url_of. intros -> Hb.
  destruct (default _ _); inversion Hb; reflexivity.
Qed.

(** C7: a [get_records] call that names the project and the table and
    gives neither [limit] nor [offset] hands exactly one request to the
    client, a GET with the query parameters [limit=10] and [offset=0]; on
    the plain HTTP surface this needs a credential and, when a [url] is
    given, a string. *)
Theorem get_records_default_paging (now stamp : Z) :
  (∀ (args : record) (st : FastApi.state) (project_id table_id : value),
      dict_get "project_id" args = Some project_id →
      dict_get "table_id" args = Some table_id →
      dict_get "limit" args = None →
      dict_get "offset" args = None →
      truthy (FastApi.credential args st) = true →
      url_is_str args = true →
      ∃ base_url,
        FastApi.base_url_of args st = (Ok base_url, st)
        ∧ sent (network (FastApi.post_call now
                           {| FastApi.name := "nocodb_get_records";
                              FastApi.arguments := args |} st).2)
          = (sent (network st)
               ++ [mk_request GET
                     (base_url +:+ "/api/v1/db/data/noco/" +:+ format_value project_id
                        +:+ "/" +:+ format_value table_id)
                     [("Content-Type", VStr "application/json");
                      ("xc-auth", FastApi.credential args st)]
                     (Some [("limit", VInt 10); ("offset", VInt 0)]) None])%list)
  ∧ (∀ (project_id table_id : string) (st : McpServer.state),
      sent (network (McpServer.nocodb_get_records stamp project_id table_id None None st).2)
      = (sent (network st)
           ++ [mk_request GET
                 (McpServer.nocodb_url (context st) +:+ "/api/v1/db/data/noco/"
                    +:+ project_id +:+ "/" +:+ table_id)
                 [("xc-token", VStr (McpServer.api_token (context st)))]
                 (Some [("limit", VInt 10); ("offset", VInt 0)]) None])%list).
Proof.
  split.
  - intros args st project_id table_id Hp Ht Hl Ho Hc Hu.
    unfold FastApi.post_call, FastApi.execute_tool, try_catch, mbind, M_bind; simpl.
    rewrite Hc; simpl.
    unfold FastApi.execute_nocodb_tool, mbind, M_bind.
    destruct (fastapi_get_session_ok st) as (ref & st1 & Hg & Hopen & Hsent & Hurl & _).
    rewrite Hg.
    destruct (base_url_of_str args st Hu) as (u & Hb0).
    rewrite (base_url_of_same args st st1 u Hurl Hb0). simpl.
    unfold lift. rewrite (subscript_some _ _ _ Hp), (subscript_some _ _ _ Ht).
    rewrite Hl, Ho. simpl.
    match goal with
    | |- context [send ref ?req st1] =>
        destruct (send_open ref req st1 Hopen) as (r & Hs & _); rewrite Hs
    end.
    exists u. split; [exact Hb0|]. destruct r as [a|e].
    + match goal with
      | |- context [FastApi.checked_json a ?s] =>
          destruct (checked_json_state a s) as (r' & Hr); rewrite Hr
      end.
      destruct r'; simpl; rewrite Hsent; reflexivity.
    + simpl. rewrite Hsent. reflexivity.
  - intros project_id table_id st.
    unfold McpServer.nocodb_get_records, try_catch, mbind, M_bind,
      McpServer.lifespan_context; simpl.
    destruct (mcp_get_session_ok st) as (ref & st1 & Hg & Hopen & Hsent & Hurl & Htok).
    rewrite Hg.
    match goal with
    | |- context [send ref ?req st1] =>
        destruct (send_open ref req st1 Hopen) as (r & Hs & _); rewrite Hs
    end.
    unfold lift, mret, M_ret.
    destruct r as [a|e]; simpl.
    + destruct (raise_for_status a); simpl; [destruct (json a); simpl|];
        rewrite Hsent; reflexivity.
    + rewrite Hsent. reflexivity.
Qed.

(** C6: when the remote service answers the deletion request of a call
    with a 2xx status, the call succeeds with the fixed confirmation,
    whatever the body is, an empty one included: the body is never
    decoded.  The request is the one [DELETE] of the row, and it is sent. *)
Theorem delete_record_confirms (now stamp : Z) :
  (∀ (args : record) (st : FastApi.state) (project_id table_id record_id : value)
     (base_url : string) (r : response),
      dict_get "project_id" args = Some project_id →
      dict_get "table_id" args = Some table_id →
      dict_get "record_id" args = Some record_id →
      truthy (FastApi.credential args st) = true →
      FastApi.base_url_of args st = (Ok base_url, st) →
      let req :=
        mk_request DELETE
          (base_url +:+ "/api/v1/db/data/noco/" +:+ format_value project_id
             +:+ "/" +:+ format_value table_id +:+ "/" +:+ format_value record_id)
          [("Content-Type", VStr "application/json");
           ("xc-auth", FastApi.credential args st)] None None in
      remote req = Answered r →
      (200 <= status r < 300)%Z →
      (FastApi.post_call now
         {| FastApi.name := "nocodb_delete_record"; FastApi.arguments := args |} st).1
      = {| FastApi.status_code := 200;
           FastApi.content_ :=
             FastApi.Model
               {| FastApi.success := true;
                  FastApi.result_ :=
                    Some (FastApi.PJson
                            (VDict [("message", VStr "Record deleted successfully")]));
                  FastApi.error := None |} |}
      ∧ sent (network
                (FastApi.post_call now
                   {| FastApi.name := "nocodb_delete_record"; FastApi.arguments := args |}
                   st).2)
        = sent (network st) ++ [req])
  ∧ (∀ (project_id table_id record_id : string) (st : McpServer.state) (r : response),
      let req :=
        mk_request DELETE
          (McpServer.nocodb_url (context st) +:+ "/api/v1/db/data/noco/" +:+ project_id
             +:+ "/" +:+ table_id +:+ "/" +:+ record_id)
          [("xc-token", VStr (McpServer.api_token (context st)))] None None in
      remote req = Answered r →
      (200 <= status r < 300)%Z →
      (McpServer.nocodb_delete_record stamp project_id table_id record_id st).1
      = Ok (McpServer.Json
              (VDict [("success", VBool true);
                      ("project_id", VStr project_id);
                      ("table_id", VStr table_id);
                      ("record_id", VStr record_id);
                      ("message", VStr "Record deleted successfully");
                      ("timestamp", VStr (isoformat (naive stamp)))]))
      ∧ sent (network
                (McpServer.nocodb_delete_record stamp project_id table_id record_id st).2)
        = sent (network st) ++ [req]).
Proof.
  split.
  - intros args st project_id table_id record_id base_url r Hp Ht Hr Hc Hb req Hreply
      Hstatus.
    unfold FastApi.post_call, FastApi.execute_tool, try_catch, mbind, M_bind; simpl.
    rewrite Hc; simpl.
    unfold FastApi.execute_nocodb_tool, mbind, M_bind.
    destruct (fastapi_get_session_ok st) as (ref & st1 & Hg & Hopen & Hsent & Hurl & _).
    rewrite Hg.
    rewrite (base_url_of_same args st st1 base_url Hurl Hb). simpl.
    unfold lift.
    rewrite (subscript_some _ _ _ Hp), (subscript_some _ _ _ Ht), (subscript_some _ _ _ Hr).
    fold req.
    destruct (send_open ref req st1 Hopen) as (a & Hs & Ha). rewrite Hs.
    rewrite Hreply in Ha. subst a. unfold raise_for_status.
    destruct (400 <=? status r)%Z eqn:Hge; [apply Z.leb_le in Hge; lia|].
    simpl. rewrite Hsent. split; reflexivity.
  - intros project_id table_id record_id st r req Hreply Hstatus.
    unfold McpServer.nocodb_delete_record, try_catch, mbind, M_bind,
      McpServer.lifespan_context; simpl.
    destruct (mcp_get_session_ok st) as (ref & st1 & Hg & Hopen & Hsent & Hurl & Htok).
    rewrite Hg.
    fold req.
    destruct (send_open ref req st1 Hopen) as (a & Hs & Ha). rewrite Hs.
    rewrite Hreply in Ha. subst a. unfold lift, raise_for_status.
    destruct (400 <=? status r)%Z eqn:Hge; [apply Z.leb_le in Hge; lia|].
    simpl. rewrite Hsent. split; reflexivity.
Qed.

End Requests.

Lemma get_records_default_paging_witness :
  sent (network
          (@FastApi.post_call Demo.runtime Demo.noon
             {| FastApi.name := "nocodb_get_records";
                FastApi.arguments := [("project_id", VStr "p1"); ("table_id", VStr "t1")] |}
             (Demo.fresh (Some "tok"))).2)
  = [mk_request GET "https://db.example/api/v1/db/data/noco/p1/t1"
       [("Content-Type", VStr "application/json"); ("xc-auth", VStr "tok")]
       (Some [("limit", VInt 10); ("offset", VInt 0)]) None].
Proof.
  destruct (proj1 (@get_records_default_paging Demo.runtime Demo.noon Demo.noon)
              [("project_id", VStr "p1"); ("table_id", VStr "t1")]
              (Demo.fresh (Some "tok")) (VStr "p1") (VStr "t1")
              eq_refl eq_refl eq_refl eq_refl eq_refl eq_refl)
    as (base_url & Hbase & Hsent).
  vm_compute in Hbase. injection Hbase as <-.
  exact Hsent.
Defined.

Lemma delete_record_confirms_witness :
  Demo.response_json {| status := 200; body := "" |} = None
  ∧ ((@FastApi.post_call Demo.runtime Demo.noon
        {| FastApi.name := "nocodb_delete_record";
           FastApi.arguments :=
             [("project_id", VStr "p1"); ("table_id", VStr "t1"); ("record_id", VInt 7)] |}
        (Demo.fresh (Some "tok"))).1
     = {| FastApi.status_code := 200;
          FastApi.content_ :=
            FastApi.Model
              {| FastApi.success := true;
                 FastApi.result_ :=
                   Some (FastApi.PJson
                           (VDict [("message", VStr "Record deleted successfully")]));
                 FastApi.error := None |} |}
     ∧ sent (network
               (@FastApi.post_call Demo.runtime Demo.noon
                  {| FastApi.name := "nocodb_delete_record";
                     FastApi.arguments :=
                       [("project_id", VStr "p1"); ("table_id", VStr "t1");
                        ("record_id", VInt 7)] |}
                  (Demo.fresh (Some "tok"))).2)
       = [mk_request DELETE "https://db.example/api/v1/db/data/noco/p1/t1/7"
            [("Content-Type", VStr "application/json"); ("xc-auth", VStr "tok")]
            None None])
  ∧ ((@McpServer.nocodb_delete_record Demo.runtime Demo.noon "p1" "t1" "7"
        Demo.started).1
     = Ok (McpServer.Json
             (VDict [("success", VBool true);
                     ("project_id", VStr "p1");
                     ("table_id", VStr "t1");
                     ("record_id", VStr "7");
                     ("message", VStr "Record deleted successfully");
                     ("timestamp", VStr "2024-05-01T12:00:00")]))
     ∧ sent (network
               (@McpServer.nocodb_delete_record Demo.runtime Demo.noon "p1" "t1" "7"
                  Demo.started).2)
       = [mk_request DELETE "https://db.example/api/v1/db/data/noco/p1/t1/7"
            [("xc-token", VStr "tok")] None None]).
Proof.
  split; [reflexivity|].
  destruct (@delete_record_confirms Demo.runtime Demo.noon Demo.noon) as [Hfast Hmcp].
  split.
  - exact (Hfast [("project_id", VStr "p1"); ("table_id", VStr "t1"); ("record_id", VInt 7)]
             (Demo.fresh (Some "tok")) (VStr "p1") (VStr "t1") (VInt 7)
             "https://db.example" {| status := 200; body := "" |}
             eq_refl eq_refl eq_refl eq_refl eq_refl eq_refl ltac:(simpl; lia)).
  - exact (Hmcp "p1" "t1" "7" Demo.started {| status := 200; body := "" |}
             eq_refl ltac:(simpl; lia)).
Defined.

(** ** Loops and comprehensions *)

Lemma for_each_app {A B} (step : A → B → result A) (acc : A) (l1 l2 : list B) :
  for_each step acc (l1 ++ l2)
  = match for_each step acc l1 with
    | Ok acc' => for_each step acc' l2
    | Raise e => Raise e
    end.
Proof.
  revert acc. induction l1 as [|x l1 IH]; intros acc; simpl; [reflexivity|].
  destruct (step acc x); [apply IH | reflexivity].
Qed.

(** A loop whose turns can be exchanged gives the same outcome on every
    reordering of its input. *)
Lemma for_each_perm {A B} (step : A → B → result A) (l l' : list B) :
  (∀ acc x y, for_each step acc [x; y] = for_each step acc [y; x]) →
  l ≡ₚ l' →
  ∀ acc, for_each step acc l = for_each step acc l'.
Proof.
  intros Hswap Hperm. induction Hperm as [|x l l' _ IH|x y l|l l' l'' _ IH1 _ IH2];
    intros acc.
  - reflexivity.
  - simpl. destruct (step acc x); [apply IH | reflexivity].
  - change (y :: x :: l) with ([y; x] ++ l). change (x :: y :: l) with ([x; y] ++ l).
    rewrite !for_each_app, Hswap. reflexivity.
  - rewrite IH1. apply IH2.
Qed.


Lemma comprehension_raises {A} (cond : A → result bool) (l : list A) :
  Exists (λ x, is_ok (cond x) = false) l →
  ∃ e, comprehension cond l = Raise e.
Proof.
  induction 1 as [x l Hx|x l _ (e & IH)]; simpl.
  - destruct (cond x); [discriminate|]. eauto.
  - destruct (cond x); [|eauto]. rewrite IH. eauto.
Qed.

Lemma comprehension_inv {A} (cond : A → result bool) (l r : list A) :
  comprehension cond l = Ok r →
  Forall (λ x, is_ok (cond x) = true) l ∧ r = List.filter (passes cond) l.
Proof.
  revert r. induction l as [|x l IH]; simpl; intros r Hr.
  - inversion Hr. auto.
  - unfold passes at 1. destruct (cond x) as [b|] eqn:Hx; [|discriminate].
    destruct (comprehension cond l) as [rest|]; [|discriminate].
    destruct (IH rest eq_refl) as [Hall ->]. inversion Hr.
    split; [constructor; [rewrite Hx; reflexivity | exact Hall] | reflexivity].
Qed.


Lemma filter_length_le {A} (f : A → bool) (l : list A) :
  (length (List.filter f l) ≤ length l)%nat.
Proof.
  induction l as [|x l IH]; simpl; [lia|]. destruct (f x); simpl; lia.
Qed.

Lemma filter_length_middle {A} (f : A → bool) (l1 l2 : list A) (x : A) :
  length (List.filter f (l1 ++ x :: l2))
  = ((if f x then 1 else 0) + length (List.filter f (l1 ++ l2)))%nat.
Proof.
  rewrite !List.filter_app, !length_app. simpl.
  destruct (f x); simpl; lia.
Qed.

Lemma comprehension_middle {A} (cond : A → result bool) (l1 l2 : list A) (x : A) (b : bool) :
  cond x = Ok b →
  length <$> comprehension cond (l1 ++ x :: l2)
  = (λ n, if b then S n else n) <$> (length <$> comprehension cond (l1 ++ l2)).
Proof.
  intros Hx. induction l1 as [|y l1 IH]; simpl.
  - rewrite Hx. destruct (comprehension cond l2); simpl; [|reflexivity].
    destruct b; reflexivity.
  - destruct (cond y) as [c|]; [|reflexivity].
    destruct (comprehension cond (l1 ++ x :: l2)), (comprehension cond (l1 ++ l2));
      simpl in *; try congruence.
    inversion IH. destruct c, b; simpl in *; congruence.
Qed.

(** ** The shot type loop *)

Lemma shot_type_step_class (acc : gmap key nat) (r : record) :
  shot_type_step acc r
  = match classify_shot r with
    | Skip => Ok acc
    | Unhashable => Raise TypeError
    | Counted k => Ok (<[k := (default 0%nat (acc !! k) + 1)%nat]> acc)
    end.
Proof.
  unfold shot_type_step, classify_shot.
  destruct (dict_get "shot_type" r) as [v|]; [|reflexivity].
  destruct (truthy v); [|reflexivity].
  destruct (hash_key v); reflexivity.
Qed.


Lemma shot_total_insert (m : gmap key nat) (k : key) (n : nat) :
  (shot_total (<[k := n]> m) + default 0 (m !! k) = shot_total m + n)%nat.
Proof.
  unfold shot_total.
  destruct (m !! k) as [n0|] eqn:Hk; simpl.
  - rewrite (map_fold_delete_L (λ _ n total, (n + total)%nat) 0%nat k n0 m);
      [| intros; lia | exact Hk].
    rewrite <- (insert_delete_eq m k n).
    rewrite (map_fold_insert_L (λ _ n total, (n + total)%nat));
      [| intros; lia | apply lookup_delete_eq].
    lia.
  - rewrite (map_fold_insert_L (λ _ n total, (n + total)%nat));
      [| intros; lia | exact Hk].
    lia.
Qed.

Lemma shot_loop_bounds (l : list record) (acc m : gmap key nat) :
  for_each shot_type_step acc l = Ok m →
  (∀ k n, acc !! k = Some n → (1 ≤ n)%nat) →
  (∀ k n, m !! k = Some n → (1 ≤ n)%nat)
  ∧ (shot_total m ≤ shot_total acc + length l)%nat.
Proof.
  revert acc. induction l as [|r l IH]; simpl; intros acc Hm Hacc.
  - inversion Hm; subst. split; [exact Hacc | lia].
  - rewrite shot_type_step_class in Hm.
    destruct (classify_shot r) as [| |k]; [| discriminate |].
    + destruct (IH acc Hm Hacc) as [H1 H2]. split; [exact H1 | lia].
    + destruct (IH _ Hm) as [H1 H2].
      * intros k' n'. destruct (decide (k = k')) as [->|Hne].
        -- rewrite lookup_insert_eq. intros [= <-]. lia.
        -- rewrite lookup_insert_ne by exact Hne. apply Hacc.
      * split; [exact H1|].
        pose proof (shot_total_insert acc k (default 0 (acc !! k) + 1)). lia.
Qed.

(** ** Recent activity *)

Section Recent.
Context `{Runtime}.

Lemma dt_gt_raises (a b : datetime) (e : exn) : dt_gt a b = Raise e → e = TypeError.
Proof.
  unfold dt_gt. destruct (utcoffset a), (utcoffset b); congruence.
Qed.

Lemma counts_as_recent_raises (cutoff : datetime) (r : record) (e : exn) :
  counts_as_recent cutoff r = Raise e → e = TypeError.
Proof.
  unfold counts_as_recent.
  destruct (dict_get "timestamp" r) as [[]|]; try discriminate.
  destruct (String.eqb s ""); [discriminate|].
  destruct (fromisoformat (replace_Z s)); [apply dt_gt_raises | discriminate].
Qed.

(** One turn of the loop of the MCP server adds one when the record counts
    as recent, and raises only what the comparison raises. *)
Lemma recent_step_class (cutoff : datetime) (count : nat) (r : record) :
  McpServer.recent_step cutoff count r
  = (λ b : bool, if b then (count + 1)%nat else count) <$> counts_as_recent cutoff r.
Proof.
  unfold McpServer.recent_step, counts_as_recent, get_truthy, subscript.
  destruct (dict_get "timestamp" r) as [v|]; [|reflexivity].
  destruct v as [|b|n|q|s|l|d]; simpl; try reflexivity.
  - destruct b; reflexivity.
  - destruct (n =? 0)%Z; reflexivity.
  - destruct (Qeq_bool q 0); reflexivity.
  - destruct (String.eqb s ""); simpl; [reflexivity|].
    destruct (fromisoformat (replace_Z s)) as [t|]; simpl; [|reflexivity].
    destruct (dt_gt t cutoff) as [[]|e] eqn:Hgt; simpl; try reflexivity.
    rewrite (dt_gt_raises _ _ _ Hgt). reflexivity.
  - destruct l; reflexivity.
  - destruct d; reflexivity.
Qed.

Lemma recent_step_swap (cutoff : datetime) (count : nat) (x y : record) :
  for_each (McpServer.recent_step cutoff) count [x; y]
  = for_each (McpServer.recent_step cutoff) count [y; x].
Proof.
  simpl. rewrite !recent_step_class.
  destruct (counts_as_recent cutoff x) as [bx|ex] eqn:Hx,
           (counts_as_recent cutoff y) as [by_|ey] eqn:Hy; simpl;
    rewrite ?recent_step_class, ?Hx, ?Hy; simpl; try reflexivity.
  - destruct bx, by_; f_equal; lia.
  - rewrite (counts_as_recent_raises _ _ _ Hx), (counts_as_recent_raises _ _ _ Hy).
    reflexivity.
Qed.

Lemma recent_loop_shift (cutoff : datetime) (l : list record) (count : nat) :
  for_each (McpServer.recent_step cutoff) (S count) l
  = S <$> for_each (McpServer.recent_step cutoff) count l.
Proof.
  revert count. induction l as [|r l IH]; intros count; simpl; [reflexivity|].
  rewrite !recent_step_class.
  destruct (counts_as_recent cutoff r) as [[]|]; simpl; try reflexivity.
  - rewrite <- IH. reflexivity.
  - apply IH.
Qed.

Lemma recent_loop_bounds (cutoff : datetime) (l : list record) (count n : nat) :
  for_each (McpServer.recent_step cutoff) count l = Ok n →
  (count ≤ n ≤ count + length l)%nat.
Proof.
  revert count. induction l as [|r l IH]; intros count; simpl.
  - intros [= <-]. lia.
  - rewrite recent_step_class.
    destruct (counts_as_recent cutoff r) as [[]|]; simpl; try discriminate;
      intros Hn; apply IH in Hn; lia.
Qed.

Lemma recent_loop_middle (cutoff : datetime) (before after : list record) (r : record)
    (b : bool) :
  counts_as_recent cutoff r = Ok b →
  for_each (McpServer.recent_step cutoff) 0%nat (before ++ r :: after)
  = (λ n, if b then S n else n)
      <$> for_each (McpServer.recent_step cutoff) 0%nat (before ++ after).
Proof.
  intros Hr.
  rewrite (for_each_perm (McpServer.recent_step cutoff) (before ++ r :: after)
             (r :: before ++ after) (recent_step_swap cutoff));
    [|symmetry; apply Permutation_middle].
  simpl. rewrite recent_step_class, Hr. simpl.
  destruct b.
  - apply recent_loop_shift.
  - destruct (for_each _ _ _); reflexivity.
Qed.

(** The condition of the comprehension of the FastAPI server agrees with
    the loop of the MCP server wherever it returns. *)
Lemma is_recent_ok (cutoff : datetime) (r : record) (b : bool) :
  FastApi.is_recent cutoff r = Ok b → counts_as_recent cutoff r = Ok b.
Proof.
  unfold FastApi.is_recent, counts_as_recent, parse_timestamp.
  destruct (dict_get "timestamp" r) as [v|]; [|auto].
  destruct v as [|b0|n|q|s|l|d]; simpl; try congruence.
  - destruct b0; simpl; congruence.
  - destruct (n =? 0)%Z; simpl; congruence.
  - destruct (Qeq_bool q 0); simpl; congruence.
  - destruct (String.eqb s ""); simpl; [auto|].
    destruct (fromisoformat (replace_Z s)); simpl; [auto | discriminate].
  - destruct l; simpl; congruence.
  - destruct d; simpl; congruence.
Qed.

Lemma is_recent_str (cutoff : datetime) (r : record) (s : string) :
  dict_get "timestamp" r = Some (VStr s) → s ≠ "" →
  FastApi.is_recent cutoff r
  = match fromisoformat (replace_Z s) with
    | Some t => dt_gt t cutoff
    | None => Raise ValueError
    end.
Proof.
  intros Hr Hs. unfold FastApi.is_recent. rewrite Hr. simpl.
  apply String.eqb_neq in Hs. rewrite Hs. simpl.
  destruct (fromisoformat (replace_Z s)); reflexivity.
Qed.

Lemma counts_as_recent_str (cutoff : datetime) (r : record) (s : string) :
  dict_get "timestamp" r = Some (VStr s) → s ≠ "" →
  counts_as_recent cutoff r
  = match fromisoformat (replace_Z s) with
    | Some t => dt_gt t cutoff
    | None => Ok false
    end.
Proof.
  intros Hr Hs. unfold counts_as_recent. rewrite Hr.
  apply String.eqb_neq in Hs. rewrite Hs. reflexivity.
Qed.

Lemma fmap_id_result {A} (x : result A) : (λ n : A, n) <$> x = x.
Proof. destruct x; reflexivity. Qed.

(** A record whose comparison with the cutoff returns [b] adds one to the
    count of either server exactly when [b] is true. *)
Lemma recent_activity_middle (now : Z) (before after : list record) (r : record)
    (s : string) (t : datetime) (b : bool) :
  dict_get "timestamp" r = Some (VStr s) → s ≠ "" →
  fromisoformat (replace_Z s) = Some t →
  dt_gt t (dt_sub (naive now) (timedelta_hours 24)) = Ok b →
  FastApi.recent_activity now (before ++ r :: after)
  = (λ n, if b then S n else n) <$> FastApi.recent_activity now (before ++ after)
  ∧ McpServer.recent_activity now (before ++ r :: after)
    = (λ n, if b then S n else n) <$> McpServer.recent_activity now (before ++ after).
Proof.
  intros Hr Hs Ht Hgt. split.
  - unfold FastApi.recent_activity. apply comprehension_middle.
    rewrite (is_recent_str _ r s Hr Hs), Ht. exact Hgt.
  - unfold McpServer.recent_activity. apply recent_loop_middle.
    rewrite (counts_as_recent_str _ r s Hr Hs), Ht. exact Hgt.
Qed.

(** The loop of the MCP server, in one step: it raises exactly when a
    comparison does, and otherwise counts the records that pass. *)
Lemma recent_loop_exact (cutoff : datetime) (l : list record) (count : nat) :
  for_each (McpServer.recent_step cutoff) count l
  = if forallb (λ r, is_ok (counts_as_recent cutoff r)) l
    then Ok (count + length (List.filter (passes (counts_as_recent cutoff)) l))%nat
    else Raise TypeError.
Proof.
  revert count. induction l as [|r l IH]; intros count.
  - simpl. f_equal. lia.
  - cbn [for_each forallb List.filter]. rewrite recent_step_class. unfold passes at 1.
    destruct (counts_as_recent cutoff r) as [b|e] eqn:Hr; cbn.
    + rewrite IH. destruct (forallb _ l); [|reflexivity].
      destruct b; simpl; f_equal; lia.
    + rewrite (counts_as_recent_raises _ _ _ Hr). reflexivity.
Qed.

(** C4: a record whose timestamp parses to a naive instant is left out
    of [recent_24h] when that instant is [now - 24h] or earlier (the
    comparison is strict) and adds one when it is later, for instance
    [now - 23h59m]; in both servers and wherever the record stands in the
    batch.  A timestamp with [Z] or an offset parses to an aware instant,
    and then, however late it is, the comparison with the naive
    [datetime.now()] raises [TypeError] and no analytics are produced. *)
Theorem recent_boundary_strict_unless_aware (now : Z) (before after : list record)
    (r : record) (s : string) (t : datetime) :
  dict_get "timestamp" r = Some (VStr s) → s ≠ "" →
  fromisoformat (replace_Z s) = Some t →
  match utcoffset t with
  | None =>
      ((wall t <= now - timedelta_hours 24)%Z →
       FastApi.recent_activity now (before ++ r :: after)
       = FastApi.recent_activity now (before ++ after)
       ∧ McpServer.recent_activity now (before ++ r :: after)
         = McpServer.recent_activity now (before ++ after))
      ∧ ((now - timedelta_hours 24 < wall t)%Z →
         FastApi.recent_activity now (before ++ r :: after)
         = S <$> FastApi.recent_activity now (before ++ after)
         ∧ McpServer.recent_activity now (before ++ r :: after)
           = S <$> McpServer.recent_activity now (before ++ after))
  | Some _ =>
      FastApi.recent_activity now [r] = Raise TypeError
      ∧ McpServer.recent_activity now (before ++ r :: after) = Raise TypeError
      ∧ is_ok (FastApi.recent_activity now (before ++ r :: after)) = false
      ∧ is_ok (FastApi.compute_analytics now (before ++ r :: after)) = false
      ∧ is_ok (McpServer.compute_analytics now (before ++ r :: after)) = false
  end.
Proof.
  intros Hr Hs Ht.
  set (cutoff := dt_sub (naive now) (timedelta_hours 24)).
  destruct (utcoffset t) as [offset|] eqn:Hoff.
  - assert (Hgt : dt_gt t cutoff = Raise TypeError).
    { unfold dt_gt. rewrite Hoff. reflexivity. }
    assert (Hmcp : McpServer.recent_activity now (before ++ r :: after) = Raise TypeError).
    { unfold McpServer.recent_activity. fold cutoff. rewrite recent_loop_exact.
      rewrite forallb_app. cbn [forallb].
      rewrite (counts_as_recent_str _ r s Hr Hs), Ht, Hgt. cbn [is_ok andb].
      rewrite andb_false_r. reflexivity. }
    destruct (comprehension_raises (FastApi.is_recent cutoff) (before ++ r :: after))
      as (e & He).
    { apply Exists_app. right. constructor.
      rewrite (is_recent_str _ r s Hr Hs), Ht, Hgt. reflexivity. }
    split.
    { unfold FastApi.recent_activity. fold cutoff. simpl.
      rewrite (is_recent_str _ r s Hr Hs), Ht, Hgt. reflexivity. }
    split; [exact Hmcp|].
    split.
    { unfold FastApi.recent_activity. fold cutoff. rewrite He. reflexivity. }
    split.
    { unfold FastApi.compute_analytics, FastApi.recent_activity. fold cutoff.
      rewrite He. simpl.
      destruct (for_each shot_type_step ∅ (before ++ r :: after)); reflexivity. }
    unfold McpServer.compute_analytics. rewrite Hmcp.
    destruct (for_each shot_type_step ∅ (before ++ r :: after)); reflexivity.
  - split.
    + intros Hle.
      destruct (recent_activity_middle now before after r s t false Hr Hs Ht) as [Ha Hb].
      * unfold dt_gt. rewrite Hoff. simpl. f_equal.
        rewrite Z.gtb_ltb. apply Z.ltb_ge. exact Hle.
      * rewrite Ha, Hb, !fmap_id_result. split; reflexivity.
    + intros Hlt.
      apply (recent_activity_middle now before after r s t true Hr Hs Ht).
      unfold dt_gt. rewrite Hoff. simpl. f_equal. apply Z.gtb_lt. exact Hlt.
Qed.

(** C1: a record whose timestamp is a non-empty string that does not parse
    is skipped by the loop of the MCP server, wherever it stands in the
    batch; the comprehension of the FastAPI server has no [try] around the
    parse, so there the same record makes the whole computation raise. *)
Theorem unparsable_timestamp_raises_on_fastapi (now : Z) (r : record) (s : string) :
  dict_get "timestamp" r = Some (VStr s) → s ≠ "" →
  fromisoformat (replace_Z s) = None →
  (∀ before after,
      McpServer.recent_activity now (before ++ r :: after)
      = McpServer.recent_activity now (before ++ after))
  ∧ FastApi.recent_activity now [r] = Raise ValueError
  ∧ (∀ before after,
        is_ok (FastApi.recent_activity now (before ++ r :: after)) = false
        ∧ is_ok (FastApi.compute_analytics now (before ++ r :: after)) = false).
Proof.
  intros Hr Hs Hparse. split; [|split].
  - intros before after. unfold McpServer.recent_activity.
    rewrite (recent_loop_middle _ before after r false), fmap_id_result; [reflexivity|].
    rewrite (counts_as_recent_str _ r s Hr Hs), Hparse. reflexivity.
  - unfold FastApi.recent_activity. simpl.
    rewrite (is_recent_str _ r s Hr Hs), Hparse. reflexivity.
  - intros before after.
    destruct (comprehension_raises
                (FastApi.is_recent (dt_sub (naive now) (timedelta_hours 24)))
                (before ++ r :: after)) as (e & He).
    { apply Exists_app. right. constructor.
      rewrite (is_recent_str _ r s Hr Hs), Hparse. reflexivity. }
    unfold FastApi.compute_analytics, FastApi.recent_activity.
    rewrite He. simpl.
    destruct (for_each shot_type_step ∅ (before ++ r :: after)); simpl; auto.
Qed.

End Recent.

(** A timestamp that carries [Z] or an offset parses to an aware datetime;
    [datetime.now()] is naive, so the comparison raises [TypeError], which
    neither server catches around the comparison. *)
Remark aware_timestamp_raises `{Runtime} (now : Z) (r : record) (s : string)
    (t : datetime) (offset : Z) :
  dict_get "timestamp" r = Some (VStr s) → s ≠ "" →
  fromisoformat (replace_Z s) = Some t → utcoffset t = Some offset →
  FastApi.recent_activity now [r] = Raise TypeError
  ∧ McpServer.recent_activity now [r] = Raise TypeError.
Proof.
  intros Hr Hs Ht Hoff.
  assert (Hgt : dt_gt t (dt_sub (naive now) (timedelta_hours 24)) = Raise TypeError).
  { unfold dt_gt. rewrite Hoff. reflexivity. }
  split.
  - unfold FastApi.recent_activity. simpl.
    rewrite (is_recent_str _ r s Hr Hs), Ht, Hgt. reflexivity.
  - unfold McpServer.recent_activity. simpl.
    rewrite recent_step_class, (counts_as_recent_str _ r s Hr Hs), Ht, Hgt. reflexivity.
Qed.

(** A record without a timestamp, or with a falsy one, is skipped by both
    servers. *)
Remark missing_timestamp_skipped `{Runtime} (cutoff : datetime) (r : record) (n : nat) :
  get_truthy "timestamp" r = false →
  FastApi.is_recent cutoff r = Ok false ∧ McpServer.recent_step cutoff n r = Ok n.
Proof.
  unfold get_truthy, FastApi.is_recent, McpServer.recent_step, get_truthy.
  destruct (dict_get "timestamp" r) as [v|]; [|auto].
  intros ->. auto.
Qed.

(** The MCP server does not start without a token. *)
Remark lifespan_requires_token (env_url : option string) (time : Qc) :
  is_ok (McpServer.lifespan env_url None time) = false
  ∧ is_ok (McpServer.lifespan env_url (Some "") time) = false.
Proof. split; reflexivity. Qed.

(** ** The analytics dict *)

Section Aggregate.
Context `{Runtime}.





Lemma counts_within_bounds (records : list record) (shots : gmap key nat) (recent : nat) :
  for_each shot_type_step ∅ records = Ok shots →
  (recent ≤ length records)%nat →
  within_bounds
    {| total_reactions := length records;
       with_images := count_with "image_url" records;
       cinematic_count := count_with "cinematic" records;
       anime_count := count_with "anime" records;
       with_sref_codes := count_with "sref_code" records;
       shot_types := shots;
       recent_24h := recent |}.
Proof.
  intros Hshots Hrecent.
  destruct (shot_loop_bounds records ∅ shots Hshots) as [Hpos Hsum].
  { intros k n. rewrite lookup_empty. discriminate. }
  unfold within_bounds, count_with; simpl.
  repeat split; try apply filter_length_le; assumption.
Qed.

(** C10: whenever either server produces the analytics dict, its total is
    the size of the batch, the five counts stay within the total, every
    shot type count is at least one, and the shot type counts add up to
    at most the total. *)
Theorem analytics_within_bounds (now : Z) (records : list record) (a : analytics) :
  FastApi.compute_analytics now records = Ok a
  ∨ McpServer.compute_analytics now records = Ok a →
  total_reactions a = length records ∧ within_bounds a.
Proof.
  intros [Ha|Ha].
  - unfold FastApi.compute_analytics in Ha.
    destruct (for_each shot_type_step ∅ records) as [shots|] eqn:Hshots; [|discriminate].
    simpl in Ha.
    destruct (FastApi.recent_activity now records) as [n|] eqn:Hn; [|discriminate].
    simpl in Ha. inversion Ha; subst; clear Ha. split; [reflexivity|].
    apply counts_within_bounds; [exact Hshots|].
    unfold FastApi.recent_activity in Hn.
    destruct (comprehension _ records) as [kept|] eqn:Hk; [|discriminate].
    apply comprehension_inv in Hk as [_ ->]. simpl in Hn. inversion Hn.
    apply filter_length_le.
  - unfold McpServer.compute_analytics in Ha.
    destruct (for_each shot_type_step ∅ records) as [shots|] eqn:Hshots; [|discriminate].
    simpl in Ha.
    destruct (McpServer.recent_activity now records) as [n|] eqn:Hn; [|discriminate].
    simpl in Ha. inversion Ha; subst; clear Ha. split; [reflexivity|].
    apply counts_within_bounds; [exact Hshots|].
    apply recent_loop_bounds in Hn. lia.
Qed.

End Aggregate.

(** ** The theorems at work on the demo rows *)

Lemma recent_boundary_strict_unless_aware_witness :
  (@FastApi.recent_activity Demo.runtime Demo.noon [Demo.row1; Demo.row2]
   = @FastApi.recent_activity Demo.runtime Demo.noon [Demo.row1]
   ∧ @McpServer.recent_activity Demo.runtime Demo.noon [Demo.row1; Demo.row2]
     = @McpServer.recent_activity Demo.runtime Demo.noon [Demo.row1])
  ∧ (@FastApi.recent_activity Demo.runtime Demo.noon [Demo.row1; Demo.row4]
     = S <$> @FastApi.recent_activity Demo.runtime Demo.noon [Demo.row1]
     ∧ @McpServer.recent_activity Demo.runtime Demo.noon [Demo.row1; Demo.row4]
       = S <$> @McpServer.recent_activity Demo.runtime Demo.noon [Demo.row1])
  ∧ (@FastApi.recent_activity Demo.runtime Demo.noon [utc_row] = Raise TypeError
     ∧ @McpServer.recent_activity Demo.runtime Demo.noon [Demo.row1; utc_row]
       = Raise TypeError
     ∧ is_ok (@FastApi.compute_analytics Demo.runtime Demo.noon [Demo.row1; utc_row])
       = false
     ∧ is_ok (@McpServer.compute_analytics Demo.runtime Demo.noon [Demo.row1; utc_row])
       = false).
Proof.
  split; [|split].
  - apply (proj1 (@recent_boundary_strict_unless_aware Demo.runtime Demo.noon
                    [Demo.row1] [] Demo.row2 "2024-04-30T12:00:00"
                    (dt_sub (naive Demo.noon) (timedelta_hours 24))
                    eq_refl ltac:(discriminate) eq_refl)).
    vm_compute. discriminate.
  - apply (proj2 (@recent_boundary_strict_unless_aware Demo.runtime Demo.noon
                    [Demo.row1] [] Demo.row4 "2024-04-30T12:01:00"
                    (dt_sub (naive Demo.noon)
                       (timedelta_hours 23 + timedelta_minutes 59))
                    eq_refl ltac:(discriminate) eq_refl)).
    reflexivity.
  - destruct (@recent_boundary_strict_unless_aware Demo.runtime Demo.noon
                [Demo.row1] [] utc_row "2024-04-30T12:01:00Z"
                {| wall := Demo.noon - timedelta_hours 23 - timedelta_minutes 59;
                   utcoffset := Some 0%Z |}
                eq_refl ltac:(discriminate) eq_refl)
      as (H1 & H2 & _ & H3 & H4).
    repeat split; assumption.
Defined.

Lemma unparsable_timestamp_raises_on_fastapi_witness :
  @McpServer.recent_activity Demo.runtime Demo.noon [Demo.row1; Demo.row3; Demo.row2]
  = @McpServer.recent_activity Demo.runtime Demo.noon [Demo.row1; Demo.row2]
  ∧ @FastApi.recent_activity Demo.runtime Demo.noon [Demo.row3] = Raise ValueError
  ∧ is_ok (@FastApi.compute_analytics Demo.runtime Demo.noon
             [Demo.row1; Demo.row3; Demo.row2]) = false.
Proof.
  destruct (@unparsable_timestamp_raises_on_fastapi Demo.runtime Demo.noon Demo.row3
              "not-a-date" eq_refl ltac:(discriminate) eq_refl) as (Hmcp & Hone & Hall).
  split; [exact (Hmcp [Demo.row1] [Demo.row2])|].
  split; [exact Hone|].
  exact (proj2 (Hall [Demo.row1] [Demo.row2])).
Defined.

Lemma analytics_within_bounds_witness :
  ∃ a,
    @McpServer.compute_analytics Demo.runtime Demo.noon [Demo.row1; Demo.row2; Demo.row3]
    = Ok a
    ∧ total_reactions a = 3%nat
    ∧ within_bounds a.
Proof.
  destruct (@McpServer.compute_analytics Demo.runtime Demo.noon
              [Demo.row1; Demo.row2; Demo.row3]) as [a|e] eqn:Ha;
    [|vm_compute in Ha; discriminate].
  exists a. split; [reflexivity|].
  exact (@analytics_within_bounds Demo.runtime Demo.noon
           [Demo.row1; Demo.row2; Demo.row3] a (or_intror Ha)).
Defined.

(** On the demo service the table [bad] holds a row with a broken
    timestamp: the FastAPI server answers the analytics call with a
    failure, the MCP server with a report that leaves the row out of
    [recent_24h]. *)
Example fastapi_analytics_with_broken_timestamp :
  (@FastApi.post_call Demo.runtime Demo.noon
     {| FastApi.name := "nocodb_get_analytics";
        FastApi.arguments := [("project_id", VStr "p1"); ("table_id", VStr "bad")] |}
     (Demo.fresh (Some "tok"))).1
  = {| FastApi.status_code := 200;
       FastApi.content_ :=
         FastApi.Model
           {| FastApi.success := false;
              FastApi.result_ := None;
              FastApi.error := Some "Invalid isoformat string" |} |}.
Proof. vm_compute. reflexivity. Qed.

Example mcp_analytics_with_broken_timestamp :
  match (@McpServer.nocodb_get_analytics Demo.runtime Demo.noon Demo.noon "p1" "bad"
           Demo.started).1 with
  | Ok (McpServer.Report _ _ a _ _) => total_reactions a = 3%nat ∧ recent_24h a = 1%nat
  | _ => False
  end.
Proof. vm_compute. split; reflexivity. Qed.

(** ** Binary64 rounding *)

Section Float64Facts.
Local Open Scope Q_scope.
Import Float64.

Lemma round_half_even_spec (q : Q) :
  q - (1 # 2) <= inject_Z (round_half_even q) <= q + (1 # 2).
Proof.
  unfold round_half_even. cbv zeta.
  pose proof (Qfloor_le q) as Hlo. pose proof (Qlt_floor q) as Hhi.
  rewrite inject_Z_plus in Hhi. change (inject_Z 1) with 1 in Hhi.
  destruct (Qcompare (q - inject_Z (Qfloor q)) (1 # 2)) eqn:Hc;
    [apply Qeq_alt in Hc; destruct (Z.even (Qfloor q))
    | apply Qlt_alt in Hc | apply Qgt_alt in Hc];
    rewrite ?inject_Z_plus; change (inject_Z 1) with 1;
    generalize dependent (inject_Z (Qfloor q)); intros; lra.
Qed.

Lemma pow2_pos (e : Z) : 0 < 2 ^ e.
Proof. apply Qpower_0_lt. reflexivity. Qed.

Lemma pow2_succ (e : Z) : 2 ^ (e + 1) == 2 ^ e * 2.
Proof. rewrite Qpower_plus by discriminate. reflexivity. Qed.

Lemma pow2_Z (a : Z) : (0 <= a)%Z → inject_Z (2 ^ a) == 2 ^ a.
Proof. intros Ha. rewrite Zpower_Qpower by exact Ha. reflexivity. Qed.

Lemma ilog2_spec (q : Q) :
  0 < q → 2 ^ ilog2 q <= q ∧ q < 2 ^ (ilog2 q + 1).
Proof.
  intros Hq. destruct q as [n d].
  assert (Hn : (0 < n)%Z) by (unfold Qlt in Hq; simpl in Hq; lia).
  unfold ilog2. simpl Qnum. simpl Qden.
  set (a := Z.log2 n). set (b := Z.log2 (Z.pos d)).
  destruct (Z.log2_spec n Hn) as [Ha1 Ha2]. fold a in Ha1, Ha2.
  destruct (Z.log2_spec (Z.pos d) eq_refl) as [Hb1 Hb2]. fold b in Hb1, Hb2.
  assert (Ha0 : (0 <= a)%Z) by apply Z.log2_nonneg.
  assert (Hb0 : (0 <= b)%Z) by apply Z.log2_nonneg.
  rewrite <- Z.add_1_r in Ha2, Hb2.
  assert (HA1 : 2 ^ a <= inject_Z n).
  { rewrite <- pow2_Z by exact Ha0. rewrite <- Zle_Qle. exact Ha1. }
  assert (HA2 : inject_Z n < 2 ^ a * 2).
  { rewrite <- pow2_succ, <- pow2_Z by lia. rewrite <- Zlt_Qlt. exact Ha2. }
  assert (HB1 : 2 ^ b <= inject_Z (Z.pos d)).
  { rewrite <- pow2_Z by exact Hb0. rewrite <- Zle_Qle. exact Hb1. }
  assert (HB2 : inject_Z (Z.pos d) < 2 ^ b * 2).
  { rewrite <- pow2_succ, <- pow2_Z by lia. rewrite <- Zlt_Qlt. exact Hb2. }
  assert (HE : 2 ^ (a - b) * 2 ^ b == 2 ^ a).
  { rewrite <- Qpower_plus by discriminate. replace (a - b + b)%Z with a by lia. reflexivity. }
  assert (HX : (n # d) * inject_Z (Z.pos d) == inject_Z n).
  { rewrite (Qmake_Qdiv n d). field. discriminate. }
  pose proof (pow2_pos (a - b)) as HEpos. pose proof (pow2_pos b) as HBpos.
  pose proof (pow2_pos a) as HApos.
  set (X := n # d) in *. set (E := 2 ^ (a - b)) in *.
  set (A := 2 ^ a) in *. set (B := 2 ^ b) in *.
  set (N := inject_Z n) in *. set (D := inject_Z (Z.pos d)) in *.
  assert (Hup : X < E * 2) by nra.
  assert (Hdown : E < X * 2) by nra.
  destruct (Qle_bool E X) eqn:Hle.
  - apply Qle_bool_iff in Hle. split; [exact Hle|].
    rewrite pow2_succ. exact Hup.
  - assert (Hlt : X < E).
    { apply Qnot_le_lt. intros Hc. apply Qle_bool_iff in Hc. congruence. }
    assert (HE' : 2 ^ (a - b - 1) * 2 == E).
    { unfold E. rewrite <- pow2_succ. replace (a - b - 1 + 1)%Z with (a - b)%Z by lia.
      reflexivity. }
    split.
    + lra.
    + replace (a - b - 1 + 1)%Z with (a - b)%Z by lia. exact Hlt.
Qed.

Lemma Qabs_of_pos (q : Q) : 0 < q → Qabs q = q.
Proof.
  destruct q as [n d]. unfold Qlt, Qabs; simpl. intros Hn.
  f_equal. apply Z.abs_eq. lia.
Qed.

(** Rounding a positive number in the normal range to the nearest double
    moves it by at most half a unit in the last place. *)
Lemma rn_error (q : Q) :
  0 < q → (-1022 <= ilog2 q)%Z →
  q - q * (1 # 9007199254740992) <= rn q <= q + q * (1 # 9007199254740992).
Proof.
  intros Hq Hnormal. unfold rn.
  destruct (Qeq_bool q 0) eqn:Hz; [apply Qeq_bool_eq in Hz; lra|].
  unfold ulp_exponent. rewrite (Qabs_of_pos q Hq).
  rewrite Z.max_l by lia.
  destruct (ilog2_spec q Hq) as [Hlow _].
  set (L := ilog2 q) in *.
  assert (HP : 2 ^ (L - 52) * (4503599627370496 # 1) == 2 ^ L).
  { change (4503599627370496 # 1) with (2 ^ 52).
    rewrite <- Qpower_plus by discriminate.
    replace (L - 52 + 52)%Z with L by lia. reflexivity. }
  pose proof (pow2_pos (L - 52)) as HPpos.
  pose proof (round_half_even_spec (q / 2 ^ (L - 52))) as Hm.
  assert (HY : q / 2 ^ (L - 52) * 2 ^ (L - 52) == q).
  { field. intros Hc. rewrite Hc in HPpos. lra. }
  set (P := 2 ^ (L - 52)) in *. set (Y := q / P) in *.
  set (m := inject_Z (round_half_even Y)) in *. set (T := 2 ^ L) in *.
  clearbody m Y T P.
  split; nra.
Qed.

Lemma ilog2_lower (q : Q) (e : Z) : 0 < q → 2 ^ e <= q → (e <= ilog2 q)%Z.
Proof.
  intros Hq He. destruct (ilog2_spec q Hq) as [_ Hup].
  destruct (Z_le_gt_dec e (ilog2 q)) as [Hle|Hgt]; [exact Hle|].
  assert (Hpow : 2 ^ (ilog2 q + 1) <= 2 ^ e).
  { apply Qpower_le_compat_l; [lia | discriminate]. }
  lra.
Qed.

(** The heart of the percentage: for a count within a total below [2^40],
    the tenths kept by [round(count / total * 100, 1)] are a nearest
    integer to [1000 * count / total]. *)
Lemma tenths_nearest (c t : Z) :
  (0 <= c <= t)%Z → (0 < t < 2 ^ 40)%Z →
  (Z.abs (2 * tenths (mul (rn (inject_Z c / inject_Z t)) (inject_Z 100)) * t - 2000 * c)
   <= t)%Z.
Proof.
  intros Hc Ht.
  destruct (Z.eq_dec c 0%Z) as [->|Hc0].
  - assert (Hzero : tenths (mul (rn (inject_Z 0 / inject_Z t)) (inject_Z 100)) = 0%Z).
    { unfold mul, tenths. destruct t as [|p|p]; try lia. reflexivity. }
    rewrite Hzero. lia.
  - assert (HC : 1 <= inject_Z c) by (change 1 with (inject_Z 1); rewrite <- Zle_Qle; lia).
    assert (HCT : inject_Z c <= inject_Z t) by (rewrite <- Zle_Qle; lia).
    assert (HT : inject_Z t < 1099511627776).
    { change 1099511627776 with (inject_Z (2 ^ 40)). rewrite <- Zlt_Qlt. lia. }
    set (q1 := inject_Z c / inject_Z t).
    assert (Hq1 : q1 * inject_Z t == inject_Z c).
    { unfold q1. field. intros Hz. rewrite Hz in HCT. lra. }
    assert (Hq1pos : 0 < q1).
    { apply Qnot_le_lt. intros Hneg. nra. }
    assert (Hq1low : 2 ^ (-40) <= q1).
    { change (2 ^ (-40)) with (1 # 1099511627776).
      apply Qnot_lt_le. intros Hsmall. nra. }
    pose proof (rn_error q1 Hq1pos) as Hx1.
    specialize (Hx1 ltac:(pose proof (ilog2_lower q1 (-40) Hq1pos Hq1low); lia)).
    fold q1. set (x1 := rn q1) in *.
    unfold mul. change (inject_Z 100) with 100.
    assert (Hypos : 0 < x1 * 100) by lra.
    assert (Hylow : 2 ^ (-40) <= x1 * 100).
    { change (2 ^ (-40)) with (1 # 1099511627776) in *. lra. }
    pose proof (rn_error (x1 * 100) Hypos) as Hx.
    specialize (Hx ltac:(pose proof (ilog2_lower _ (-40) Hypos Hylow); lia)).
    set (x := rn (x1 * 100)) in *.
    unfold tenths. pose proof (round_half_even_spec (x * 10)) as Hk.
    set (k := round_half_even (x * 10)) in *.
    assert (Hgoal : inject_Z (2 * k * t - 2000 * c) < inject_Z (t + 1)
                    ∧ inject_Z (- (t + 1)) < inject_Z (2 * k * t - 2000 * c)).
    { unfold Z.sub.
      repeat (rewrite inject_Z_plus || rewrite inject_Z_opp || rewrite inject_Z_mult).
      change (inject_Z 2) with 2. change (inject_Z 2000) with 2000.
      change (inject_Z 1) with 1.
      set (K := inject_Z k) in *. set (C := inject_Z c) in *. set (T := inject_Z t) in *.
      clearbody K C T x x1 q1.
      assert (Hhi : K <= (1000 + (1 # 4000000000000)) * q1 + (1 # 2)) by lra.
      assert (Hlo : (1000 - (1 # 4000000000000)) * q1 - (1 # 2) <= K) by lra.
      assert (HTpos : 0 <= T) by lra.
      apply (Qmult_le_compat_r _ _ T) in Hhi; [|exact HTpos].
      apply (Qmult_le_compat_r _ _ T) in Hlo; [|exact HTpos].
      assert (E1 : ((1000 + (1 # 4000000000000)) * q1 + (1 # 2)) * T
                   == (1000 + (1 # 4000000000000)) * (q1 * T) + (1 # 2) * T) by ring.
      assert (E2 : ((1000 - (1 # 4000000000000)) * q1 - (1 # 2)) * T
                   == (1000 - (1 # 4000000000000)) * (q1 * T) - (1 # 2) * T) by ring.
      rewrite E1 in Hhi. rewrite E2 in Hlo. rewrite Hq1 in Hhi, Hlo.
      assert (E3 : 2 * K * T == 2 * (K * T)) by ring.
      rewrite E3. set (KT := K * T) in *. clearbody KT.
      split; lra. }
    destruct Hgoal as [H1 H2]. rewrite <- Zlt_Qlt in H1, H2. lia.
Qed.
End Float64Facts.

(** On every count and total up to 40 the division and the multiplication
    of [Float64] give the doubles that [SFdiv] and [SFmul] give. *)
Example float64_agrees_with_SpecFloat :
  forallb (λ p, agrees_with_SpecFloat p.1 p.2) (count_total_pairs 40) = true.
Proof. vm_compute. reflexivity. Qed.

(** ** Percentages *)

Lemma percentage_returns (count total : nat) : ∃ p, percentage count total = Ok p.
Proof.
  unfold percentage, Float64.true_div.
  destruct (0 <? total)%nat eqn:Hpos; [|eauto].
  apply Nat.ltb_lt in Hpos.
  destruct (Z.of_nat total =? 0)%Z eqn:Hz; [apply Z.eqb_eq in Hz; lia|].
  simpl. eauto.
Qed.

Lemma percentage_zero_total (count : nat) : percentage count 0 = Ok (VInt 0).
Proof. reflexivity. Qed.

Lemma percentage_one_decimal (count total : nat) (p : value) :
  (count ≤ total)%nat → (0 < total)%nat → (Z.of_nat total < 2 ^ 40)%Z →
  percentage count total = Ok p →
  one_decimal_percentage p count total.
Proof.
  intros Hle Hpos Hsize. unfold percentage, Float64.true_div.
  apply Nat.ltb_lt in Hpos as Hpos'. rewrite Hpos'.
  destruct (Z.of_nat total =? 0)%Z eqn:Hz; [apply Z.eqb_eq in Hz; lia|].
  simpl. intros [= <-].
  eexists. split; [reflexivity|].
  apply tenths_nearest; lia.
Qed.

Section Percentages.
Context `{Runtime}.

Lemma compute_analytics_counts (now : Z) (records : list record) (a : analytics) :
  FastApi.compute_analytics now records = Ok a
  ∨ McpServer.compute_analytics now records = Ok a →
  total_reactions a = length records
  ∧ cinematic_count a = count_with "cinematic" records
  ∧ anime_count a = count_with "anime" records
  ∧ with_sref_codes a = count_with "sref_code" records.
Proof.
  intros [Ha|Ha].
  - unfold FastApi.compute_analytics in Ha.
    destruct (for_each shot_type_step ∅ records); [|discriminate]. simpl in Ha.
    destruct (FastApi.recent_activity now records); [|discriminate]. simpl in Ha.
    inversion Ha; subst. auto.
  - unfold McpServer.compute_analytics in Ha.
    destruct (for_each shot_type_step ∅ records); [|discriminate]. simpl in Ha.
    destruct (McpServer.recent_activity now records); [|discriminate]. simpl in Ha.
    inversion Ha; subst. auto.
Qed.

Lemma summarize_percentages (a : analytics) (s : summary) :
  FastApi.summarize a = Ok s ∨ McpServer.summarize a = Ok s →
  percentage (cinematic_count a) (total_reactions a) = Ok (cinematic_percentage s)
  ∧ percentage (anime_count a) (total_reactions a) = Ok (anime_percentage s)
  ∧ percentage (with_sref_codes a) (total_reactions a) = Ok (sref_coverage s).
Proof.
  unfold FastApi.summarize, McpServer.summarize.
  destruct (percentage (cinematic_count a) (total_reactions a)) as [p1|];
    [|intros [|]; discriminate].
  destruct (percentage (anime_count a) (total_reactions a)) as [p2|];
    [|intros [|]; discriminate].
  destruct (percentage (with_sref_codes a) (total_reactions a)) as [p3|];
    [|intros [|]; discriminate].
  simpl. intros [Hs|Hs]; inversion Hs; subst; simpl; auto.
Qed.

Lemma summarize_returns (a : analytics) :
  is_ok (FastApi.summarize a) = true ∧ is_ok (McpServer.summarize a) = true.
Proof.
  unfold FastApi.summarize, McpServer.summarize.
  destruct (percentage_returns (cinematic_count a) (total_reactions a)) as (p1 & ->).
  destruct (percentage_returns (anime_count a) (total_reactions a)) as (p2 & ->).
  destruct (percentage_returns (with_sref_codes a) (total_reactions a)) as (p3 & ->).
  split; reflexivity.
Qed.

Lemma analyse_inv (now : Z) (records : list record) (a : analytics) (s : summary) :
  FastApi.analyse now records = Ok (a, s) ∨ McpServer.analyse now records = Ok (a, s) →
  (FastApi.compute_analytics now records = Ok a
   ∨ McpServer.compute_analytics now records = Ok a)
  ∧ (FastApi.summarize a = Ok s ∨ McpServer.summarize a = Ok s).
Proof.
  unfold FastApi.analyse, McpServer.analyse. intros [Hr|Hr].
  - destruct (FastApi.compute_analytics now records) as [a'|]; [|discriminate].
    simpl in Hr. destruct (FastApi.summarize a') as [s'|] eqn:Hs; [|discriminate].
    inversion Hr; subst. auto.
  - destruct (McpServer.compute_analytics now records) as [a'|]; [|discriminate].
    simpl in Hr. destruct (McpServer.summarize a') as [s'|] eqn:Hs; [|discriminate].
    inversion Hr; subst. auto.
Qed.

(** C5: on the empty batch both servers report a total of 0 and the three
    percentages as 0; the guard keeps the division from ever raising; and
    on a non-empty batch (of fewer than [2^40] records) each percentage is
    [100 * count / total] rounded to one decimal. *)
Theorem percentages_guarded_and_rounded (now : Z) :
  (∃ a s,
      FastApi.analyse now [] = Ok (a, s)
      ∧ total_reactions a = 0%nat
      ∧ cinematic_percentage s = VInt 0
      ∧ anime_percentage s = VInt 0
      ∧ sref_coverage s = VInt 0)
  ∧ (∃ a s,
        McpServer.analyse now [] = Ok (a, s)
        ∧ total_reactions a = 0%nat
        ∧ cinematic_percentage s = VInt 0
        ∧ anime_percentage s = VInt 0
        ∧ sref_coverage s = VInt 0)
  ∧ (∀ a, is_ok (FastApi.summarize a) = true ∧ is_ok (McpServer.summarize a) = true)
  ∧ (∀ records a s,
        records ≠ [] → (Z.of_nat (length records) < 2 ^ 40)%Z →
        FastApi.analyse now records = Ok (a, s)
        ∨ McpServer.analyse now records = Ok (a, s) →
        one_decimal_percentage (cinematic_percentage s) (cinematic_count a)
          (total_reactions a)
        ∧ one_decimal_percentage (anime_percentage s) (anime_count a) (total_reactions a)
        ∧ one_decimal_percentage (sref_coverage s) (with_sref_codes a)
            (total_reactions a)).
Proof.
  split; [|split; [|split]].
  - eexists _, _. split; [reflexivity|]. simpl. auto.
  - eexists _, _. split; [reflexivity|]. simpl. auto.
  - apply summarize_returns.
  - intros records a s Hne Hsize Hreport.
    destruct (analyse_inv now records a s Hreport) as [Ha Hs].
    destruct (compute_analytics_counts now records a Ha) as (Ht & Hc & Han & Hsr).
    destruct (summarize_percentages a s Hs) as (Hp1 & Hp2 & Hp3).
    assert (Hpos : (0 < total_reactions a)%nat).
    { rewrite Ht. destruct records; [congruence | simpl; lia]. }
    rewrite <- Ht in Hsize.
    repeat split; apply percentage_one_decimal; try assumption;
      rewrite ?Hc, ?Han, ?Hsr, Ht; apply filter_length_le.
Qed.

End Percentages.

Lemma percentages_guarded_and_rounded_witness :
  ∃ a s,
    @McpServer.analyse Demo.runtime Demo.noon [Demo.row1; Demo.row2; Demo.row3] = Ok (a, s)
    ∧ one_decimal_percentage (cinematic_percentage s) (cinematic_count a)
        (total_reactions a)
    ∧ one_decimal_percentage (anime_percentage s) (anime_count a) (total_reactions a)
    ∧ one_decimal_percentage (sref_coverage s) (with_sref_codes a) (total_reactions a).
Proof.
  destruct (@McpServer.analyse Demo.runtime Demo.noon [Demo.row1; Demo.row2; Demo.row3])
    as [[a s]|e] eqn:Hr; [|vm_compute in Hr; discriminate].
  exists a, s. split; [reflexivity|].
  exact (proj2 (proj2 (proj2 (@percentages_guarded_and_rounded Demo.runtime Demo.noon)))
           [Demo.row1; Demo.row2; Demo.row3] a s ltac:(discriminate)
           ltac:(simpl; lia) (or_intror Hr)).
Defined.

(** One record in three is 33.3 percent, one in eight 12.5, none of any 0.0. *)
Example percentage_examples :
  percentage 1 3 = Ok (VFloat (Q2Qc (Float64.rn (inject_Z 333 / 10))))
  ∧ percentage 1 8 = Ok (VFloat (Q2Qc (inject_Z 125 / 10)))
  ∧ percentage 0 5 = Ok (VFloat 0%Qc)
  ∧ percentage 0 0 = Ok (VInt 0).
Proof.
  repeat split; unfold percentage; simpl; do 2 f_equal; apply Qc_is_canon;
    vm_compute; reflexivity.
Qed.

(** ** The shot type dict under reordering *)

Lemma pydict_set_lookup (v : value) (k k' : key) (n : nat) (d : pydict) :
  hash_key v = Some k →
  pydict_lookup k' (pydict_set v k n d)
  = if decide (k' = k) then Some n else pydict_lookup k' d.
Proof.
  intros Hv. unfold pydict_lookup.
  induction d as [|item d IH]; cbn [pydict_set List.find].
  - unfold same_key at 1. cbn [fst]. rewrite Hv.
    destruct (decide (k' = k)) as [->|Hne].
    + rewrite bool_decide_eq_true_2 by reflexivity. reflexivity.
    + rewrite bool_decide_eq_false_2 by congruence. reflexivity.
  - destruct (same_key k item) eqn:Hk.
    + apply bool_decide_eq_true in Hk. cbn [List.find].
      unfold same_key at 1 3. cbn [fst]. rewrite Hk.
      destruct (decide (k' = k)) as [->|Hne].
      * rewrite bool_decide_eq_true_2 by reflexivity. reflexivity.
      * rewrite bool_decide_eq_false_2 by congruence. reflexivity.
    + apply bool_decide_eq_false in Hk. cbn [List.find].
      destruct (same_key k' item) eqn:Hk'.
      * apply bool_decide_eq_true in Hk'.
        destruct (decide (k' = k)) as [->|Hne]; [contradiction|reflexivity].
      * exact IH.
Qed.





(** The loop on the counts and the loop on the dict go together: they
    raise together, and the counts are those of the dict. *)
Lemma shot_dict_simulates (l : list record) (d : pydict) (m : gmap key nat) :
  (∀ k, m !! k = pydict_lookup k d) →
  match for_each shot_dict_step d l, for_each shot_type_step m l with
  | Ok d', Ok m' => ∀ k, m' !! k = pydict_lookup k d'
  | Raise e, Raise e' => e = e'
  | _, _ => False
  end.
Proof.
  revert d m. induction l as [|r l IH]; intros d m Hrel; cbn [for_each].
  - exact Hrel.
  - unfold shot_dict_step, shot_type_step.
    destruct (dict_get "shot_type" r) as [v|]; [destruct (truthy v)|].
    + destruct (hash_key v) as [k|] eqn:Hv; [|reflexivity].
      apply IH. intros k'. rewrite (pydict_set_lookup v k k' _ d Hv).
      unfold pydict_get. rewrite <- (Hrel k).
      destruct (decide (k' = k)) as [->|Hne].
      * rewrite lookup_insert_eq. reflexivity.
      * rewrite lookup_insert_ne by congruence. apply Hrel.
    + apply IH, Hrel.
    + apply IH, Hrel.
Qed.

(** The [shot_types] of a report are the counts of the dict, key by key. *)
Lemma shot_types_of_dict (records : list record) (m : gmap key nat) :
  for_each shot_type_step ∅ records = Ok m →
  ∃ d, shot_dict records = Ok d ∧ ∀ k, m !! k = pydict_lookup k d.
Proof.
  intros Hm. unfold shot_dict.
  pose proof (shot_dict_simulates records [] ∅) as Hsim.
  rewrite Hm in Hsim.
  destruct (for_each shot_dict_step [] records) as [d|e].
  - exists d. split; [reflexivity|]. apply Hsim. intros k. apply lookup_empty.
  - exfalso. apply Hsim. intros k. apply lookup_empty.
Qed.






Section Reordering.
Context `{Runtime}.


End Reordering.



(** ** The dispatcher as a table *)

Section Table.
Context `{Runtime}.

Ltac tool_case :=
  match goal with
  | |- context [String.eqb ?n ?lit] =>
      is_var n;
      let E := fresh "E" in
      destruct (String.eqb n lit) eqn:E;
      [apply String.eqb_eq in E; subst n | ]
  end.

Ltac split_matches :=
  repeat first
    [ reflexivity
    | match goal with
      | |- context [match dict_get ?k ?a with _ => _ end] =>
          let Hd := fresh "Hd" in
          destruct (dict_get k a) eqn:Hd;
          unfold tables_path, data_path, row_path, analytics_path, arg; rewrite ?Hd; simpl
      | |- context [send ?s ?r ?st] => destruct (send s r st) as [[?|?] ?]; simpl
      | |- context [raise_for_status ?r] => destruct (raise_for_status r); simpl
      | |- context [if negb ?b then _ else _] => destruct b; simpl
      | |- context [match json ?r with _ => _ end] => destruct (json r); simpl
      | |- context [match records_of ?r with _ => _ end] => destruct (records_of r); simpl
      | |- context [match FastApi.analyse ?n ?r with _ => _ end] =>
          destruct (FastApi.analyse n r); simpl
      end ].

Ltac run_branch :=
  unfold subscripted, first_missing, subscript,
    meta_projects, FastApi.checked_json, finish, lift, raise, mbind, M_bind, result_bind,
    mret, M_ret;
  simpl; split_matches.

(** The chain of branches against the table, branch by branch. *)
Lemma execute_nocodb_tool_by_table (now : Z) (tool_name : string) (args : record)
    (api_token : value) (st : FastApi.state) :
  FastApi.execute_nocodb_tool now tool_name args api_token st
  = dispatch_by_table now tool_name args api_token st.
Proof.
  unfold FastApi.execute_nocodb_tool, dispatch_by_table, mbind, M_bind.
  destruct (FastApi.get_session st) as [[ref|e] st1]; [|reflexivity].
  destruct (FastApi.base_url_of args st1) as [[u|e] st2]; [|reflexivity].
  unfold plan_of.
  repeat tool_case.
  all: run_branch.
Qed.

(** X1: The [if]/[elif] chain of [execute_nocodb_tool] is the dispatcher
    written over the table of the ten tools: for every name, argument
    dict, token and state both give the same outcome and the same state. *)
Theorem dispatcher_is_a_table (now : Z) (tool_name : string) (args : record)
    (api_token : value) (st : FastApi.state) :
  FastApi.execute_nocodb_tool now tool_name args api_token st
  = dispatch_by_table now tool_name args api_token st.
Proof. exact (execute_nocodb_tool_by_table now tool_name args api_token st). Qed.

End Table.

(** ** Calls on the plain HTTP surface *)

Local Open Scope list_scope.

Lemma fastapi_get_session_grows (st : FastApi.state) :
  ∃ ref st',
    FastApi.get_session st = (Ok ref, st')
    ∧ session_closed ref (network st') = false
    ∧ sent (network st') = sent (network st)
    ∧ FastApi.nocodb_url (context st') = FastApi.nocodb_url (context st)
    ∧ FastApi.api_token (context st') = FastApi.api_token (context st)
    ∧ FastApi.session (context st') = Some ref
    ∧ match live_session (FastApi.session (context st)) (network st) with
      | Some ref0 => ref = ref0 ∧ st' = st
      | None =>
          ref = length (sessions (network st))
          ∧ sessions (network st')
            = sessions (network st) ++ [ {| closed := false; timeout_total := 30 |} ]
      end.
Proof.
  destruct st as [[url tok held] [ss snt]].
  unfold FastApi.get_session, live_session; simpl.
  destruct held as [ref|]; simpl.
  - destruct (session_closed ref {| sessions := ss; sent := snt |}) eqn:Hc.
    + eexists _, _. split; [reflexivity|]. simpl. rewrite session_closed_new. auto 10.
    + eexists _, _. split; [reflexivity|]. simpl. auto 10.
  - eexists _, _. split; [reflexivity|]. simpl. rewrite session_closed_new. auto 10.
Qed.

Section Calls.
Context `{Runtime}.

(** The endpoint wraps the outcome of the dispatcher: with a credential the
    answer is the model of that outcome. *)
Lemma post_call_with_credential (now : Z) (call : FastApi.ToolCall) (st : FastApi.state) :
  truthy (FastApi.credential (FastApi.arguments call) st) = true →
  FastApi.post_call now call st
  = let '(r, st') :=
      FastApi.execute_nocodb_tool now (FastApi.name call) (FastApi.arguments call)
        (FastApi.credential (FastApi.arguments call) st) st in
    (answer_200 (model_of r), st').
Proof.
  intros Hc.
  unfold FastApi.post_call, FastApi.execute_tool, try_catch, mbind, M_bind; simpl.
  rewrite Hc; simpl.
  destruct (FastApi.execute_nocodb_tool _ _ _ _ st) as [[p|e] st']; reflexivity.
Qed.

Lemma post_call_without_credential (now : Z) (call : FastApi.ToolCall)
    (st : FastApi.state) :
  truthy (FastApi.credential (FastApi.arguments call) st) = false →
  FastApi.post_call now call st
  = (answer_200 (model_of (Raise (HTTPException 400 "API token required"))), st).
Proof.
  intros Hc.
  unfold FastApi.post_call, FastApi.execute_tool, try_catch, mbind, M_bind; simpl.
  rewrite Hc. reflexivity.
Qed.

(** X2: Whatever the call, the state and the remote service, [POST /call] is
    answered with status 200 and a model that holds either a result or an
    error message: no exception leaves the endpoint, so neither registered
    exception handler ever runs. *)
Theorem call_always_answers_200 (now : Z) (call : FastApi.ToolCall) (st : FastApi.state) :
  ∃ m,
    (FastApi.post_call now call st).1 = answer_200 m
    ∧ (FastApi.success m = true ∧ is_Some (FastApi.result_ m) ∧ FastApi.error m = None
       ∨ FastApi.success m = false ∧ FastApi.result_ m = None
         ∧ is_Some (FastApi.error m)).
Proof.
  destruct (truthy (FastApi.credential (FastApi.arguments call) st)) eqn:Hc.
  - rewrite (post_call_with_credential now call st Hc).
    destruct (FastApi.execute_nocodb_tool now (FastApi.name call) (FastApi.arguments call)
                (FastApi.credential (FastApi.arguments call) st) st) as [[p|e] st'];
      eexists; (split; [reflexivity|]);
      cbn [FastApi.success FastApi.result_ FastApi.error model_of]; [left|right]; eauto.
  - rewrite (post_call_without_credential now call st Hc).
    eexists. split; [reflexivity|].
    cbn [FastApi.success FastApi.result_ FastApi.error model_of]. right; eauto.
Qed.

Lemma send_open_with_sent {C} (ref : nat) (req : request) (st : server C) :
  session_closed ref (network st) = false →
  send ref req st
  = (match remote req with Answered a => Ok a | Failed e => Raise e end, with_sent req st).
Proof.
  intros Hopen. unfold send, with_sent. rewrite Hopen.
  destruct (remote req); reflexivity.
Qed.

(** The dispatcher first makes sure of a session, then does what
    [after_session] says. *)
Lemma dispatch_run (now : Z) (tool_name : string) (args : record) (api_token : value)
    (st : FastApi.state) :
  ∃ ref st1,
    FastApi.get_session st = (Ok ref, st1)
    ∧ FastApi.execute_nocodb_tool now tool_name args api_token st
      = after_session now tool_name args api_token st1.
Proof.
  destruct (fastapi_get_session_grows st) as (ref & st1 & Hg & Hopen & _).
  exists ref, st1. split; [exact Hg|].
  rewrite execute_nocodb_tool_by_table.
  unfold dispatch_by_table, after_session, mbind, M_bind. rewrite Hg.
  unfold FastApi.base_url_of at 1 2. simpl.
  destruct (default _ _) as [| | | |u| |]; try reflexivity.
  destruct (plan_of tool_name args) as [p|]; [|reflexivity].
  destruct (first_missing _ _); [reflexivity|].
  unfold request_of, fastapi_headers, outcome_of.
  rewrite (send_open_with_sent ref _ st1 Hopen). unfold lift.
  destruct (remote _); reflexivity.
Qed.

End Calls.
Section Calls2.
Context `{Runtime}.

Lemma after_session_state (now : Z) (tool_name : string) (args : record)
    (api_token : value) (st : FastApi.state) :
  context (after_session now tool_name args api_token st).2 = context st
  ∧ sessions (network (after_session now tool_name args api_token st).2)
    = sessions (network st)
  ∧ grows_by_at_most_one (sent (network st))
      (sent (network (after_session now tool_name args api_token st).2)).
Proof.
  unfold after_session, grows_by_at_most_one.
  destruct (FastApi.base_url_of args st).1; simpl; auto.
  destruct (plan_of tool_name args); simpl; auto.
  destruct (first_missing _ _); simpl; eauto.
Qed.

(** What a call leaves behind: the state is the one after acquiring a
    session, or the one before when the call has no credential, with at
    most one request added. *)
Lemma post_call_step (now : Z) (call : FastApi.ToolCall) (st : FastApi.state) :
  ∃ st1,
    (st1 = st ∨ ∃ ref, FastApi.get_session st = (Ok ref, st1))
    ∧ context (FastApi.post_call now call st).2 = context st1
    ∧ sessions (network (FastApi.post_call now call st).2) = sessions (network st1)
    ∧ sent (network st1) = sent (network st)
    ∧ grows_by_at_most_one (sent (network st))
        (sent (network (FastApi.post_call now call st).2)).
Proof.
  destruct (truthy (FastApi.credential (FastApi.arguments call) st)) eqn:Hc.
  - rewrite (post_call_with_credential now call st Hc).
    destruct (dispatch_run now (FastApi.name call) (FastApi.arguments call)
                (FastApi.credential (FastApi.arguments call) st) st)
      as (ref & st1 & Hg & Hrun).
    rewrite Hrun.
    destruct (fastapi_get_session_grows st) as (ref' & st1' & Hg' & _ & Hsent & _).
    rewrite Hg in Hg'. injection Hg' as <- <-.
    destruct (after_session_state now (FastApi.name call) (FastApi.arguments call)
                (FastApi.credential (FastApi.arguments call) st) st1)
      as (Hctx & Hsess & Hgrow).
    exists st1.
    destruct (after_session now (FastApi.name call) (FastApi.arguments call)
                (FastApi.credential (FastApi.arguments call) st) st1) as [r st2].
    cbn [snd] in *. rewrite <- Hsent.
    split; [right; eauto|]. auto.
  - rewrite (post_call_without_credential now call st Hc). exists st. cbn [snd].
    split; [left; reflexivity|]. unfold grows_by_at_most_one. auto.
Qed.

(** X3: A call hands at most one request to the client and allocates at most
    one session; it never closes or alters a session that exists, and it
    leaves the configured URL and token alone. *)
Theorem call_sends_at_most_one_request (now : Z) (call : FastApi.ToolCall)
    (st : FastApi.state) :
  let st' := (FastApi.post_call now call st).2 in
  grows_by_at_most_one (sent (network st)) (sent (network st'))
  ∧ grows_by_at_most_one (sessions (network st)) (sessions (network st'))
  ∧ FastApi.nocodb_url (context st') = FastApi.nocodb_url (context st)
  ∧ FastApi.api_token (context st') = FastApi.api_token (context st).
Proof.
  cbv zeta.
  destruct (post_call_step now call st) as (st1 & Hst1 & -> & -> & _ & Hgrow).
  split; [exact Hgrow|].
  destruct Hst1 as [-> | (ref & Hg)].
  - unfold grows_by_at_most_one. auto.
  - destruct (fastapi_get_session_grows st)
      as (ref' & st1' & Hg' & _ & _ & Hurl & Htok & _ & Hlive).
    rewrite Hg in Hg'. injection Hg' as <- <-.
    repeat split; try assumption.
    unfold grows_by_at_most_one.
    destruct (live_session _ _); [destruct Hlive as [_ ->]; auto | ].
    destruct Hlive as [_ ->]. eauto.
Qed.

Lemma plan_of_subscripted (tool_name : string) (args : record) :
  subscripted tool_name ≠ [] → is_Some (plan_of tool_name args).
Proof.
  unfold subscripted, plan_of.
  destruct (String.eqb tool_name "nocodb_test_connection") eqn:E1; [eauto|].
  destruct (String.eqb tool_name "nocodb_list_projects") eqn:E2; [eauto|].
  repeat match goal with
         | |- context [String.eqb tool_name ?lit] =>
             destruct (String.eqb tool_name lit); [eauto|]
         end.
  congruence.
Qed.

(** X4: A call that leaves out an argument its tool reads with [args[...]]
    fails with the [KeyError] of the first such key, and nothing is sent. *)
Theorem missing_argument_sends_nothing (now : Z) (tool_name : string) (args : record)
    (st : FastApi.state) (k : string) :
  truthy (FastApi.credential args st) = true →
  url_is_str args = true →
  first_missing (subscripted tool_name) args = Some k →
  (FastApi.post_call now {| FastApi.name := tool_name; FastApi.arguments := args |} st).1
  = answer_200 (model_of (Raise (KeyError k)))
  ∧ sent (network
            (FastApi.post_call now
               {| FastApi.name := tool_name; FastApi.arguments := args |} st).2)
    = sent (network st).
Proof.
  intros Hc Hu Hk.
  rewrite (post_call_with_credential now
             {| FastApi.name := tool_name; FastApi.arguments := args |} st Hc).
  cbn [FastApi.name FastApi.arguments].
  destruct (dispatch_run now tool_name args (FastApi.credential args st) st)
    as (ref & st1 & Hg & ->).
  destruct (fastapi_get_session_grows st) as (ref' & st1' & Hg' & _ & Hsent & _).
  rewrite Hg in Hg'. injection Hg' as <- <-.
  unfold after_session.
  destruct (base_url_of_str args st1 Hu) as (u & ->). simpl.
  destruct (plan_of_subscripted tool_name args) as (p & ->).
  { intros Hnil. rewrite Hnil in Hk. discriminate. }
  rewrite Hk. simpl. auto.
Qed.

(** A call that passes the checks, step by step: the session, the base
    URL, the request and what is made of the reply. *)
Lemma post_call_run (now : Z) (tool_name : string) (args : record)
    (st : FastApi.state) (p : plan) :
  truthy (FastApi.credential args st) = true →
  url_is_str args = true →
  plan_of tool_name args = Some p →
  first_missing (subscripted tool_name) args = None →
  ∃ base_url ref st1,
    FastApi.base_url_of args st = (Ok base_url, st)
    ∧ FastApi.get_session st = (Ok ref, st1)
    ∧ FastApi.post_call now {| FastApi.name := tool_name; FastApi.arguments := args |} st
      = (answer_200
           (model_of
              (outcome_of now p (request_of base_url (FastApi.credential args st) p))),
         with_sent (request_of base_url (FastApi.credential args st) p) st1).
Proof.
  intros Hc Hu Hp Hk.
  rewrite (post_call_with_credential now
             {| FastApi.name := tool_name; FastApi.arguments := args |} st Hc).
  cbn [FastApi.name FastApi.arguments].
  destruct (dispatch_run now tool_name args (FastApi.credential args st) st)
    as (ref & st1 & Hg & ->).
  destruct (fastapi_get_session_grows st) as (ref' & st1' & Hg' & _ & Hsent & Hurl & _).
  rewrite Hg in Hg'. injection Hg' as <- <-.
  destruct (base_url_of_str args st Hu) as (u & Hb).
  pose proof (base_url_of_same args st st1 u Hurl Hb) as Hb1.
  exists u, ref, st1.
  split; [exact Hb|]. split; [exact Hg|].
  unfold after_session. rewrite Hb1, Hp, Hk. reflexivity.
Qed.

(** X5: A call with a credential, a usable [url] and every argument its tool
    reads sends exactly the request of the table, and its answer is the
    model of what the table makes of the reply. *)
Theorem call_follows_table (now : Z) (tool_name : string) (args : record)
    (st : FastApi.state) (p : plan) :
  truthy (FastApi.credential args st) = true →
  url_is_str args = true →
  plan_of tool_name args = Some p →
  first_missing (subscripted tool_name) args = None →
  ∃ base_url req,
    FastApi.base_url_of args st = (Ok base_url, st)
    ∧ req = request_of base_url (FastApi.credential args st) p
    ∧ (FastApi.post_call now
         {| FastApi.name := tool_name; FastApi.arguments := args |} st).1
      = answer_200 (model_of (outcome_of now p req))
    ∧ sent (network
              (FastApi.post_call now
                 {| FastApi.name := tool_name; FastApi.arguments := args |} st).2)
      = sent (network st) ++ [req].
Proof.
  intros Hc Hu Hp Hk.
  destruct (post_call_run now tool_name args st p Hc Hu Hp Hk)
    as (u & ref & st1 & Hb & Hg & ->).
  destruct (fastapi_get_session_grows st) as (ref' & st1' & Hg' & _ & Hsent & _).
  rewrite Hg in Hg'. injection Hg' as <- <-.
  exists u, (request_of u (FastApi.credential args st) p).
  cbn [fst snd with_sent network sent]. rewrite Hsent. auto.
Qed.

End Calls2.

Lemma missing_argument_sends_nothing_witness :
  (@FastApi.post_call Demo.runtime Demo.noon
     {| FastApi.name := "nocodb_get_records";
        FastApi.arguments := [("project_id", VStr "p1")] |}
     (Demo.fresh (Some "tok"))).1
  = answer_200 {| FastApi.success := false; FastApi.result_ := None;
                  FastApi.error := Some "'table_id'" |}
  ∧ sent (network
            (@FastApi.post_call Demo.runtime Demo.noon
               {| FastApi.name := "nocodb_get_records";
                  FastApi.arguments := [("project_id", VStr "p1")] |}
               (Demo.fresh (Some "tok"))).2)
    = [].
Proof.
  exact (@missing_argument_sends_nothing Demo.runtime Demo.noon "nocodb_get_records"
           [("project_id", VStr "p1")] (Demo.fresh (Some "tok")) "table_id"
           eq_refl eq_refl eq_refl).
Defined.

Lemma call_follows_table_witness :
  sent (network
          (@FastApi.post_call Demo.runtime Demo.noon
             {| FastApi.name := "nocodb_update_record";
                FastApi.arguments :=
                  [("project_id", VStr "p1"); ("table_id", VStr "t1");
                   ("record_id", VInt 7); ("record_data", VDict [("mood", VStr "calm")])] |}
             (Demo.fresh (Some "tok"))).2)
  = [mk_request PATCH "https://db.example/api/v1/db/data/noco/p1/t1/7"
       [("Content-Type", VStr "application/json"); ("xc-auth", VStr "tok")]
       None (Some (VDict [("mood", VStr "calm")]))].
Proof.
  destruct (@call_follows_table Demo.runtime Demo.noon "nocodb_update_record"
              [("project_id", VStr "p1"); ("table_id", VStr "t1");
               ("record_id", VInt 7); ("record_data", VDict [("mood", VStr "calm")])]
              (Demo.fresh (Some "tok")) _ eq_refl eq_refl eq_refl eq_refl)
    as (base_url & req & Hbase & Hreq & _ & Hsent).
  vm_compute in Hbase. injection Hbase as <-.
  vm_compute in Hreq. subst req.
  exact Hsent.
Defined.

Section Failures.
Context `{Runtime}.

Lemma base_url_of_ok_str (args : record) (st st' : FastApi.state) (u : string) :
  FastApi.base_url_of args st = (Ok u, st') → url_is_str args = true.
Proof.
  unfold FastApi.base_url_of, url_is_str.
  destruct (dict_get "url" args) as [[]|]; simpl; intros Hb; congruence.
Qed.

(** X6: What the caller of [/call] is told when the request of a tool does not
    succeed: a failure of the client library is reported with its own
    text, and an answer with a status of 400 or more fails the call
    without its body being decoded; for [nocodb_test_connection] the
    error is the [HTTPException] of the tool, for the nine others the
    one of [raise_for_status]. *)
Theorem failed_request_is_reported (now : Z) (tool_name : string) (args : record)
    (st : FastApi.state) (p : plan) (base_url : string) :
  truthy (FastApi.credential args st) = true →
  FastApi.base_url_of args st = (Ok base_url, st) →
  plan_of tool_name args = Some p →
  first_missing (subscripted tool_name) args = None →
  let req := request_of base_url (FastApi.credential args st) p in
  let answer :=
    (FastApi.post_call now
       {| FastApi.name := tool_name; FastApi.arguments := args |} st).1 in
  (∀ e, remote req = Failed e → answer = answer_200 (model_of (Raise e)))
  ∧ (∀ r, remote req = Answered r → (400 <= status r)%Z →
       answer
       = answer_200
           (model_of
              (Raise (match plan_finisher p with
                      | Only200 => HTTPException (status r) "Connection failed"
                      | _ => ClientResponseError (status r)
                      end)))).
Proof.
  intros Hc Hb Hp Hk req answer.
  destruct (post_call_run now tool_name args st p Hc (base_url_of_ok_str _ _ _ _ Hb)
              Hp Hk) as (u & ref & st1 & Hb' & _ & Hrun).
  rewrite Hb in Hb'. injection Hb' as <-.
  subst answer. rewrite Hrun. cbn [fst]. fold req. unfold outcome_of.
  split.
  - intros e ->. reflexivity.
  - intros r -> Hge. unfold finish, raise_for_status.
    assert ((400 <=? status r)%Z = true) as -> by (apply Z.leb_le; exact Hge).
    assert ((status r =? 200)%Z = false) as -> by (apply Z.eqb_neq; lia).
    destruct (plan_finisher p); reflexivity.
Qed.

(** X7: [nocodb_test_connection] and [nocodb_list_projects] send the same
    request and judge the answer differently: a status under 400 other
    than 200 fails the first and passes the second. *)
Theorem test_connection_wants_200 (now : Z) (args : record) (st : FastApi.state)
    (base_url : string) (r : response) (v : value) :
  truthy (FastApi.credential args st) = true →
  FastApi.base_url_of args st = (Ok base_url, st) →
  remote (mk_request GET (base_url ++ "/api/v1/db/meta/projects")
            (fastapi_headers (FastApi.credential args st)) None None) = Answered r →
  (status r < 400)%Z → status r ≠ 200%Z →
  response_json r = Some v →
  (FastApi.post_call now
     {| FastApi.name := "nocodb_list_projects"; FastApi.arguments := args |} st).1
  = answer_200 (model_of (Ok (FastApi.PJson v)))
  ∧ (FastApi.post_call now
       {| FastApi.name := "nocodb_test_connection"; FastApi.arguments := args |} st).1
    = answer_200 (model_of (Raise (HTTPException (status r) "Connection failed")))
  ∧ sent (network
            (FastApi.post_call now
               {| FastApi.name := "nocodb_list_projects"; FastApi.arguments := args |}
               st).2)
    = sent (network
              (FastApi.post_call now
                 {| FastApi.name := "nocodb_test_connection"; FastApi.arguments := args |}
                 st).2).
Proof.
  intros Hc Hb Hr Hlt Hne Hv.
  pose proof (base_url_of_ok_str _ _ _ _ Hb) as Hu.
  destruct (post_call_run now "nocodb_list_projects" args st _ Hc Hu eq_refl eq_refl)
    as (u1 & ref1 & st1 & Hb1 & Hg1 & ->).
  destruct (post_call_run now "nocodb_test_connection" args st _ Hc Hu eq_refl eq_refl)
    as (u2 & ref2 & st2 & Hb2 & Hg2 & ->).
  rewrite Hb in Hb1, Hb2. injection Hb1 as <-. injection Hb2 as <-.
  rewrite Hg1 in Hg2. injection Hg2 as <- <-.
  cbn [fst snd].
  unfold outcome_of, request_of; cbn [plan_method plan_path plan_params plan_json
                                        plan_finisher meta_projects].
  unfold meta_projects. rewrite Hr.
  unfold finish, raise_for_status, json. rewrite Hv.
  assert ((400 <=? status r)%Z = false) as -> by (apply Z.leb_gt; exact Hlt).
  assert ((status r =? 200)%Z = false) as -> by (apply Z.eqb_neq; exact Hne).
  repeat split; reflexivity.
Qed.

End Failures.

Lemma failed_request_is_reported_witness :
  (@FastApi.post_call Faulty.runtime Demo.noon
     {| FastApi.name := "nocodb_list_tables";
        FastApi.arguments :=
          [("url", VStr "https://down.example/"); ("project_id", VStr "p1")] |}
     (Demo.fresh (Some "tok"))).1
  = answer_200 {| FastApi.success := false; FastApi.result_ := None;
                  FastApi.error := Some "Cannot connect to host down.example:443" |}
  ∧ (@FastApi.post_call Faulty.runtime Demo.noon
       {| FastApi.name := "nocodb_get_records";
          FastApi.arguments := [("project_id", VStr "p1"); ("table_id", VStr "gone")] |}
       (Demo.fresh (Some "tok"))).1
    = answer_200 {| FastApi.success := false; FastApi.result_ := None;
                    FastApi.error := Some "404" |}.
Proof.
  split.
  - exact (proj1 (@failed_request_is_reported Faulty.runtime Demo.noon "nocodb_list_tables"
                    [("url", VStr "https://down.example/"); ("project_id", VStr "p1")]
                    (Demo.fresh (Some "tok")) _ "https://down.example"
                    eq_refl eq_refl eq_refl eq_refl) _ eq_refl).
  - exact (proj2 (@failed_request_is_reported Faulty.runtime Demo.noon "nocodb_get_records"
                    [("project_id", VStr "p1"); ("table_id", VStr "gone")]
                    (Demo.fresh (Some "tok")) _ "https://db.example"
                    eq_refl eq_refl eq_refl eq_refl)
             {| status := 404; body := "<html>" |} eq_refl ltac:(simpl; lia)).
Defined.

Lemma test_connection_wants_200_witness :
  (@FastApi.post_call Faulty.runtime Demo.noon
     {| FastApi.name := "nocodb_list_projects"; FastApi.arguments := [] |}
     (Demo.fresh (Some "tok"))).1
  = answer_200 {| FastApi.success := true;
                  FastApi.result_ := Some (FastApi.PJson (VDict []));
                  FastApi.error := None |}
  ∧ (@FastApi.post_call Faulty.runtime Demo.noon
       {| FastApi.name := "nocodb_test_connection"; FastApi.arguments := [] |}
       (Demo.fresh (Some "tok"))).1
    = answer_200 {| FastApi.success := false; FastApi.result_ := None;
                    FastApi.error := Some "203: Connection failed" |}.
Proof.
  destruct (@test_connection_wants_200 Faulty.runtime Demo.noon []
              (Demo.fresh (Some "tok")) "https://db.example"
              {| status := 203; body := "{}" |} (VDict [])
              eq_refl eq_refl eq_refl ltac:(simpl; lia) ltac:(simpl; lia) eq_refl)
    as (H1 & H2 & _).
  split; [exact H1 | exact H2].
Defined.

Section Catalog.
Context `{Runtime}.

Lemma first_missing_none (keys : list string) (args : record) :
  (∀ k, In k keys → is_Some (dict_get k args)) → first_missing keys args = None.
Proof.
  unfold first_missing. intros Hall.
  induction keys as [|k keys IH]; simpl; [reflexivity|].
  destruct (Hall k (or_introl eq_refl)) as (v & ->).
  apply IH. intros k' Hk'. apply Hall. right. exact Hk'.
Qed.

Lemma credential_of_argument (args : record) (st : FastApi.state) :
  is_Some (dict_get "api_token" args) →
  FastApi.credential args st = arg "api_token" args.
Proof.
  unfold FastApi.credential, arg. intros (v & ->). reflexivity.
Qed.

(** The catalog lists the tools of the dispatcher, in the order of its
    branches. *)
Lemma catalog_names : map fst catalog = FastApi.tool_names.
Proof. reflexivity. Qed.

(** Every key a branch of the dispatcher subscripts is required by the
    schema of its tool. *)
Lemma catalog_requires_subscripted (tool_name : string) (required : list string) :
  In (tool_name, required) catalog →
  (∀ k, In k (subscripted tool_name) → In k required)
  ∧ In "api_token" required
  ∧ ∀ args, is_Some (plan_of tool_name args).
Proof.
  intros Hin. vm_compute in Hin.
  repeat (destruct Hin as [Hin|Hin];
          [injection Hin as <- <-;
           (split; [vm_compute; tauto|]);
           (split; [vm_compute; tauto|]);
           intros args; eexists; reflexivity|]).
  destruct Hin.
Qed.

(** X8: A call that gives every argument the schema of its tool requires,
    with a token that is truthy and a [url] that is a string if there is
    one, passes every check of the endpoint and of the dispatcher (no
    missing credential, no unknown tool, no missing argument): exactly
    one request, the one of the tool with the token of the call, is
    handed to the HTTP client.  What the client and the remote service
    make of it is not part of the statement. *)
Theorem catalog_call_is_handed_over (now : Z) (tool_name : string) (required : list string)
    (args : record) (st : FastApi.state) :
  In (tool_name, required) catalog →
  (∀ k, In k required → is_Some (dict_get k args)) →
  truthy (arg "api_token" args) = true →
  url_is_str args = true →
  ∃ p base_url,
    plan_of tool_name args = Some p
    ∧ FastApi.base_url_of args st = (Ok base_url, st)
    ∧ sent (network
              (FastApi.post_call now
                 {| FastApi.name := tool_name; FastApi.arguments := args |} st).2)
      = sent (network st) ++ [request_of base_url (arg "api_token" args) p].
Proof.
  intros Hin Hall Htok Hu.
  destruct (catalog_requires_subscripted tool_name required Hin) as (Hsub & Hreq & Hplan).
  pose proof (credential_of_argument args st (Hall _ Hreq)) as Hcred.
  destruct (Hplan args) as (p & Hp).
  assert (first_missing (subscripted tool_name) args = None) as Hk.
  { apply first_missing_none. intros k Hk. apply Hall, Hsub, Hk. }
  destruct (post_call_run now tool_name args st p) as (u & ref & st1 & Hb & Hg & ->);
    try assumption.
  { rewrite Hcred. exact Htok. }
  destruct (fastapi_get_session_grows st) as (ref' & st1' & Hg' & _ & Hsent & _).
  rewrite Hg in Hg'. injection Hg' as <- <-.
  exists p, u. rewrite <- Hcred. cbn [snd with_sent network sent]. rewrite Hsent. auto.
Qed.

Lemma after_session_headers (now : Z) (tool_name : string) (args : record)
    (api_token : value) (st : FastApi.state) :
  sent (network (after_session now tool_name args api_token st).2) = sent (network st)
  ∨ ∃ req,
      sent (network (after_session now tool_name args api_token st).2)
      = sent (network st) ++ [req]
      ∧ req_headers req = fastapi_headers api_token.
Proof.
  unfold after_session.
  destruct (FastApi.base_url_of args st).1; [|left; reflexivity].
  destruct (plan_of tool_name args); [|left; reflexivity].
  destruct (first_missing _ _); [left; reflexivity|].
  right. eexists. split; reflexivity.
Qed.

(** X9: An [api_token] argument always wins over the process default: one
    that is falsy stops the call, even when a default is set, and leaves
    the state as it was; one that is truthy is the token of whatever
    request the call sends. *)
Theorem token_argument_wins (now : Z) (call : FastApi.ToolCall) (st : FastApi.state)
    (v : value) :
  dict_get "api_token" (FastApi.arguments call) = Some v →
  if truthy v
  then
    sent (network (FastApi.post_call now call st).2) = sent (network st)
    ∨ ∃ req,
        sent (network (FastApi.post_call now call st).2) = sent (network st) ++ [req]
        ∧ dict_get "xc-auth" (req_headers req) = Some v
  else
    FastApi.post_call now call st
    = (answer_200 (model_of (Raise (HTTPException 400 "API token required"))), st).
Proof.
  intros Hv.
  assert (FastApi.credential (FastApi.arguments call) st = v) as Hcred.
  { unfold FastApi.credential. rewrite Hv. reflexivity. }
  destruct (truthy v) eqn:Ht.
  - rewrite post_call_with_credential by (rewrite Hcred; exact Ht).
    destruct (dispatch_run now (FastApi.name call) (FastApi.arguments call)
                (FastApi.credential (FastApi.arguments call) st) st)
      as (ref & st1 & Hg & ->).
    destruct (fastapi_get_session_grows st) as (ref' & st1' & Hg' & _ & Hsent & _).
    rewrite Hg in Hg'. injection Hg' as <- <-.
    rewrite Hcred.
    destruct (after_session_headers now (FastApi.name call) (FastApi.arguments call) v st1)
      as [Hsame | (req & Hone & Hhead)].
    + left. destruct (after_session _ _ _ _ st1) as [r st2]. cbn [snd] in *.
      rewrite Hsame. exact Hsent.
    + right. exists req. destruct (after_session _ _ _ _ st1) as [r st2]. cbn [snd] in *.
      rewrite Hone, Hsent, Hhead. split; reflexivity.
  - apply post_call_without_credential. rewrite Hcred. exact Ht.
Qed.

End Catalog.

Lemma catalog_call_is_handed_over_witness :
  sent (network
          (@FastApi.post_call Demo.runtime Demo.noon
             {| FastApi.name := "nocodb_search_records";
                FastApi.arguments :=
                  [("project_id", VStr "p1"); ("table_id", VStr "t1");
                   ("filters", VDict []); ("api_token", VStr "other")] |}
             (Demo.fresh (Some "tok"))).2)
  = [mk_request GET "https://db.example/api/v1/db/data/noco/p1/t1"
       [("Content-Type", VStr "application/json"); ("xc-auth", VStr "other")]
       (Some [("where", VStr "{}")]) None].
Proof.
  destruct (@catalog_call_is_handed_over Demo.runtime Demo.noon "nocodb_search_records"
              ["project_id"; "table_id"; "filters"; "api_token"]
              [("project_id", VStr "p1"); ("table_id", VStr "t1");
               ("filters", VDict []); ("api_token", VStr "other")]
              (Demo.fresh (Some "tok")))
    as (p & base_url & Hp & Hb & Hsent).
  - vm_compute. tauto.
  - intros k Hk. vm_compute in Hk.
    repeat (destruct Hk as [<-|Hk]; [vm_compute; eauto|]). destruct Hk.
  - reflexivity.
  - reflexivity.
  - vm_compute in Hp. injection Hp as <-.
    vm_compute in Hb. injection Hb as <-.
    exact Hsent.
Defined.

Lemma token_argument_wins_witness :
  @FastApi.post_call Demo.runtime Demo.noon
    {| FastApi.name := "nocodb_list_projects";
       FastApi.arguments := [("api_token", VStr "")] |}
    (Demo.fresh (Some "tok"))
  = (answer_200 {| FastApi.success := false; FastApi.result_ := None;
                   FastApi.error := Some "400: API token required" |},
     Demo.fresh (Some "tok")).
Proof.
  exact (@token_argument_wins Demo.runtime Demo.noon
           {| FastApi.name := "nocodb_list_projects";
              FastApi.arguments := [("api_token", VStr "")] |}
           (Demo.fresh (Some "tok")) (VStr "") eq_refl).
Defined.

(** ** Sessions over the life of the plain HTTP surface *)

Section Life.
Context `{Runtime}.

Lemma session_closed_sessions (ref : nat) (n n' : net) :
  sessions n = sessions n' → session_closed ref n = session_closed ref n'.
Proof. unfold session_closed. intros ->. reflexivity. Qed.

Lemma live_session_sessions (held : option nat) (n n' : net) :
  sessions n = sessions n' → live_session held n = live_session held n'.
Proof.
  intros Hs. unfold live_session. destruct held as [ref|]; [|reflexivity].
  rewrite (session_closed_sessions ref n n' Hs). reflexivity.
Qed.

Lemma only_held_open_sessions (held : option nat) (n n' : net) :
  sessions n = sessions n' → only_held_open held n' → only_held_open held n.
Proof.
  intros Hs Hinv ref Hr. apply Hinv.
  rewrite <- (session_closed_sessions ref n n' Hs). exact Hr.
Qed.

Lemma get_session_only_held (st : FastApi.state) (ref : nat) (st1 : FastApi.state) :
  FastApi.get_session st = (Ok ref, st1) →
  only_held_open (FastApi.session (context st)) (network st) →
  only_held_open (FastApi.session (context st1)) (network st1).
Proof.
  intros Hg Hinv.
  destruct (fastapi_get_session_grows st)
    as (ref' & st1' & Hg' & Hopen & _ & _ & _ & Hheld & Hlive).
  rewrite Hg in Hg'. injection Hg' as <- <-.
  destruct (live_session _ _) as [ref0|] eqn:Hl.
  - destruct Hlive as [_ ->]. exact Hinv.
  - destruct Hlive as [-> Hss].
    intros r Hr. rewrite Hheld. f_equal.
    unfold session_closed in Hr. rewrite Hss in Hr.
    destruct (decide (r < length (sessions (network st)))%nat) as [Hlt|Hge].
    + rewrite lookup_app_l in Hr by exact Hlt.
      assert (session_closed r (network st) = false) as Hold by exact Hr.
      apply Hinv in Hold. unfold live_session in Hl. rewrite Hold in Hl.
      unfold session_closed in Hl. 
      destruct (sessions (network st) !! r) as [s|]; [|discriminate].
      rewrite Hr in Hl. discriminate.
    + destruct (decide (r = length (sessions (network st)))) as [->|Hne]; [reflexivity|].
      rewrite lookup_ge_None_2 in Hr; [discriminate|].
      rewrite length_app. simpl. lia.
Qed.

Lemma close_closes_all (st : FastApi.state) :
  only_held_open (FastApi.session (context st)) (network st) →
  ∀ ref, session_closed ref (network (FastApi.close st).2) = true.
Proof.
  intros Hinv ref. unfold FastApi.close.
  destruct (FastApi.session (context st)) as [held|] eqn:Hh.
  - destruct (session_closed held (network st)) eqn:Hc; simpl.
    + destruct (session_closed ref (network st)) eqn:Hr; [reflexivity|].
      pose proof (Hinv ref Hr) as E. injection E as ->. congruence.
    + destruct (decide (ref = held)) as [->|Hne]; [apply session_closed_after_close|].
      destruct (session_closed ref (close_session_obj held (network st))) eqn:Hr;
        [reflexivity|].
      unfold session_closed, close_session_obj in Hr; simpl in Hr.
      rewrite list_lookup_alter_ne in Hr by congruence.
      assert (session_closed ref (network st) = false) as Hold by exact Hr.
      pose proof (Hinv ref Hold) as E. congruence.
  - simpl. destruct (session_closed ref (network st)) eqn:Hr; [reflexivity|].
    apply Hinv in Hr. discriminate.
Qed.

Lemma close_state (st : FastApi.state) :
  context (FastApi.close st).2 = context st
  ∧ length (sessions (network (FastApi.close st).2)) = length (sessions (network st))
  ∧ sent (network (FastApi.close st).2) = sent (network st).
Proof.
  unfold FastApi.close.
  destruct (FastApi.session (context st)) as [held|]; simpl; [|auto].
  destruct (session_closed held (network st)); simpl; [auto|].
  rewrite length_alter. auto.
Qed.

Lemma run_snoc (events : list event) (e : event) (st : FastApi.state) :
  run (events ++ [e]) st = handle (run events st) e.
Proof. unfold run. rewrite fold_left_app. reflexivity. Qed.

(** The invariant of the life of the application. *)
Lemma run_invariant (events : list event) (env_url env_token : option string) :
  let st := run events (boot env_url env_token) in
  only_held_open (FastApi.session (context st)) (network st)
  ∧ (length (sessions (network st))
     ≤ shutdowns events
       + match live_session (FastApi.session (context st)) (network st) with
         | Some _ => 1
         | None => 0
         end)%nat
  ∧ (length (sessions (network st)) ≤ calls events)%nat
  ∧ (length (sent (network st)) ≤ calls events)%nat
  ∧ FastApi.nocodb_url (context st) = default "https://nocodb.v1su4.com" env_url
  ∧ FastApi.api_token (context st) = env_token.
Proof.
  cbv zeta.
  induction events as [|e events IH] using rev_ind.
  - unfold run, boot, only_held_open; simpl. repeat split; try lia.
    intros ref Hr. unfold session_closed in Hr. simpl in Hr. discriminate.
  - rewrite run_snoc. unfold calls, shutdowns in *. rewrite !List.filter_app, !length_app.
    set (st := run events (boot env_url env_token)) in *.
    destruct IH as (Hinv & Hshut & Hcalls & Hsent & Hurl & Htok).
    destruct e as [now call|]; cbn [handle List.filter length].
    + destruct (post_call_step now call st) as (st1 & Hst1 & Hctx & Hss & Hs1 & Hgrow).
      rewrite Hctx, (live_session_sessions _ _ _ Hss), Hss.
      assert (only_held_open (FastApi.session (context st1)) (network st1) →
              only_held_open (FastApi.session (context st1))
                (network (FastApi.post_call now call st).2)) as Hback
        by apply only_held_open_sessions, Hss.
      assert (length (sent (network (FastApi.post_call now call st).2))
              ≤ S (length (sent (network st))))%nat as Hlen.
      { destruct Hgrow as [-> | (x & ->)]; [lia|]. rewrite length_app. simpl. lia. }
      destruct Hst1 as [-> | (ref & Hg)].
      * repeat split; auto; lia.
      * pose proof (get_session_only_held st ref st1 Hg Hinv) as Hinv1.
        destruct (fastapi_get_session_grows st)
          as (ref' & st1' & Hg' & Hopen & _ & Hurl1 & Htok1 & Hheld & Hlive).
        rewrite Hg in Hg'. injection Hg' as <- <-.
        assert (live_session (FastApi.session (context st1)) (network st1) = Some ref)
          as Hl1.
        { unfold live_session. rewrite Hheld, Hopen. reflexivity. }
        rewrite Hl1, Hurl1, Htok1.
        destruct (live_session (FastApi.session (context st)) (network st)) as [ref0|].
        -- destruct Hlive as [_ ->]. repeat split; auto; lia.
        -- destruct Hlive as [_ Hnew]. rewrite Hnew, length_app. simpl.
           repeat split; auto; lia.
    + unfold FastApi.shutdown_event.
      pose proof (close_closes_all st Hinv) as Hall.
      destruct (close_state st) as (Hctx & Hlen & Hsnt).
      rewrite Hctx, Hlen, Hsnt.
      assert (live_session (FastApi.session (context st)) (network (FastApi.close st).2)
              = None) as ->.
      { unfold live_session. destruct (FastApi.session (context st)); [|reflexivity].
        rewrite Hall. reflexivity. }
      repeat split; try assumption; try lia.
      * intros ref Hr. rewrite Hall in Hr. discriminate.
      * destruct (live_session _ _); simpl; lia.
Qed.

(** X10: From the start of the process on, whatever calls and shutdowns
    arrive: no session is open but the one the state holds; no more
    sessions are made than calls, and at most one more than shutdowns (so
    calls share one session until a shutdown); no more requests are sent
    than calls are made; and a shutdown leaves every session closed. *)
Theorem sessions_never_leak (events : list event) (env_url env_token : option string) :
  let st := run events (boot env_url env_token) in
  only_held_open (FastApi.session (context st)) (network st)
  ∧ (length (sessions (network st)) ≤ S (shutdowns events))%nat
  ∧ (length (sessions (network st)) ≤ calls events)%nat
  ∧ (length (sent (network st)) ≤ calls events)%nat
  ∧ ∀ ref, session_closed ref (network (handle st Shutdown)) = true.
Proof.
  cbv zeta.
  destruct (run_invariant events env_url env_token)
    as (Hinv & Hshut & Hcalls & Hsent & _).
  repeat split; try assumption.
  - destruct (live_session _ _); lia.
  - intros ref. apply close_closes_all. exact Hinv.
Qed.

End Life.

(** ** The base URL *)

Lemma rstrip_slash_slash (u : string) : rstrip_slash (u ++ "/") = rstrip_slash u.
Proof.
  induction u as [|c u IH]; [reflexivity|].
  simpl. rewrite IH. reflexivity.
Qed.

Section Url.
Context `{Runtime}.

Lemma get_session_with_url (u : string) (st : FastApi.state) (ref : nat)
    (st1 : FastApi.state) :
  FastApi.get_session st = (Ok ref, st1) →
  FastApi.get_session (with_url u st) = (Ok ref, with_url u st1).
Proof.
  destruct st as [[url tok held] [ss snt]].
  unfold FastApi.get_session, with_url; simpl.
  destruct held as [r|]; simpl.
  - unfold session_closed; simpl.
    destruct (ss !! r) as [s|]; [destruct (closed s)|];
      intros Hg; injection Hg as <- <-; reflexivity.
  - intros Hg; injection Hg as <- <-; reflexivity.
Qed.

Lemma after_session_with_url (now : Z) (tool_name : string) (args : record)
    (api_token : value) (u : string) (st : FastApi.state) :
  rstrip_slash u = rstrip_slash (FastApi.nocodb_url (context st)) →
  (after_session now tool_name args api_token (with_url u st)).1
  = (after_session now tool_name args api_token st).1
  ∧ sent (network (after_session now tool_name args api_token (with_url u st)).2)
    = sent (network (after_session now tool_name args api_token st).2).
Proof.
  intros Hu. unfold after_session, FastApi.base_url_of. cbn [fst].
  assert (match default (VStr (FastApi.nocodb_url (context (with_url u st))))
                  (dict_get "url" args) with
          | VStr u0 => Ok (rstrip_slash u0)
          | _ => Raise AttributeError
          end
          = match default (VStr (FastApi.nocodb_url (context st)))
                    (dict_get "url" args) with
            | VStr u0 => Ok (rstrip_slash u0)
            | _ => Raise AttributeError
            end) as ->.
  { destruct (dict_get "url" args); simpl; [reflexivity|]. rewrite Hu. reflexivity. }
  destruct (match default _ _ with VStr _ => _ | _ => _ end) as [base|e];
    [|split; reflexivity].
  destruct (plan_of tool_name args); [|split; reflexivity].
  destruct (first_missing _ _); split; reflexivity.
Qed.

(** X11: Trailing slashes of the configured URL change nothing: with one more
    slash at its end every call gets the same answer and sends the same
    request. *)
Theorem trailing_slash_is_ignored (now : Z) (call : FastApi.ToolCall)
    (st : FastApi.state) :
  let st_slash := with_url (FastApi.nocodb_url (context st) ++ "/") st in
  (FastApi.post_call now call st_slash).1 = (FastApi.post_call now call st).1
  ∧ sent (network (FastApi.post_call now call st_slash).2)
    = sent (network (FastApi.post_call now call st).2).
Proof.
  cbv zeta.
  set (u := FastApi.nocodb_url (context st) +:+ "/").
  assert (FastApi.credential (FastApi.arguments call) (with_url u st)
          = FastApi.credential (FastApi.arguments call) st) as Hcred by reflexivity.
  destruct (truthy (FastApi.credential (FastApi.arguments call) st)) eqn:Hc.
  - rewrite (post_call_with_credential now call st Hc).
    rewrite (post_call_with_credential now call (with_url u st))
      by (rewrite Hcred; exact Hc).
    rewrite Hcred.
    destruct (dispatch_run now (FastApi.name call) (FastApi.arguments call)
                (FastApi.credential (FastApi.arguments call) st) st)
      as (ref & st1 & Hg & ->).
    destruct (dispatch_run now (FastApi.name call) (FastApi.arguments call)
                (FastApi.credential (FastApi.arguments call) st) (with_url u st))
      as (ref' & st1' & Hg' & ->).
    rewrite (get_session_with_url u st ref st1 Hg) in Hg'. injection Hg' as <- <-.
    destruct (fastapi_get_session_grows st) as (r0 & s0 & Hg0 & _ & _ & Hurl & _).
    rewrite Hg in Hg0. injection Hg0 as <- <-.
    destruct (after_session_with_url now (FastApi.name call) (FastApi.arguments call)
                (FastApi.credential (FastApi.arguments call) st) u st1) as (Hr & Hs).
    { rewrite Hurl. apply rstrip_slash_slash. }
    destruct (after_session _ _ _ _ (with_url u st1)) as [r1 s1].
    destruct (after_session _ _ _ _ st1) as [r2 s2].
    cbn [fst snd] in *. subst r1. auto.
  - rewrite (post_call_without_credential now call st Hc).
    rewrite (post_call_without_credential now call (with_url u st))
      by (rewrite Hcred; exact Hc).
    split; reflexivity.
Qed.

(** X12: An answer that decodes to an object without a [list], or with an
    empty one, gives the report of an empty table: all counts and
    percentages are zero. *)
Theorem analytics_of_listless_body_is_empty (now : Z) (args : record)
    (st : FastApi.state) (base_url : string) (r : response) (d : record) :
  truthy (FastApi.credential args st) = true →
  FastApi.base_url_of args st = (Ok base_url, st) →
  first_missing ["project_id"; "table_id"] args = None →
  remote (mk_request GET (base_url ++ analytics_path args)
            (fastapi_headers (FastApi.credential args st)) None None) = Answered r →
  (status r < 400)%Z →
  response_json r = Some (VDict d) →
  default (VList []) (dict_get "list" d) = VList [] →
  (FastApi.post_call now
     {| FastApi.name := "nocodb_get_analytics"; FastApi.arguments := args |} st).1
  = answer_200
      {| FastApi.success := true;
         FastApi.result_ :=
           Some (FastApi.PAnalytics
                   {| total_reactions := 0; with_images := 0; cinematic_count := 0;
                      anime_count := 0; with_sref_codes := 0; shot_types := ∅;
                      recent_24h := 0 |}
                   {| message := "📊 " ++ pretty 0%nat ++ " total reactions, "
                                  ++ pretty 0%nat ++ " with images, "
                                  ++ pretty 0%nat ++ " in last 24h";
                      cinematic_percentage := VInt 0;
                      anime_percentage := VInt 0;
                      sref_coverage := VInt 0 |});
         FastApi.error := None |}.
Proof.
  intros Hc Hb Hk Hr Hlt Hv Hl.
  destruct (post_call_run now "nocodb_get_analytics" args st _ Hc
              (ltac:(unfold FastApi.base_url_of, url_is_str in *;
                     destruct (dict_get "url" args) as [[]|]; simpl in *; congruence))
              eq_refl Hk)
    as (u & ref & st1 & Hb' & _ & ->).
  rewrite Hb in Hb'. injection Hb' as <-.
  cbn [fst]. unfold outcome_of, request_of.
  cbn [plan_method plan_path plan_params plan_json plan_finisher].
  rewrite Hr. unfold finish, raise_for_status, json. rewrite Hv.
  assert ((400 <=? status r)%Z = false) as -> by (apply Z.leb_gt; exact Hlt).
  cbn [mbind result_bind]. unfold records_of. rewrite Hl. reflexivity.
Qed.

End Url.

Lemma analytics_of_listless_body_is_empty_witness :
  (@FastApi.post_call Demo.runtime Demo.noon
     {| FastApi.name := "nocodb_get_analytics";
        FastApi.arguments := [("project_id", VStr "p1"); ("table_id", VStr "t9")] |}
     (Demo.fresh (Some "tok"))).1
  = answer_200
      {| FastApi.success := true;
         FastApi.result_ :=
           Some (FastApi.PAnalytics
                   {| total_reactions := 0; with_images := 0; cinematic_count := 0;
                      anime_count := 0; with_sref_codes := 0; shot_types := ∅;
                      recent_24h := 0 |}
                   {| message := "📊 0 total reactions, 0 with images, 0 in last 24h";
                      cinematic_percentage := VInt 0;
                      anime_percentage := VInt 0;
                      sref_coverage := VInt 0 |});
         FastApi.error := None |}.
Proof.
  exact (@analytics_of_listless_body_is_empty Demo.runtime Demo.noon
           [("project_id", VStr "p1"); ("table_id", VStr "t9")]
           (Demo.fresh (Some "tok")) "https://db.example"
           {| status := 200; body := "{}" |} []
           eq_refl eq_refl eq_refl eq_refl ltac:(simpl; lia) eq_refl eq_refl).
Defined.

(** ** The tools of the MCP server *)

Lemma mcp_get_session_grows (st : McpServer.state) :
  ∃ ref st',
    McpServer.get_session st = (Ok ref, st')
    ∧ session_closed ref (network st') = false
    ∧ sent (network st') = sent (network st)
    ∧ McpServer.nocodb_url (context st') = McpServer.nocodb_url (context st)
    ∧ McpServer.api_token (context st') = McpServer.api_token (context st)
    ∧ McpServer.startup_time (context st') = McpServer.startup_time (context st)
    ∧ McpServer.session (context st') = Some ref
    ∧ match live_session (McpServer.session (context st)) (network st) with
      | Some ref0 => ref = ref0 ∧ st' = st
      | None =>
          ref = length (sessions (network st))
          ∧ sessions (network st')
            = sessions (network st) ++ [ {| closed := false; timeout_total := 30 |} ]
      end.
Proof.
  destruct st as [[url tok held t0] [ss snt]].
  unfold McpServer.get_session, live_session; simpl.
  destruct held as [ref|]; simpl.
  - destruct (session_closed ref {| sessions := ss; sent := snt |}) eqn:Hc.
    + eexists _, _. split; [reflexivity|]. simpl. rewrite session_closed_new. auto 10.
    + eexists _, _. split; [reflexivity|]. simpl. auto 10.
  - eexists _, _. split; [reflexivity|]. simpl. rewrite session_closed_new. auto 10.
Qed.

Section McpTools.
Context `{Runtime}.

Ltac tool_run Hg Hopen :=
  unfold McpServer.lifespan_context, try_catch, mbind, M_bind, mret, M_ret, lift;
  cbn beta iota zeta delta [negb];
  rewrite Hg; cbn beta iota zeta;
  rewrite (send_open_with_sent _ _ _ Hopen);
  repeat match goal with
         | |- context [match remote ?r with _ => _ end] => destruct (remote r); cbn
         | |- context [raise_for_status ?r] => destruct (raise_for_status r); cbn
         | |- context [json ?r] => destruct (json r); cbn
         | |- context [records_of ?v] => destruct (records_of v); cbn
         | |- context [McpServer.analyse ?n ?r] => destruct (McpServer.analyse n r); cbn
         | |- context [negb (?a =? ?b)%Z] => destruct (a =? b)%Z; cbn
         | |- context [McpServer.value_get ?k ?d ?v] =>
             destruct (McpServer.value_get k d v); cbn
         | |- context [McpServer.py_len ?v] => destruct (McpServer.py_len v); cbn
         end.

(** Every tool, step by step: a call that does not reach the remote
    service changes nothing; any other acquires the session and hands
    the request of the tool to it; and whatever happens then, the tool
    returns. *)
Lemma call_tool_step (now stamp : Z) (c : mcp_call) (st : McpServer.state) :
  match mcp_request (context st) c with
  | None =>
      ∃ out, call_tool now stamp c st = (Ok out, st) ∧ well_flagged out
  | Some req =>
      ∃ ref st1 out,
        McpServer.get_session st = (Ok ref, st1)
        ∧ call_tool now stamp c st = (Ok out, with_sent req st1)
        ∧ well_flagged out
  end.
Proof.
  destruct (mcp_get_session_grows st) as (ref & st1 & Hg & Hopen & _ & Hurl & Htok & _).
  unfold well_flagged.
  destruct c as [[|] clock| | |p|p t limit offset|p t d|p t r d|p t r|p t f|p|p t];
    cbn [mcp_request call_tool].
  2: { eexists. split; [reflexivity|]. left. split; reflexivity. }
  all: exists ref, st1.
  all: unfold McpServer.health_check, McpServer.nocodb_test_connection,
         McpServer.nocodb_list_projects, McpServer.nocodb_list_tables,
         McpServer.nocodb_get_records, McpServer.nocodb_create_record,
         McpServer.nocodb_update_record, McpServer.nocodb_delete_record,
         McpServer.nocodb_search_records,
         McpServer.nocodb_create_discord_reactions_table,
         McpServer.nocodb_get_analytics, mcp_headers.
  all: tool_run Hg Hopen.
  all: eexists; (split; [reflexivity|]); (split; [reflexivity|]).
  all: try (left; split; reflexivity).
  all: try (right; split; [reflexivity|]; eexists; reflexivity).
Qed.

(** X13: No tool of the MCP server raises: whatever the arguments, the state
    and the remote service, it returns an object with a [success] flag,
    and with an [error] text exactly when the flag is false. *)
Theorem tools_always_return (now stamp : Z) (c : mcp_call) (st : McpServer.state) :
  ∃ out st', call_tool now stamp c st = (Ok out, st') ∧ well_flagged out.
Proof.
  pose proof (call_tool_step now stamp c st) as Hstep.
  destruct (mcp_request (context st) c) as [req|].
  - destruct Hstep as (ref & st1 & out & _ & Hrun & Hflag). eauto.
  - destruct Hstep as (out & Hrun & Hflag). eauto.
Qed.

(** X14: A tool sends exactly the request of its row of the table, with
    the token of the context under [xc-token], on the session the context
    holds when that one is open; only when the context holds no open
    session is one allocated (with a total timeout of 30) and stored.  No
    existing session is altered, and the URL, the token and the startup
    time are left alone.  A health check before the lifespan context
    exists touches nothing. *)
Theorem tool_sends_its_request (now stamp : Z) (c : mcp_call) (st : McpServer.state) :
  let st' := (call_tool now stamp c st).2 in
  match mcp_request (context st) c with
  | None => st' = st
  | Some req =>
      sent (network st') = sent (network st) ++ [req]
      ∧ dict_get "xc-token" (req_headers req)
        = Some (VStr (McpServer.api_token (context st)))
      ∧ match live_session (McpServer.session (context st)) (network st) with
        | Some ref =>
            sessions (network st') = sessions (network st)
            ∧ McpServer.session (context st') = Some ref
        | None =>
            sessions (network st')
            = sessions (network st) ++ [ {| closed := false; timeout_total := 30 |} ]
            ∧ McpServer.session (context st') = Some (length (sessions (network st)))
        end
      ∧ McpServer.nocodb_url (context st') = McpServer.nocodb_url (context st)
      ∧ McpServer.api_token (context st') = McpServer.api_token (context st)
      ∧ McpServer.startup_time (context st') = McpServer.startup_time (context st)
  end.
Proof.
  cbv zeta.
  pose proof (call_tool_step now stamp c st) as Hstep.
  destruct (mcp_request (context st) c) as [req|] eqn:Hreq.
  - destruct Hstep as (ref & st1 & out & Hg & -> & _).
    destruct (mcp_get_session_grows st)
      as (ref' & st1' & Hg' & Hopen & Hsent & Hurl & Htok & Ht0 & Hheld & Hlive).
    rewrite Hg in Hg'. injection Hg' as <- <-.
    cbn [snd with_sent network context sent sessions].
    rewrite Hsent. split; [reflexivity|].
    split.
    { destruct c as [[|] clock| | |p|p t limit offset|p t d|p t r d|p t r|p t f|p|p t];
        cbn in Hreq; try discriminate; injection Hreq as <-; reflexivity. }
    split; [|auto].
    destruct (live_session (McpServer.session (context st)) (network st)) as [ref0|].
    + destruct Hlive as [-> ->]. split; [reflexivity|exact Hheld].
    + destruct Hlive as [-> Hss]. split; [exact Hss|exact Hheld].
  - destruct Hstep as (out & -> & _). reflexivity.
Qed.

(** X15: The health check never reports a failure of its own.  Without a
    lifespan context it answers that the server is starting and touches
    nothing; with one, the state of the remote service (another status
    than 200, or no answer at all) is only a field of a report that says
    [success] and [healthy]. *)
Theorem health_check_never_fails (stamp : Z) (clock : Qc) (st : McpServer.state) :
  McpServer.health_check false stamp clock st
  = (Ok (McpServer.Json
           (VDict [("success", VBool true);
                   ("status", VStr "starting");
                   ("message", VStr "NocoDB MCP server is initializing...");
                   ("timestamp", VStr (isoformat (naive stamp)))])),
     st)
  ∧ ∃ st',
    McpServer.health_check true stamp clock st
    = (Ok (McpServer.Json
             (VDict
                [("success", VBool true);
                 ("status", VStr "healthy");
                 ("nocodb_status",
                  VStr match remote (mk_request GET
                                       (McpServer.nocodb_url (context st)
                                          +:+ "/api/v1/db/meta/projects")
                                       [("xc-token",
                                         VStr (McpServer.api_token (context st)))]
                                       None None) with
                       | Answered r =>
                           if (status r =? 200)%Z then "healthy" else "unhealthy"
                       | Failed e => "error: " +:+ exn_str e
                       end);
                 ("uptime_seconds",
                  VFloat (Q2Qc (Float64.rn
                                  (clock - McpServer.startup_time (context st))%Qc)));
                 ("nocodb_url", VStr (McpServer.nocodb_url (context st)));
                 ("timestamp", VStr (isoformat (naive stamp)))])),
       st').
Proof.
  split; [reflexivity|].
  destruct (mcp_get_session_grows st) as (ref & st1 & Hg & Hopen & _).
  unfold McpServer.health_check, McpServer.lifespan_context, try_catch, mbind, M_bind,
    mret, M_ret.
  cbn beta iota zeta delta [negb].
  rewrite Hg. cbn beta iota zeta.
  rewrite (send_open_with_sent _ _ _ Hopen).
  destruct (remote _); eexists; reflexivity.
Qed.

End McpTools.

Section McpFailures.
Context `{Runtime}.

(** X16: What a tool of the MCP server returns when its request does not
    succeed: the failure object, whose text is the phrase of the tool
    followed by the text of the exception.  For a request the client
    could not carry out that is the client's exception; for an answer
    with a status of 400 or more it is the exception of
    [raise_for_status].  The connection test alone judges the answer
    itself: any status but 200 is reported with the status and the body
    of the answer. *)
Theorem tool_reports_failed_request (now stamp : Z) (c : mcp_call) (st : McpServer.state)
    (req : request) (what : string) :
  mcp_request (context st) c = Some req →
  failure_prefix c = Some what →
  (∀ e, remote req = Failed e →
     (call_tool now stamp c st).1 = Ok (McpServer.Json (McpServer.failure what e)))
  ∧ (∀ r, remote req = Answered r →
       match c with
       | TestConnection =>
           status r ≠ 200%Z →
           (call_tool now stamp c st).1
           = Ok (McpServer.Json
                   (VDict [("success", VBool false);
                           ("error", VStr ("Connection failed with status "
                                             +:+ pretty (status r) +:+ ": "
                                             +:+ body r))]))
       | _ =>
           (400 <= status r)%Z →
           (call_tool now stamp c st).1
           = Ok (McpServer.Json
                   (McpServer.failure what (ClientResponseError (status r))))
       end).
Proof.
  intros Hreq Hwhat.
  destruct (mcp_get_session_grows st) as (ref & st1 & Hg & Hopen & _).
  destruct c as [started clock| | |p|p t limit offset|p t d|p t r d|p t r|p t f|p|p t];
    cbn in Hreq, Hwhat; try discriminate;
    injection Hreq as <-; injection Hwhat as <-; cbn [call_tool].
  all: unfold McpServer.nocodb_test_connection,
         McpServer.nocodb_list_projects, McpServer.nocodb_list_tables,
         McpServer.nocodb_get_records, McpServer.nocodb_create_record,
         McpServer.nocodb_update_record, McpServer.nocodb_delete_record,
         McpServer.nocodb_search_records,
         McpServer.nocodb_create_discord_reactions_table,
         McpServer.nocodb_get_analytics, mcp_headers.
  all: unfold McpServer.lifespan_context, try_catch, mbind, M_bind, mret, M_ret, lift;
    cbn beta iota zeta;
    rewrite Hg; cbn beta iota zeta;
    rewrite (send_open_with_sent _ _ _ Hopen).
  all: split; [intros e -> | intros r0 -> Hge]; cbn; try reflexivity.
  all: unfold raise_for_status.
  all: try (assert ((400 <=? status r0)%Z = true) as -> by (apply Z.leb_le; exact Hge));
    try (assert ((status r0 =? 200)%Z = false) as -> by (apply Z.eqb_neq; exact Hge));
    reflexivity.
Qed.

End McpFailures.

Lemma tool_reports_failed_request_witness :
  (@McpServer.nocodb_test_connection Faulty.runtime Demo.noon Demo.started).1
  = Ok (McpServer.Json
          (VDict [("success", VBool false);
                  ("error", VStr "Connection failed with status 203: {}")])).
Proof.
  exact (proj2 (@tool_reports_failed_request Faulty.runtime Demo.noon Demo.noon
                  TestConnection Demo.started _ _ eq_refl eq_refl)
           {| status := 203; body := "{}" |} eq_refl ltac:(discriminate)).
Defined.

(** ** The two servers side by side *)

Section Both.
Context `{Runtime}.

(** The rows of the two tables for the same call. *)
Lemma same_call_same_request (c : mcp_call) (tool_name : string) (args : record) :
  same_call c = Some (tool_name, args) →
  dict_get "api_token" args = None
  ∧ dict_get "url" args = None
  ∧ first_missing (subscripted tool_name) args = None
  ∧ ∃ p,
      plan_of tool_name args = Some p
      ∧ ∀ (ctx : McpServer.NocoDBContext) (token : value),
          ∃ req,
            mcp_request ctx c = Some req
            ∧ same_but_headers (request_of (McpServer.nocodb_url ctx) token p) req
            ∧ dict_get "xc-token" (req_headers req)
              = Some (VStr (McpServer.api_token ctx))
            ∧ dict_get "xc-auth" (req_headers req) = None.
Proof.
  intros Hsame.
  destruct c as [started clock| | |p|p t [limit|] [offset|]|p t d|p t r d|p t r|p t f|p|p t];
    cbn in Hsame; try discriminate; injection Hsame as <- <-.
  all: split; [reflexivity|]; split; [reflexivity|]; split; [reflexivity|].
  all: eexists; split; [reflexivity|]; intros ctx token.
  all: eexists; split; [reflexivity|].
  all: unfold same_but_headers; repeat split; reflexivity.
Qed.

(** X17: For the same call both servers send the same method, URL, query and
    body; they differ in the header that carries the token: [xc-auth] on
    the plain HTTP surface, [xc-token] on the MCP server. *)
Theorem servers_send_same_request (now stamp : Z) (c : mcp_call) (tool_name : string)
    (args : record) (st_http : FastApi.state) (st_mcp : McpServer.state) :
  same_call c = Some (tool_name, args) →
  FastApi.api_token (context st_http) = Some (McpServer.api_token (context st_mcp)) →
  McpServer.api_token (context st_mcp) ≠ "" →
  rstrip_slash (FastApi.nocodb_url (context st_http))
  = McpServer.nocodb_url (context st_mcp) →
  ∃ req_http req_mcp,
    sent (network
            (FastApi.post_call now
               {| FastApi.name := tool_name; FastApi.arguments := args |} st_http).2)
    = sent (network st_http) ++ [req_http]
    ∧ sent (network (call_tool now stamp c st_mcp).2) = sent (network st_mcp) ++ [req_mcp]
    ∧ same_but_headers req_http req_mcp
    ∧ dict_get "xc-auth" (req_headers req_http)
      = Some (VStr (McpServer.api_token (context st_mcp)))
    ∧ dict_get "xc-token" (req_headers req_http) = None
    ∧ dict_get "xc-token" (req_headers req_mcp)
      = Some (VStr (McpServer.api_token (context st_mcp)))
    ∧ dict_get "xc-auth" (req_headers req_mcp) = None.
Proof.
  intros Hsame Htok Hne Hurl.
  destruct (same_call_same_request c tool_name args Hsame)
    as (Hnotok & Hnourl & Hk & p & Hp & Hreq).
  assert (FastApi.credential args st_http = VStr (McpServer.api_token (context st_mcp)))
    as Hcred.
  { unfold FastApi.credential. rewrite Hnotok, Htok. reflexivity. }
  assert (truthy (FastApi.credential args st_http) = true) as Hc.
  { rewrite Hcred. simpl. apply negb_true_iff, String.eqb_neq. exact Hne. }
  assert (url_is_str args = true) as Hu.
  { unfold url_is_str. rewrite Hnourl. reflexivity. }
  destruct (post_call_run now tool_name args st_http p Hc Hu Hp Hk)
    as (u & ref & st1 & Hb & Hg & ->).
  unfold FastApi.base_url_of in Hb. rewrite Hnourl in Hb. simpl in Hb.
  injection Hb as <-. rewrite Hurl, Hcred.
  destruct (fastapi_get_session_grows st_http) as (ref' & st1' & Hg' & _ & Hsent & _).
  rewrite Hg in Hg'. injection Hg' as <- <-.
  destruct (Hreq (context st_mcp) (VStr (McpServer.api_token (context st_mcp))))
    as (req & Hmcp & Hsame_req & Hxt & Hxa).
  pose proof (call_tool_step now stamp c st_mcp) as Hstep. rewrite Hmcp in Hstep.
  destruct Hstep as (ref2 & st2 & out & Hg2 & -> & _).
  destruct (mcp_get_session_grows st_mcp) as (r0 & s0 & Hg0 & _ & Hsent2 & _).
  rewrite Hg2 in Hg0. injection Hg0 as <- <-.
  eexists _, req.
  cbn [snd with_sent network sent]. rewrite Hsent, Hsent2.
  repeat split; try reflexivity; try assumption; apply Hsame_req.
Qed.

End Both.

Lemma servers_send_same_request_witness :
  ∃ req_http req_mcp,
    sent (network
            (@FastApi.post_call Demo.runtime Demo.noon
               {| FastApi.name := "nocodb_get_records";
                  FastApi.arguments :=
                    [("project_id", VStr "p1"); ("table_id", VStr "t1");
                     ("limit", VInt 25)] |}
               (Demo.fresh (Some "tok"))).2)
    = [req_http]
    ∧ sent (network
              (@McpServer.nocodb_get_records Demo.runtime Demo.noon "p1" "t1" (Some 25%Z)
                 None Demo.started).2)
      = [req_mcp]
    ∧ same_but_headers req_http req_mcp
    ∧ dict_get "xc-auth" (req_headers req_http) = Some (VStr "tok")
    ∧ dict_get "xc-token" (req_headers req_mcp) = Some (VStr "tok").
Proof.
  destruct (@servers_send_same_request Demo.runtime Demo.noon Demo.noon
              (GetRecords "p1" "t1" (Some 25%Z) None) _ _
              (Demo.fresh (Some "tok")) Demo.started eq_refl eq_refl
              ltac:(discriminate) eq_refl)
    as (req_http & req_mcp & H1 & H2 & H3 & H4 & _ & H5 & _).
  exists req_http, req_mcp. auto.
Defined.

(** ** Sessions over the life of the MCP server *)

Section McpLife.
Context `{Runtime}.

Lemma mcp_get_session_only_held (st : McpServer.state) (ref : nat)
    (st1 : McpServer.state) :
  McpServer.get_session st = (Ok ref, st1) →
  only_held_open (McpServer.session (context st)) (network st) →
  only_held_open (McpServer.session (context st1)) (network st1).
Proof.
  intros Hg Hinv.
  destruct (mcp_get_session_grows st)
    as (ref' & st1' & Hg' & Hopen & _ & _ & _ & _ & Hheld & Hlive).
  rewrite Hg in Hg'. injection Hg' as <- <-.
  destruct (live_session _ _) as [ref0|] eqn:Hl.
  - destruct Hlive as [_ ->]. exact Hinv.
  - destruct Hlive as [-> Hss].
    intros r Hr. rewrite Hheld. f_equal.
    unfold session_closed in Hr. rewrite Hss in Hr.
    destruct (decide (r < length (sessions (network st)))%nat) as [Hlt|Hge].
    + rewrite lookup_app_l in Hr by exact Hlt.
      assert (session_closed r (network st) = false) as Hold by exact Hr.
      pose proof (Hinv r Hold) as E. unfold live_session in Hl. rewrite E in Hl.
      unfold session_closed in Hl.
      destruct (sessions (network st) !! r) as [s|]; [|discriminate].
      rewrite Hr in Hl. discriminate.
    + destruct (decide (r = length (sessions (network st)))) as [->|Hne]; [reflexivity|].
      rewrite lookup_ge_None_2 in Hr; [discriminate|].
      rewrite length_app. simpl. lia.
Qed.

Lemma close_session_closes_all (st : McpServer.state) :
  only_held_open (McpServer.session (context st)) (network st) →
  ∀ ref, session_closed ref (network (McpServer.close_session st).2) = true.
Proof.
  intros Hinv ref. unfold McpServer.close_session.
  destruct (McpServer.session (context st)) as [held|] eqn:Hh.
  - destruct (session_closed held (network st)) eqn:Hc; simpl.
    + destruct (session_closed ref (network st)) eqn:Hr; [reflexivity|].
      pose proof (Hinv ref Hr) as E. injection E as ->. congruence.
    + destruct (decide (ref = held)) as [->|Hne]; [apply session_closed_after_close|].
      destruct (session_closed ref (close_session_obj held (network st))) eqn:Hr;
        [reflexivity|].
      unfold session_closed, close_session_obj in Hr; simpl in Hr.
      rewrite list_lookup_alter_ne in Hr by congruence.
      assert (session_closed ref (network st) = false) as Hold by exact Hr.
      pose proof (Hinv ref Hold) as E. congruence.
  - simpl. destruct (session_closed ref (network st)) eqn:Hr; [reflexivity|].
    pose proof (Hinv ref Hr) as E. discriminate.
Qed.

Lemma serve_all_snoc (cs : list (Z * Z * mcp_call)) (c : Z * Z * mcp_call)
    (st : McpServer.state) :
  serve_all (cs ++ [c]) st = serve (serve_all cs st) c.
Proof. unfold serve_all. rewrite fold_left_app. reflexivity. Qed.

Lemma serve_all_invariant (cs : list (Z * Z * mcp_call)) (ctx : McpServer.NocoDBContext) :
  McpServer.session ctx = None →
  let st := serve_all cs (yielded ctx) in
  only_held_open (McpServer.session (context st)) (network st)
  ∧ (length (sessions (network st)) ≤ 1)%nat
  ∧ (live_session (McpServer.session (context st)) (network st) = None →
     sessions (network st) = [])
  ∧ (length (sent (network st)) ≤ length cs)%nat
  ∧ McpServer.nocodb_url (context st) = McpServer.nocodb_url ctx
  ∧ McpServer.api_token (context st) = McpServer.api_token ctx.
Proof.
  intros Hnone. cbv zeta.
  induction cs as [|c cs IH] using rev_ind.
  - unfold serve_all, yielded, only_held_open; simpl. repeat split; try lia.
    intros ref Hr. unfold session_closed in Hr. simpl in Hr. discriminate.
  - rewrite serve_all_snoc, length_app. cbn [length].
    set (st := serve_all cs (yielded ctx)) in *.
    destruct IH as (Hinv & Hlen & Hempty & Hsent & Hurl & Htok).
    unfold serve.
    pose proof (call_tool_step c.1.1 c.1.2 c.2 st) as Hstep.
    destruct (mcp_request (context st) c.2) as [req|].
    + destruct Hstep as (ref & st1 & out & Hg & -> & _).
      pose proof (mcp_get_session_only_held st ref st1 Hg Hinv) as Hinv1.
      destruct (mcp_get_session_grows st)
        as (ref' & st1' & Hg' & Hopen & Hs & Hurl1 & Htok1 & _ & Hheld & Hlive).
      rewrite Hg in Hg'. injection Hg' as <- <-.
      cbn [snd with_sent network context sent sessions].
      rewrite length_app, Hs, Hurl1, Htok1. cbn [length].
      assert (live_session (McpServer.session (context st1)) (network st1) = Some ref)
        as Hl1.
      { unfold live_session. rewrite Hheld, Hopen. reflexivity. }
      split; [exact Hinv1|].
      split.
      { destruct (live_session (McpServer.session (context st)) (network st)) eqn:Hl.
        - destruct Hlive as [_ ->]. exact Hlen.
        - destruct Hlive as [_ ->]. rewrite (Hempty eq_refl). simpl. lia. }
      split.
      { unfold live_session, session_closed in *. cbn [sessions].
        rewrite Hl1. discriminate. }
      repeat split; try assumption; lia.
    + destruct Hstep as (out & -> & _). cbn [snd].
      repeat split; try assumption; lia.
Qed.

(** X18: The MCP server works on one session for its whole life: from what
    [lifespan] yields on, however many tools are called, it makes at most
    one session, sends no more requests than tools are called, and leaving
    [lifespan] closes every session there is. *)
Theorem mcp_uses_one_session (env_url env_token : option string) (time : Qc)
    (ctx : McpServer.NocoDBContext) (cs : list (Z * Z * mcp_call)) :
  McpServer.lifespan env_url env_token time = Ok ctx →
  let st := serve_all cs (yielded ctx) in
  (length (sessions (network st)) ≤ 1)%nat
  ∧ (length (sent (network st)) ≤ length cs)%nat
  ∧ McpServer.nocodb_url (context st)
    = rstrip_slash (default "https://nocodb.v1su4.com" env_url)
  ∧ Some (McpServer.api_token (context st)) = env_token
  ∧ ∀ ref, session_closed ref (network (McpServer.lifespan_exit st).2) = true.
Proof.
  intros Hlife.
  assert (McpServer.session ctx = None
          ∧ McpServer.nocodb_url ctx
            = rstrip_slash (default "https://nocodb.v1su4.com" env_url)
          ∧ Some (McpServer.api_token ctx) = env_token) as (Hnone & Hu & Ht).
  { unfold McpServer.lifespan in Hlife.
    destruct env_token as [token|]; [|discriminate].
    destruct (negb (String.eqb token "")); [|discriminate].
    injection Hlife as <-. auto. }
  cbv zeta.
  destruct (serve_all_invariant cs ctx Hnone) as (Hinv & Hlen & _ & Hsent & Hurl & Htok).
  rewrite Hurl, Htok.
  repeat split; try assumption.
  intros ref. apply close_session_closes_all. exact Hinv.
Qed.

End McpLife.

Lemma mcp_uses_one_session_witness :
  let st :=
    @serve_all Demo.runtime
      [(Demo.noon, Demo.noon, HealthCheck true 1%Qc);
       (Demo.noon, Demo.noon, ListTables "p1");
       (Demo.noon, Demo.noon, GetAnalytics "p1" "t1")] (yielded
         {| McpServer.nocodb_url := "https://db.example";
            McpServer.api_token := "tok";
            McpServer.session := None;
            McpServer.startup_time := 0%Qc |}) in
  (length (sessions (network st)) ≤ 1)%nat
  ∧ (length (sent (network st)) ≤ 3)%nat
  ∧ ∀ ref, session_closed ref (network (@McpServer.lifespan_exit st).2) = true.
Proof.
  destruct (@mcp_uses_one_session Demo.runtime (Some "https://db.example/") (Some "tok")
              0%Qc _
              [(Demo.noon, Demo.noon, HealthCheck true 1%Qc);
               (Demo.noon, Demo.noon, ListTables "p1");
               (Demo.noon, Demo.noon, GetAnalytics "p1" "t1")] eq_refl)
    as (H1 & H2 & _ & _ & H3).
  repeat split; assumption.
Defined.

(** ** The analytics, exactly *)

Lemma shot_loop_counts (l : list record) (acc m : gmap key nat) :
  for_each shot_type_step acc l = Ok m →
  (∀ k, default 0 (m !! k) = default 0 (acc !! k) + length (List.filter (shot_is k) l))%nat
  ∧ (shot_total m = shot_total acc + count_with "shot_type" l)%nat.
Proof.
  revert acc. unfold count_with.
  induction l as [|r l IH]; intros acc Hrun; simpl in Hrun.
  - injection Hrun as <-. simpl. split; intros; lia.
  - rewrite shot_type_step_class in Hrun.
    unfold shot_is, get_truthy. cbn [List.filter].
    unfold classify_shot in *.
    destruct (dict_get "shot_type" r) as [v|]; [destruct (truthy v) eqn:Ht|].
    + destruct (hash_key v) as [k'|]; [|discriminate].
      destruct (IH _ Hrun) as (Hk & Htot). split.
      * intros k. rewrite (Hk k). unfold shot_is, classify_shot.
        destruct (decide (k' = k)) as [->|Hne].
        -- rewrite lookup_insert_eq, bool_decide_eq_true_2 by reflexivity. simpl. lia.
        -- rewrite lookup_insert_ne, bool_decide_eq_false_2 by assumption. simpl. lia.
      * rewrite Htot. unfold get_truthy. simpl.
        pose proof (shot_total_insert acc k' (default 0 (acc !! k') + 1)) as Hins. lia.
    + destruct (IH _ Hrun) as (Hk & Htot). split.
      * intros k. rewrite (Hk k). reflexivity.
      * rewrite Htot. reflexivity.
    + destruct (IH _ Hrun) as (Hk & Htot). split.
      * intros k. rewrite (Hk k). reflexivity.
      * rewrite Htot. reflexivity.
Qed.

Section Exact.
Context `{Runtime}.

(** X19: In a report of either server the count of a shot type is the number
    of records with that shot type, keys being compared as Python compares
    them, and the counts add up to the number of records that have a shot
    type. *)
Theorem shot_types_count_records (now : Z) (records : list record) (a : analytics) :
  FastApi.compute_analytics now records = Ok a
  ∨ McpServer.compute_analytics now records = Ok a →
  (∀ k, default 0%nat (shot_types a !! k) = length (List.filter (shot_is k) records))
  ∧ shot_total (shot_types a) = count_with "shot_type" records.
Proof.
  intros Hrun.
  assert (for_each shot_type_step ∅ records = Ok (shot_types a)) as Hshots.
  { unfold FastApi.compute_analytics, McpServer.compute_analytics in Hrun.
    destruct (for_each shot_type_step ∅ records) as [m|e]; simpl in Hrun.
    - destruct Hrun as [Hrun|Hrun].
      + destruct (FastApi.recent_activity now records); simpl in Hrun; [|discriminate].
        injection Hrun as <-. reflexivity.
      + destruct (McpServer.recent_activity now records); simpl in Hrun; [|discriminate].
        injection Hrun as <-. reflexivity.
    - destruct Hrun; discriminate. }
  destruct (shot_loop_counts records ∅ (shot_types a) Hshots) as (Hk & Htot).
  split.
  - intros k. rewrite (Hk k), lookup_empty. reflexivity.
  - rewrite Htot. unfold shot_total. rewrite map_fold_empty. reflexivity.
Qed.

Lemma recent_loop_of_comprehension (cutoff : datetime) (l : list record) (count : nat)
    (kept : list record) :
  comprehension (FastApi.is_recent cutoff) l = Ok kept →
  for_each (McpServer.recent_step cutoff) count l = Ok (count + length kept)%nat.
Proof.
  revert count kept.
  induction l as [|r l IH]; intros count kept Hc; simpl in Hc.
  - injection Hc as <-. simpl. f_equal. lia.
  - destruct (FastApi.is_recent cutoff r) as [b|e] eqn:Hr; [|discriminate].
    destruct (comprehension (FastApi.is_recent cutoff) l) as [rest|e] eqn:Hrest;
      [|discriminate].
    injection Hc as <-.
    cbn [for_each]. rewrite recent_step_class, (is_recent_ok _ _ _ Hr). cbn.
    rewrite (IH _ rest eq_refl).
    destruct b; simpl; f_equal; lia.
Qed.

(** X20: Where the plain HTTP surface can aggregate a batch, the MCP server
    aggregates it to the same analytics and the same percentages; the
    summaries differ only in the pictograph that opens the message of the
    first. *)
Theorem servers_agree_on_analytics (now : Z) (records : list record) (a : analytics)
    (s : summary) :
  FastApi.analyse now records = Ok (a, s) →
  ∃ s',
    McpServer.analyse now records = Ok (a, s')
    ∧ message s = "📊 " +:+ message s'
    ∧ cinematic_percentage s' = cinematic_percentage s
    ∧ anime_percentage s' = anime_percentage s
    ∧ sref_coverage s' = sref_coverage s.
Proof.
  unfold FastApi.analyse, McpServer.analyse, FastApi.compute_analytics,
    McpServer.compute_analytics, FastApi.recent_activity, McpServer.recent_activity.
  destruct (for_each shot_type_step ∅ records) as [m|e]; [|discriminate].
  cbn [mbind result_bind].
  destruct (comprehension _ records) as [kept|e] eqn:Hkept; [|discriminate].
  rewrite (recent_loop_of_comprehension _ _ 0%nat kept Hkept).
  cbn [fmap result_fmap mbind result_bind plus].
  unfold FastApi.summarize, McpServer.summarize.
  cbn [total_reactions cinematic_count anime_count with_sref_codes with_images
       recent_24h].
  destruct (percentage (count_with "cinematic" records) (length records)) as [c|e];
    [|discriminate].
  destruct (percentage (count_with "anime" records) (length records)) as [an|e];
    [|discriminate].
  destruct (percentage (count_with "sref_code" records) (length records)) as [sr|e];
    [|discriminate].
  cbn [mbind result_bind]. intros Hrun. injection Hrun as <- <-.
  eexists. split; [reflexivity|]. repeat split; reflexivity.
Qed.

Lemma shot_loop_total (l : list record) (acc : gmap key nat) :
  for_each shot_type_step acc l
  = if forallb (λ r, match classify_shot r with Unhashable => false | _ => true end) l
    then for_each shot_type_step acc l
    else Raise TypeError.
Proof.
  revert acc. induction l as [|r l IH]; intros acc; [reflexivity|].
  cbn [for_each forallb]. rewrite shot_type_step_class.
  destruct (classify_shot r); cbn [andb]; try reflexivity.
  - rewrite IH. destruct (forallb _ l); reflexivity.
  - rewrite IH. destruct (forallb _ l); reflexivity.
Qed.

Lemma shot_loop_returns (l : list record) (acc : gmap key nat) :
  forallb (λ r, match classify_shot r with Unhashable => false | _ => true end) l = true →
  ∃ m, for_each shot_type_step acc l = Ok m.
Proof.
  revert acc. induction l as [|r l IH]; intros acc Hall; [eexists; reflexivity|].
  cbn [for_each forallb] in *. rewrite shot_type_step_class.
  apply andb_true_iff in Hall as [Hr Hl].
  destruct (classify_shot r); try discriminate; apply IH, Hl.
Qed.

Lemma counts_as_recent_aware (cutoff : datetime) (r : record) :
  utcoffset cutoff = None →
  is_ok (counts_as_recent cutoff r) = negb (aware_timestamp r).
Proof.
  intros Hnaive. unfold counts_as_recent, aware_timestamp.
  destruct (dict_get "timestamp" r) as [[]|]; try reflexivity.
  destruct (String.eqb _ ""); [reflexivity|].
  destruct (fromisoformat _) as [t|]; [|reflexivity].
  unfold dt_gt. rewrite Hnaive. destruct (utcoffset t); reflexivity.
Qed.

(** X21: The MCP server can aggregate a batch exactly when no record has
    a shot type that cannot be a key and none has a timestamp that parses
    to an aware instant; a timestamp that is missing, falsy, not a string
    or not parsable is skipped.  Then the recent count is the number of
    records whose timestamp parses to a time after the cutoff; otherwise
    the exception is a [TypeError]. *)
Theorem mcp_analytics_returns_iff (now : Z) (records : list record) :
  let cutoff := dt_sub (naive now) (timedelta_hours 24) in
  if forallb aggregable records
  then ∃ a s,
         McpServer.analyse now records = Ok (a, s)
         ∧ recent_24h a
           = length (List.filter (passes (counts_as_recent cutoff)) records)
  else McpServer.analyse now records = Raise TypeError.
Proof.
  cbv zeta.
  set (cutoff := dt_sub (naive now) (timedelta_hours 24)).
  assert (forallb aggregable records
          = forallb (λ r, match classify_shot r with Unhashable => false | _ => true end)
              records
            && forallb (λ r, is_ok (counts_as_recent cutoff r)) records) as ->.
  { induction records as [|r l IH]; [reflexivity|].
    cbn [forallb]. rewrite IH. unfold aggregable.
    rewrite (counts_as_recent_aware cutoff r eq_refl).
    destruct (classify_shot r), (negb (aware_timestamp r)),
      (forallb (λ r, match classify_shot r with Unhashable => false | _ => true end) l),
      (forallb (λ r, is_ok (counts_as_recent cutoff r)) l); reflexivity. }
  unfold McpServer.analyse, McpServer.compute_analytics, McpServer.recent_activity.
  fold cutoff.
  rewrite shot_loop_total, recent_loop_exact.
  destruct (forallb (λ r, match classify_shot r with Unhashable => false | _ => true end)
              records) eqn:Hshots; cbn [andb]; [|reflexivity].
  destruct (shot_loop_returns records ∅ Hshots) as (m & ->).
  cbn [mbind result_bind].
  destruct (forallb (λ r, is_ok (counts_as_recent cutoff r)) records); [|reflexivity].
  cbn [mbind result_bind].
  match goal with
  | |- context [McpServer.summarize ?a] =>
      pose proof (proj2 (summarize_returns a)) as Hs;
      destruct (McpServer.summarize a) as [s|e]; [|discriminate]
  end.
  eexists _, s. split; reflexivity.
Qed.

End Exact.

Lemma shot_types_count_records_witness :
  ∃ a,
    @McpServer.compute_analytics Demo.runtime Demo.noon [Demo.row1; Demo.row2; Demo.row3]
    = Ok a
    ∧ default 0%nat (shot_types a !! KStr "close-up") = 2%nat
    ∧ default 0%nat (shot_types a !! KStr "wide") = 1%nat
    ∧ default 0%nat (shot_types a !! KStr "aerial") = 0%nat
    ∧ shot_total (shot_types a) = 3%nat.
Proof.
  destruct (@McpServer.compute_analytics Demo.runtime Demo.noon
              [Demo.row1; Demo.row2; Demo.row3]) as [a|e] eqn:Hrun;
    [|vm_compute in Hrun; discriminate].
  exists a. split; [reflexivity|].
  destruct (@shot_types_count_records Demo.runtime Demo.noon
              [Demo.row1; Demo.row2; Demo.row3] a (or_intror Hrun)) as (Hk & Htot).
  rewrite !Hk, Htot. repeat split; reflexivity.
Defined.

Lemma servers_agree_on_analytics_witness :
  ∃ a s s',
    @FastApi.analyse Demo.runtime Demo.noon [Demo.row1; Demo.row2] = Ok (a, s)
    ∧ @McpServer.analyse Demo.runtime Demo.noon [Demo.row1; Demo.row2] = Ok (a, s')
    ∧ message s = "📊 " +:+ message s'.
Proof.
  destruct (@FastApi.analyse Demo.runtime Demo.noon [Demo.row1; Demo.row2])
    as [[a s]|e] eqn:Hrun; [|vm_compute in Hrun; discriminate].
  destruct (@servers_agree_on_analytics Demo.runtime Demo.noon [Demo.row1; Demo.row2]
              a s Hrun) as (s' & Hmcp & Hmsg & _).
  exists a, s, s'. auto.
Defined.

(** ** The percentages at both ends *)

Section Extremes.
Local Open Scope Q_scope.
Import Float64.

Lemma round_half_even_compat (q q' : Q) :
  q == q' → round_half_even q = round_half_even q'.
Proof.
  intros Hq. unfold round_half_even.
  rewrite (Qfloor_comp _ _ Hq).
  assert (q - inject_Z (Qfloor q') == q' - inject_Z (Qfloor q')) as Hd
    by (rewrite Hq; reflexivity).
  rewrite (Qcompare_comp _ _ Hd _ _ (Qeq_refl (1 # 2))). reflexivity.
Qed.

Lemma ilog2_compat (q q' : Q) : 0 < q → q == q' → ilog2 q = ilog2 q'.
Proof.
  intros Hpos Hq.
  assert (0 < q') as Hpos' by (rewrite <- Hq; exact Hpos).
  destruct (ilog2_spec q Hpos) as [Hlo _].
  destruct (ilog2_spec q' Hpos') as [Hlo' _].
  assert (ilog2 q <= ilog2 q')%Z
    by (apply ilog2_lower; [exact Hpos'|rewrite <- Hq; exact Hlo]).
  assert (ilog2 q' <= ilog2 q)%Z
    by (apply ilog2_lower; [exact Hpos|rewrite Hq; exact Hlo']).
  lia.
Qed.

Lemma rn_compat (q q' : Q) : q == q' → rn q == rn q'.
Proof.
  intros Hq. unfold rn.
  destruct (Qeq_bool q 0) eqn:Hz.
  - apply Qeq_bool_iff in Hz.
    assert (Qeq_bool q' 0 = true) as -> by (apply Qeq_bool_iff; rewrite <- Hq; exact Hz).
    reflexivity.
  - assert (Qeq_bool q' 0 = false) as ->.
    { destruct (Qeq_bool q' 0) eqn:Hz'; [|reflexivity].
      apply Qeq_bool_iff in Hz'. rewrite <- Hq in Hz'.
      apply Qeq_bool_iff in Hz'. congruence. }
    assert (ulp_exponent q = ulp_exponent q') as He.
    { unfold ulp_exponent. f_equal. f_equal.
      apply ilog2_compat; [|rewrite Hq; reflexivity].
      destruct (Qlt_le_dec 0 (Qabs q)) as [Hlt|Hle]; [exact Hlt|].
      exfalso. assert (Qabs q == 0) as Habs
        by (apply Qle_antisym; [exact Hle|apply Qabs_nonneg]).
      assert (q == 0) as Hq0.
      { apply Qle_antisym.
        - rewrite <- Habs. apply Qle_Qabs.
        - assert (- q <= 0) by (rewrite <- Habs, <- Qabs_opp; apply Qle_Qabs). lra. }
      apply Qeq_bool_iff in Hq0. congruence. }
    cbv zeta. rewrite <- He.
    assert (∀ e : Z, q / 2 ^ e == q' / 2 ^ e) as Hd
      by (intros e; rewrite Hq; reflexivity).
    rewrite (round_half_even_compat _ _ (Hd (ulp_exponent q))). reflexivity.
Qed.

Lemma Q2Qc_compat (q q' : Q) : q == q' → Q2Qc q = Q2Qc q'.
Proof. intros Hq. apply Qc_is_canon. simpl. rewrite !Qred_correct. exact Hq. Qed.

Lemma percentage_of (count total : nat) (ratio : Q) :
  (0 < total)%nat →
  inject_Z (Z.of_nat count) / inject_Z (Z.of_nat total) == ratio →
  percentage count total
  = Ok (VFloat (Q2Qc (round1 (mul (rn ratio) (inject_Z 100))))).
Proof.
  intros Hpos Hratio. unfold percentage, true_div.
  assert ((0 <? total)%nat = true) as -> by (apply Nat.ltb_lt; exact Hpos).
  assert ((Z.of_nat total =? 0)%Z = false) as -> by (apply Z.eqb_neq; lia).
  cbn [mbind result_bind]. do 2 f_equal.
  apply Q2Qc_compat. unfold round1, mul, tenths.
  assert (rn (rn (inject_Z (Z.of_nat count) / inject_Z (Z.of_nat total)) * inject_Z 100)
          == rn (rn ratio * inject_Z 100)) as Hm.
  { apply rn_compat. rewrite (rn_compat _ _ Hratio). reflexivity. }
  apply rn_compat.
  assert (rn (rn (inject_Z (Z.of_nat count) / inject_Z (Z.of_nat total)) * inject_Z 100)
            * 10
          == rn (rn ratio * inject_Z 100) * 10) as Ht by (rewrite Hm; reflexivity).
  rewrite (round_half_even_compat _ _ Ht). reflexivity.
Qed.

(** X22: Whatever the size of the batch, a count that equals the total gives
    exactly 100.0 and a count of zero gives exactly 0.0. *)
Theorem percentage_extremes (total : nat) :
  (0 < total)%nat →
  percentage total total = Ok (VFloat (Q2Qc 100))
  ∧ percentage 0 total = Ok (VFloat (Q2Qc 0)).
Proof.
  intros Hpos.
  assert (0 < inject_Z (Z.of_nat total)) as Hq.
  { replace 0 with (inject_Z 0) by reflexivity. rewrite <- Zlt_Qlt. lia. }
  split.
  - rewrite (percentage_of total total 1 Hpos).
    + do 2 f_equal. apply Q2Qc_compat. vm_compute. reflexivity.
    + field; lra.
  - rewrite (percentage_of 0 total 0 Hpos).
    + reflexivity.
    + simpl. field; lra.
Qed.

End Extremes.

Lemma percentage_extremes_witness :
  percentage 7 7 = Ok (VFloat (Q2Qc 100)) ∧ percentage 0 7 = Ok (VFloat (Q2Qc 0)).
Proof. apply (percentage_extremes 7). lia. Defined.
